(** * FreshFlow AI cloud functions: request handlers over a data warehouse

    A shallow embedding of the HTTP handlers of the repository
    (agrioptimize, logifresh, marketflow, getoptimizedeliveryroute and the
    four lookup functions) and the properties their specification states.

    The handlers are glue code around three external services: the
    BigQuery client, the Google Maps web APIs and the Python runtime
    (clock, random generator, uuid).  They are embedded as functions in a
    state-and-exception monad: the state records the external calls a
    request performs, in order; the answers of the external services are
    read from an environment [Env], about which nothing is assumed. *)

From Stdlib Require Import ZArith List String Ascii Bool Floats Lia.
Import ListNotations.
Open Scope string_scope.
Open Scope Z_scope.

(** ** Python values

    The values the handlers compute with are the ones [json.loads] and
    the BigQuery client produce: [None], booleans, integers, floats,
    strings, lists and dictionaries with string keys.  A dictionary keeps
    its insertion order; a lookup takes the first binding of a key. *)

Unset Elimination Schemes.
Inductive value : Type :=
| VNone
| VBool (b : bool)
| VInt (n : Z)
| VFloat (x : float)
| VStr (s : string)
| VList (items : list value)
| VDict (fields : list (string * value)).
Set Elimination Schemes.

(** Exceptions a handler can meet; only the class matters to the
    [except] clauses of the source.  [ClientError] stands for whatever an
    external client raises; [RecursionError] is what the JSON parser
    raises on a body nested too deep. *)
Inductive exc : Type :=
| TypeError | ValueError | KeyError | IndexError | AttributeError | OverflowError
| RecursionError
| ClientError.

Inductive result (A : Type) : Type :=
| Ok (a : A)
| Raise (e : exc).
Arguments Ok {A} a.
Arguments Raise {A} e.

Definition exc_eqb (a b : exc) : bool :=
  match a, b with
  | TypeError, TypeError | ValueError, ValueError | KeyError, KeyError
  | IndexError, IndexError | AttributeError, AttributeError
  | OverflowError, OverflowError | RecursionError, RecursionError
  | ClientError, ClientError => true
  | _, _ => false
  end.

(** ** Strings *)

Definition nl : string := String (ascii_of_nat 10) EmptyString.

(** The double quote character, as a string. *)
Definition dq : string := String (ascii_of_nat 34) EmptyString.

(** [unlines] joins the lines of a triple-quoted literal.  The SQL texts
    below keep the line breaks of the source (a [--] comment ends at the
    line break) and drop the indentation. *)
Definition unlines (ls : list string) : string := String.concat nl ls.

(** [', '.join(l)] and the like. *)
Definition join (sep : string) (l : list string) : string := String.concat sep l.

(** [needle in hay] for two strings. *)
Fixpoint str_contains (needle hay : string) : bool :=
  if String.prefix needle hay then true
  else match hay with
       | EmptyString => false
       | String _ rest => str_contains needle rest
       end.

(** [s.replace(old, new)] for a non-empty [old]: occurrences are replaced
    left to right without overlap; [skip] counts the characters of the
    occurrence just replaced that are still to be dropped. *)
Fixpoint replace_from (old new : string) (skip : nat) (s : string) : string :=
  match s with
  | EmptyString => EmptyString
  | String c rest =>
      match skip with
      | S k => replace_from old new k rest
      | O => if String.prefix old s
             then new ++ replace_from old new (String.length old - 1) rest
             else String c (replace_from old new O rest)
      end
  end.
Definition str_replace (old new s : string) : string := replace_from old new O s.

(** [s.split(sep)] for a non-empty [sep]. *)
Fixpoint split_from (sep : string) (skip : nat) (cur s : string) : list string :=
  match s with
  | EmptyString => [cur]
  | String c rest =>
      match skip with
      | S k => split_from sep k cur rest
      | O => if String.prefix sep s
             then cur :: split_from sep (String.length sep - 1) EmptyString rest
             else split_from sep O (cur ++ String c EmptyString) rest
      end
  end.
Definition str_split (sep s : string) : list string := split_from sep O EmptyString s.

(** ASCII white space, as [str.strip()] removes it. *)
Definition is_space (c : ascii) : bool :=
  let n := nat_of_ascii c in
  (Nat.eqb n 32 || (Nat.leb 9 n && Nat.leb n 13) || (Nat.leb 28 n && Nat.leb n 31))%bool.

Fixpoint lstrip (s : string) : string :=
  match s with
  | String c rest => if is_space c then lstrip rest else s
  | EmptyString => EmptyString
  end.

Fixpoint rstrip (s : string) : string :=
  match s with
  | EmptyString => EmptyString
  | String c rest =>
      match rstrip rest with
      | EmptyString => if is_space c then EmptyString else String c EmptyString
      | r => String c r
      end
  end.

Definition str_strip (s : string) : string := rstrip (lstrip s).

(** [s.lower()] on the ASCII letters. *)
Definition lower_ascii (c : ascii) : ascii :=
  let n := nat_of_ascii c in
  if (Nat.leb 65 n && Nat.leb n 90)%bool then ascii_of_nat (n + 32) else c.

Fixpoint str_lower (s : string) : string :=
  match s with
  | EmptyString => EmptyString
  | String c rest => String (lower_ascii c) (str_lower rest)
  end.

(** Decimal rendering of integers, [str(n)] and the [%0kd] of [isoformat]. *)
Definition digit_char (d : Z) : ascii := ascii_of_nat (48 + Z.to_nat d).

Fixpoint digits_of (fuel : nat) (n : Z) (acc : string) : string :=
  match fuel with
  | O => acc
  | S k => let acc' := String (digit_char (n mod 10)) acc in
           if n <? 10 then acc' else digits_of k (n / 10) acc'
  end.

Definition str_of_nonneg (n : Z) : string :=
  digits_of (S (Z.to_nat (Z.log2 n))) n EmptyString.

Definition str_of_Z (n : Z) : string :=
  if n <? 0 then "-" ++ str_of_nonneg (- n) else str_of_nonneg n.

Fixpoint zeros (k : nat) : string :=
  match k with O => EmptyString | S j => String "0" (zeros j) end.

Definition pad0 (width : nat) (n : Z) : string :=
  let s := str_of_nonneg n in zeros (width - String.length s) ++ s.

(** ** Operations of the Python data model *)

Fixpoint assoc (k : string) (kvs : list (string * value)) : option value :=
  match kvs with
  | [] => None
  | (k', v) :: rest => if String.eqb k k' then Some v else assoc k rest
  end.

(** [bool(v)]: what [if v] and [not v] test. *)
Definition truthy (v : value) : bool :=
  match v with
  | VNone => false
  | VBool b => b
  | VInt n => negb (n =? 0)
  | VFloat x => negb (PrimFloat.eqb x 0%float)
  | VStr s => negb (String.eqb s EmptyString)
  | VList l => match l with [] => false | _ => true end
  | VDict d => match d with [] => false | _ => true end
  end.

(** [v is None] *)
Definition is_none (v : value) : bool :=
  match v with VNone => true | _ => false end.

Definition is_str_eq (k : string) (v : value) : bool :=
  match v with VStr s => String.eqb k s | _ => false end.

(** [k in v] for a string [k]: key of a dictionary, element of a list,
    substring of a string; the other values are not iterable. *)
Definition contains (v : value) (k : string) : result bool :=
  match v with
  | VDict d => Ok (match assoc k d with Some _ => true | None => false end)
  | VList l => Ok (existsb (is_str_eq k) l)
  | VStr s => Ok (str_contains k s)
  | _ => Raise TypeError
  end.

(** [v[k]] for a string [k]. *)
Definition getitem (v : value) (k : string) : result value :=
  match v with
  | VDict d => match assoc k d with Some x => Ok x | None => Raise KeyError end
  | _ => Raise TypeError
  end.

(** [v.get(k, default)]; only dictionaries have the method. *)
Definition get_default (v : value) (k : string) (default : value) : result value :=
  match v with
  | VDict d => Ok (match assoc k d with Some x => x | None => default end)
  | _ => Raise AttributeError
  end.

(** [v.get(k)] *)
Definition get (v : value) (k : string) : result value := get_default v k VNone.

(** [v[0]] *)
Definition item0 (v : value) : result value :=
  match v with
  | VList (x :: _) => Ok x
  | VList [] => Raise IndexError
  | VStr (String c _) => Ok (VStr (String c EmptyString))
  | VStr EmptyString => Raise IndexError
  | VDict _ => Raise KeyError
  | _ => Raise TypeError
  end.

Definition is_list (v : value) : bool :=
  match v with VList _ => true | _ => false end.

(** [all(field in data for field in required_fields)]: stops at the first
    field that is absent, raises where the first test raises. *)
Fixpoint all_in (required_fields : list string) (data : value) : result bool :=
  match required_fields with
  | [] => Ok true
  | field :: rest =>
      match contains data field with
      | Ok true => all_in rest data
      | Ok false => Ok false
      | Raise e => Raise e
      end
  end.

(** [[field for field in required_fields if not data or field not in data]] *)
Fixpoint missing_fields (required_fields : list string) (data : value)
  : result (list string) :=
  match required_fields with
  | [] => Ok []
  | field :: rest =>
      let keep :=
        if negb (truthy data) then Ok true
        else match contains data field with
             | Ok b => Ok (negb b)
             | Raise e => Raise e
             end in
      match keep with
      | Raise e => Raise e
      | Ok b =>
          match missing_fields rest data with
          | Raise e => Raise e
          | Ok l => Ok (if b then field :: l else l)
          end
      end
  end.

(** [type(v).__name__] *)
Definition type_name (v : value) : string :=
  match v with
  | VNone => "NoneType"
  | VBool _ => "bool"
  | VInt _ => "int"
  | VFloat _ => "float"
  | VStr _ => "str"
  | VList _ => "list"
  | VDict _ => "dict"
  end.

(** *** Numbers *)

(** The double nearest to 0.9. *)
Definition point_nine : float := 0x1.ccccccccccccdp-1%float.

Definition float_of_Z (n : Z) : float :=
  SF2Prim (binary_normalize prec emax n 0 false).

(** [float(n)] for an integer: correctly rounded, [OverflowError] beyond
    the range of a double. *)
Definition float_of_int (n : Z) : result float :=
  let x := float_of_Z n in
  if PrimFloat.is_infinity x then Raise OverflowError else Ok x.

(** [int(x)] for a float: truncation towards zero. *)
Definition int_of_float (x : float) : result Z :=
  match Prim2SF x with
  | S754_nan => Raise ValueError
  | S754_infinity _ => Raise OverflowError
  | S754_zero _ => Ok 0
  | S754_finite s m e =>
      let a := if 0 <=? e then Zpos m * 2 ^ e else Zpos m / 2 ^ (- e) in
      Ok (if s then - a else a)
  end.

(** [x >= q] for a float and an integer, compared exactly as Python does. *)
Definition float_ge_int (x : float) (q : Z) : bool :=
  match Prim2SF x with
  | S754_nan => false
  | S754_infinity s => negb s
  | S754_zero _ => q <=? 0
  | S754_finite s m e =>
      let m' := if s then Zneg m else Zpos m in
      if 0 <=? e then q <=? m' * 2 ^ e else q * 2 ^ (- e) <=? m'
  end.

(** ** Dates and times

    [datetime.date] as a validated triple, [datetime.datetime] as the
    proleptic Gregorian ordinal of its date with the second of the day
    and the microsecond; a [timedelta] is a number of seconds (the source
    builds no fractional one). *)

Record date : Type := mkdate { year : Z; month : Z; day : Z }.

Definition is_leap (y : Z) : bool :=
  ((y mod 4 =? 0) && (negb (y mod 100 =? 0) || (y mod 400 =? 0)))%bool.

Definition days_in_month (y m : Z) : Z :=
  if m =? 2 then (if is_leap y then 29 else 28)
  else if (m =? 4) || (m =? 6) || (m =? 9) || (m =? 11) then 30 else 31.

Definition days_before_year (y : Z) : Z :=
  let p := y - 1 in p * 365 + p / 4 - p / 100 + p / 400.

Definition days_before_month (y m : Z) : Z :=
  nth (Z.to_nat m) [0; 0; 31; 59; 90; 120; 151; 181; 212; 243; 273; 304; 334] 0
  + (if (2 <? m) && is_leap y then 1 else 0).

Definition MINYEAR : Z := 1.
Definition MAXYEAR : Z := 9999.

(** What the [date] constructor accepts. *)
Definition valid_date (y m d : Z) : bool :=
  ((MINYEAR <=? y) && (y <=? MAXYEAR) && (1 <=? m) && (m <=? 12)
   && (1 <=? d) && (d <=? days_in_month y m))%bool.

Definition toordinal (d : date) : Z :=
  days_before_year (year d) + days_before_month (year d) (month d) + day d.

(** [date.fromordinal], after CPython's [_ord2ymd]. *)
Definition fromordinal (n : Z) : date :=
  let n := n - 1 in
  let n400 := n / 146097 in let n := n mod 146097 in
  let n100 := n / 36524 in let n := n mod 36524 in
  let n4 := n / 1461 in let n := n mod 1461 in
  let n1 := n / 365 in let n := n mod 365 in
  let y := n400 * 400 + 1 + n100 * 100 + n4 * 4 + n1 in
  if (n1 =? 4) || (n100 =? 4) then mkdate (y - 1) 12 31
  else
    let leapyear := ((n1 =? 3) && (negb (n4 =? 24) || (n100 =? 3)))%bool in
    let m := Z.shiftr (n + 50) 5 in
    let preceding :=
      nth (Z.to_nat m) [0; 0; 31; 59; 90; 120; 151; 181; 212; 243; 273; 304; 334] 0
      + (if (2 <? m) && leapyear then 1 else 0) in
    if n <? preceding then
      let m' := m - 1 in
      let dim := nth (Z.to_nat m') [0; 31; 28; 31; 30; 31; 30; 31; 31; 30; 31; 30; 31] 0
                 + (if (m' =? 2) && leapyear then 1 else 0) in
      mkdate y m' (n - (preceding - dim) + 1)
    else mkdate y m (n - preceding + 1).

Definition MAXORDINAL : Z := 3652059.

(** [d.isoformat()] *)
Definition date_isoformat (d : date) : string :=
  pad0 4 (year d) ++ "-" ++ pad0 2 (month d) ++ "-" ++ pad0 2 (day d).

Record datetime : Type := mkdatetime { dt_ordinal : Z; dt_second : Z; dt_microsecond : Z }.

(** [datetime.combine(d, datetime.min.time())] *)
Definition at_midnight (d : date) : datetime := mkdatetime (toordinal d) 0 0.

(** [timedelta(days=d, hours=h, minutes=m, seconds=s)], in seconds; the
    constructor refuses more than 999999999 days. *)
Definition timedelta (d h m s : Z) : result Z :=
  let total := d * 86400 + h * 3600 + m * 60 + s in
  if Z.abs (total / 86400) <=? 999999999 then Ok total else Raise OverflowError.

(** [t + delta] for two timedeltas. *)
Definition timedelta_add (t delta : Z) : result Z := timedelta 0 0 0 (t + delta).

(** [dt + delta]: [OverflowError] outside years 1 to 9999. *)
Definition datetime_add (dt : datetime) (delta : Z) : result datetime :=
  let t := dt_second dt + delta in
  let o := dt_ordinal dt + t / 86400 in
  if (1 <=? o) && (o <=? MAXORDINAL)
  then Ok (mkdatetime o (t mod 86400) (dt_microsecond dt))
  else Raise OverflowError.

(** [dt.isoformat()] *)
Definition datetime_isoformat (dt : datetime) : string :=
  let s := dt_second dt in
  date_isoformat (fromordinal (dt_ordinal dt)) ++ "T"
  ++ pad0 2 (s / 3600) ++ ":" ++ pad0 2 (s / 60 mod 60) ++ ":" ++ pad0 2 (s mod 60)
  ++ (if dt_microsecond dt =? 0 then EmptyString else "." ++ pad0 6 (dt_microsecond dt)).

(** *** [datetime.strptime(s, '%Y-%m-%d').date()]

    The format compiles to the regular expression
    [(\d\d\d\d)-(1[0-2]|0[1-9]|[1-9])-(3[0-1]|[1-2]\d|0[1-9]|[1-9]| [1-9])],
    which must match the whole string.  The classes written with a range
    hold the ASCII digits only; [\d] is a decimal digit of any script,
    which [int()] then reads by its value.  A string holds the UTF-8
    encoding of its text, so a digit beyond ASCII takes several
    characters of it. *)

Definition digit (c : ascii) : option Z :=
  let n := nat_of_ascii c in
  if (Nat.leb 48 n && Nat.leb n 57)%bool then Some (Z.of_nat n - 48) else None.

Definition digit_in (lo hi : Z) (c : ascii) : option Z :=
  match digit c with
  | Some d => if (lo <=? d) && (d <=? hi) then Some d else None
  | None => None
  end.

(** The six low bits of a continuation byte of UTF-8. *)
Definition continuation (c : ascii) : option Z :=
  let n := Z.of_nat (nat_of_ascii c) in
  if (128 <=? n) && (n <? 192) then Some (n - 128) else None.

(** The code point at the head of a UTF-8 text, with the rest of the
    text; [None] where the text does not start with a well-formed
    sequence. *)
Definition code_point (cs : list ascii) : option (Z * list ascii) :=
  match cs with
  | [] => None
  | a :: rest =>
      let n := Z.of_nat (nat_of_ascii a) in
      if n <? 128 then Some (n, rest)
      else if n <? 192 then None
      else if n <? 224 then
        match rest with
        | b :: rest =>
            match continuation b with
            | Some x => let cp := (n - 192) * 64 + x in
                        if 128 <=? cp then Some (cp, rest) else None
            | None => None
            end
        | _ => None
        end
      else if n <? 240 then
        match rest with
        | b :: c :: rest =>
            match continuation b, continuation c with
            | Some x, Some y => let cp := ((n - 224) * 64 + x) * 64 + y in
                                if 2048 <=? cp then Some (cp, rest) else None
            | _, _ => None
            end
        | _ => None
        end
      else if n <? 248 then
        match rest with
        | b :: c :: d :: rest =>
            match continuation b, continuation c, continuation d with
            | Some x, Some y, Some z =>
                let cp := (((n - 240) * 64 + x) * 64 + y) * 64 + z in
                if (65536 <=? cp) && (cp <=? 1114111) then Some (cp, rest) else None
            | _, _, _ => None
            end
        | _ => None
        end
      else None
  end.

(** The digits zero of the scripts of Unicode 14 (the characters of
    category Nd whose value is 0); the nine code points after each are
    the digits one to nine of its script. *)
Definition decimal_zeros : list Z :=
  [0x30; 0x660; 0x6f0; 0x7c0; 0x966; 0x9e6; 0xa66; 0xae6; 0xb66; 0xbe6; 0xc66;
   0xce6; 0xd66; 0xde6; 0xe50; 0xed0; 0xf20; 0x1040; 0x1090; 0x17e0; 0x1810;
   0x1946; 0x19d0; 0x1a80; 0x1a90; 0x1b50; 0x1bb0; 0x1c40; 0x1c50; 0xa620;
   0xa8d0; 0xa900; 0xa9d0; 0xa9f0; 0xaa50; 0xabf0; 0xff10; 0x104a0; 0x10d30;
   0x11066; 0x110f0; 0x11136; 0x111d0; 0x112f0; 0x11450; 0x114d0; 0x11650;
   0x116c0; 0x11730; 0x118e0; 0x11950; 0x11c50; 0x11d50; 0x11da0; 0x16a60;
   0x16ac0; 0x16b50; 0x1d7ce; 0x1d7d8; 0x1d7e2; 0x1d7ec; 0x1d7f6; 0x1e140;
   0x1e2f0; 0x1e950; 0x1fbf0].

(** The value of a decimal digit, [None] for any other character. *)
Definition decimal_value (cp : Z) : option Z :=
  match find (fun zero => (zero <=? cp) && (cp <=? zero + 9)) decimal_zeros with
  | Some zero => Some (cp - zero)
  | None => None
  end.

(** [\d] *)
Definition parse_digit (cs : list ascii) : option (Z * list ascii) :=
  match code_point cs with
  | Some (cp, rest) =>
      match decimal_value cp with
      | Some d => Some (d, rest)
      | None => None
      end
  | None => None
  end.

(** [\d\d\d\d] *)
Definition parse_year (cs : list ascii) : option (Z * list ascii) :=
  match parse_digit cs with
  | Some (a, r1) =>
      match parse_digit r1 with
      | Some (b, r2) =>
          match parse_digit r2 with
          | Some (c, r3) =>
              match parse_digit r3 with
              | Some (d, rest) => Some (a * 1000 + b * 100 + c * 10 + d, rest)
              | None => None
              end
          | None => None
          end
      | None => None
      end
  | None => None
  end.

Definition parse_one (lo hi : Z) (cs : list ascii) : option (Z * list ascii) :=
  match cs with
  | c :: rest => match digit_in lo hi c with Some d => Some (d, rest) | None => None end
  | [] => None
  end.

Definition parse_two (tens : Z) (lo hi : Z) (cs : list ascii) : option (Z * list ascii) :=
  match parse_one tens tens cs with
  | Some (t, rest) =>
      match parse_one lo hi rest with
      | Some (u, rest') => Some (10 * t + u, rest')
      | None => None
      end
  | None => None
  end.

(** [[1-2]\d] *)
Definition parse_teens (cs : list ascii) : option (Z * list ascii) :=
  match parse_one 1 2 cs with
  | Some (t, rest) =>
      match parse_digit rest with
      | Some (u, rest') => Some (10 * t + u, rest')
      | None => None
      end
  | None => None
  end.

Definition first_of (alts : list (list ascii -> option (Z * list ascii)))
  (cs : list ascii) : option (Z * list ascii) :=
  fold_right (fun p r => match p cs with Some x => Some x | None => r end) None alts.

Definition parse_month : list ascii -> option (Z * list ascii) :=
  first_of [parse_two 1 0 2; parse_two 0 1 9; parse_one 1 9].

Definition parse_space_digit (cs : list ascii) : option (Z * list ascii) :=
  match cs with
  | " "%char :: rest => parse_one 1 9 rest
  | _ => None
  end.

Definition parse_day : list ascii -> option (Z * list ascii) :=
  first_of [parse_two 3 0 1; parse_teens; parse_two 0 1 9;
            parse_one 1 9; parse_space_digit].

Definition expect_dash (cs : list ascii) : option (list ascii) :=
  match cs with
  | "-"%char :: rest => Some rest
  | _ => None
  end.

Definition parse_ymd (s : string) : option date :=
  match parse_year (list_ascii_of_string s) with
  | Some (y, r1) =>
      match expect_dash r1 with
      | Some r2 =>
          match parse_month r2 with
          | Some (m, r3) =>
              match expect_dash r3 with
              | Some r4 =>
                  match parse_day r4 with
                  | Some (d, []) => if valid_date y m d then Some (mkdate y m d) else None
                  | _ => None
                  end
              | None => None
              end
          | None => None
          end
      | None => None
      end
  | None => None
  end.

Definition strptime_date (v : value) : result date :=
  match v with
  | VStr s => match parse_ymd s with Some d => Ok d | None => Raise ValueError end
  | _ => Raise TypeError
  end.

(** ** The external services

    A request reaches the outside world through the BigQuery client, the
    [requests] library and the Python runtime.  [Env] holds what they
    answer; the handlers are proved correct for every [Env]. *)

Inductive query_param : Type :=
| ScalarQueryParameter (name type_ : string) (v : value)
| ArrayQueryParameter (name array_type : string) (v : value).

(** The class of an exception raised by the BigQuery client, as far as
    the [except] clauses of the helpers distinguish it. *)
Inductive api_error : Type :=
| NotFound          (** [exceptions.NotFound] *)
| GoogleAPIError    (** any other [exceptions.GoogleAPIError] *)
| OtherError.       (** any other [Exception] *)

Inductive query_outcome : Type :=
| Rows (rows : list value)                 (** [[dict(row) for row in job.result()]] *)
| QueryRaises (c : api_error) (msg : string).

(** One entry of the list [insert_rows_json] returns: the row index and,
    when the entry has the key ['errors'], for each error its ['message']
    when it has one. *)
Record insert_error : Type :=
  mk_insert_error { index : Z; errors : option (list (option string)) }.

Inductive insert_outcome : Type :=
| InsertReturns (errs : list insert_error)
| InsertRaises (c : api_error) (msg : string).

(** [requests.get/post(...)], [raise_for_status()] and [.json()] together:
    the decoded body, or some exception with its text. *)
Inductive http_outcome : Type :=
| HttpJson (body : value)
| HttpRaises (msg : string).

Class Env : Type := {
  (** process environment *)
  GCP_PROJECT : option string;
  BQ_DATASET : option string;
  GOOGLE_MAPS_API_KEY : option string;
  (** BigQuery client *)
  client_query : string -> list query_param -> query_outcome;
  client_insert_rows_json : string -> list value -> insert_outcome;
  (** requests *)
  requests_get : string -> list (string * value) -> http_outcome;
  requests_post : string -> value -> list (string * string) -> http_outcome;
  (** runtime: the k-th output of the random generator and of [uuid4],
      the clock *)
  random_bits : nat -> Z;
  uuid4 : nat -> string;
  today : date;
  now : datetime;
  (** builtins that are not re-implemented here *)
  parse_int : string -> option Z;          (** [int(s)], [None] for [ValueError] *)
  parse_float : string -> option float;    (** [float(s)] *)
  repr : value -> string;                  (** [str()] of floats and containers *)
  round2 : float -> float;                 (** [round(x, 2)] *)
  fromisoformat : string -> option string  (** [datetime.fromisoformat(s).isoformat()] *)
}.

(** What a request did to the outside world. *)
Inductive event : Type :=
| Query (sql : string) (params : list query_param)
| InsertRowsJson (table : string) (rows : list value)
| HttpGet (url : string) (params : list (string * value))
| HttpPost (url : string) (payload : value) (headers : list (string * string)).

Record world : Type := mkworld {
  trace : list event;   (** external calls so far, oldest first *)
  draws : nat;          (** outputs of the random generator consumed *)
  uuids : nat           (** uuids generated *)
}.

Definition log (ev : event) (w : world) : world :=
  mkworld (trace w ++ [ev])%list (draws w) (uuids w).

(** ** The monad of handlers *)

Definition M (A : Type) : Type := world -> result A * world.

Definition ret {A} (a : A) : M A := fun w => (Ok a, w).
Definition raise {A} (e : exc) : M A := fun w => (Raise e, w).
Definition lift {A} (r : result A) : M A := fun w => (r, w).

Definition bind {A B} (m : M A) (k : A -> M B) : M B :=
  fun w => match m w with
           | (Ok a, w') => k a w'
           | (Raise e, w') => (Raise e, w')
           end.

Declare Scope monad_scope.
Delimit Scope monad_scope with monad.
Notation "x <- c ;; k" := (bind c (fun x => k))
  (at level 100, c at next level, right associativity) : monad_scope.
Notation "' pat <- c ;; k" := (bind c (fun x => match x with pat => k end))
  (at level 100, pat pattern, c at next level, right associativity) : monad_scope.
Open Scope monad_scope.

(** [try: body / except Exception: return handler] *)
Definition try_except {A} (body handler : M A) : M A :=
  fun w => match body w with
           | (Raise _, w') => handler w'
           | r => r
           end.

(** [try: x = r / except (classes): return handler], then the rest [k]
    of the function, which the [except] clause does not cover. *)
Definition catching {A B} (classes : list exc) (r : result A) (handler : M B)
  (k : A -> M B) : M B :=
  match r with
  | Ok a => k a
  | Raise e => if existsb (exc_eqb e) classes then handler else raise e
  end.

Definition and_then {A B} (r : result A) (f : A -> result B) : result B :=
  match r with Ok a => f a | Raise e => Raise e end.

(** The validation every routed handler starts with:
    [if not data or not all(field in data for field in required_fields):
         missing = [...]; return on_missing(missing)] *)
Definition if_missing {A} (required_fields : list string) (data : value)
  (on_missing : list string -> M A) (k : M A) : M A :=
  incomplete <- (if negb (truthy data) then ret true
                 else ok <- lift (all_in required_fields data) ;; ret (negb ok)) ;;
  if (incomplete : bool)
  then missing <- lift (missing_fields required_fields data) ;; on_missing missing
  else k.

(** What [insert_rows] returns for an outcome of the client call. *)
Definition insert_result (table_id : string) (out : insert_outcome) : bool * value :=
  match out with
  | InsertReturns [] => (true, VNone)
  | InsertReturns (first :: _) =>
      match errors first with
      | None => (false, VStr "Unknown insert error")
      | Some [] => (false, VStr "list index out of range")
      | Some (Some message :: _) => (false, VStr message)
      | Some (None :: _) => (false, VStr "Unknown error details")
      end
  | InsertRaises NotFound _ => (false, VStr ("BigQuery table not found: " ++ table_id))
  | InsertRaises _ msg => (false, VStr msg)
  end.

(** What [fetch_rows] returns for an outcome of the client call. *)
Definition fetch_result (out : query_outcome) : bool * value :=
  match out with
  | Rows results => (true, VList results)
  | QueryRaises NotFound _ => (false, VStr "BigQuery table not found needed for query.")
  | QueryRaises _ msg => (false, VStr msg)
  end.

Section Runtime.
Context {E : Env}.

(** [int(v)] *)
Definition int_of (v : value) : result Z :=
  match v with
  | VInt n => Ok n
  | VBool b => Ok (if b then 1 else 0)
  | VFloat x => int_of_float x
  | VStr s => match parse_int s with Some n => Ok n | None => Raise ValueError end
  | _ => Raise TypeError
  end.

(** [float(v)] *)
Definition float_of (v : value) : result float :=
  match v with
  | VInt n => float_of_int n
  | VBool b => Ok (if b then 1%float else 0%float)
  | VFloat x => Ok x
  | VStr s => match parse_float s with Some x => Ok x | None => Raise ValueError end
  | _ => Raise TypeError
  end.

(** [str(v)], the rendering of a value inside an f-string. *)
Definition str_of (v : value) : string :=
  match v with
  | VStr s => s
  | VInt n => str_of_Z n
  | VNone => "None"
  | VBool true => "True"
  | VBool false => "False"
  | VList [] => "[]"
  | VDict [] => "{}"
  | _ => repr v
  end.

(** [v >= q] for an integer [q] *)
Definition ge_int (v : value) (q : Z) : result bool :=
  match v with
  | VInt a => Ok (q <=? a)
  | VBool b => Ok (q <=? (if b then 1 else 0))
  | VFloat x => Ok (float_ge_int x q)
  | _ => Raise TypeError
  end.

(** [str(uuid.uuid4())] *)
Definition new_uuid : M string :=
  fun w => (Ok (uuid4 (uuids w)), mkworld (trace w) (draws w) (S (uuids w))).

(** One output of the generator below [n]. *)
Definition randbelow (n : Z) : M Z :=
  fun w => (Ok (random_bits (draws w) mod n), mkworld (trace w) (S (draws w)) (uuids w)).

(** [random.randint(a, b)] *)
Definition randint (a b : Z) : M Z :=
  r <- randbelow (b - a + 1) ;; ret (a + r).

(** [random.random()]: a multiple of 2^-53 in [0, 1). *)
Definition random_random : M float :=
  r <- randbelow (2 ^ 53) ;; ret (Z.ldexp (float_of_Z r) (-53)).

(** [random.uniform(a, b)] *)
Definition random_uniform (a b : float) : M float :=
  u <- random_random ;; ret (a + (b - a) * u)%float.

(** [bigquery_client.query(sql, job_config).result()] *)
Definition run_query (sql : string) (params : list query_param) : M query_outcome :=
  fun w => (Ok (client_query sql params), log (Query sql params) w).

(** [bigquery_client.insert_rows_json(table_id, rows_json)] *)
Definition run_insert (table_id : string) (rows : list value) : M insert_outcome :=
  fun w => (Ok (client_insert_rows_json table_id rows), log (InsertRowsJson table_id rows) w).

Definition http_get (url : string) (params : list (string * value)) : M http_outcome :=
  fun w => (Ok (requests_get url params), log (HttpGet url params) w).

Definition http_post (url : string) (payload : value) (headers : list (string * string))
  : M http_outcome :=
  fun w => (Ok (requests_post url payload headers), log (HttpPost url payload headers) w).

(** [insert_rows], shared verbatim by the three backends. *)
Definition insert_rows (table_id : string) (rows_json : list value) : M (bool * value) :=
  out <- run_insert table_id rows_json ;;
  ret (insert_result table_id out).

(** [fetch_rows], shared verbatim by the three backends. *)
Definition fetch_rows (query : string) (query_params : list query_param)
  : M (bool * value) :=
  out <- run_query query query_params ;;
  ret (fetch_result out).

End Runtime.

(** ** Requests and responses *)

Record request : Type := mkrequest {
  method : string;
  path : string;
  content_type : option string;   (** [request.headers.get('Content-Type')] *)
  (** [request.get_json(silent=True)]: the parsed body; [None] when
      the request holds no JSON or the JSON value [null]; or the
      exception the parser lets through *)
  get_json : result value
}.

(** A response body: a text, a dictionary the framework serialises, or
    the string [json.dumps] makes of a dictionary. *)
Inductive body : Type :=
| Text (s : string)
| Json (v : value)
| Dumps (v : value).

Definition response : Type := body * Z.

Definition dict_error (message : string) : value :=
  VDict [("status", VStr "error"); ("message", VStr message)].

(** The response of the three routed entry points when the body they
    read is [None]; each of them repeats these lines. *)
Definition no_json_response (request : request) : response :=
  if negb (String.eqb (str_lower (match content_type request with
                                  | Some s => s | None => EmptyString end))
                      "application/json")
  then (Json (dict_error "Unsupported Media Type. Expected 'application/json'."), 415)
  else (Json (dict_error "Invalid JSON body received."), 400).

(** [status_code, response_body = handler(request_data)
     return (response_body, status_code)] *)
Definition respond (h : M (Z * value)) : M response :=
  '(status_code, response_body) <- h ;; ret (Json response_body, status_code).

(** * agrioptimize/main.py *)

Module agrioptimize.
Section WithEnv.
Context {E : Env}.

(** [os.environ.get('GCP_PROJECT')]; the module exits at import when
    either variable is unset or empty, so handlers only ever run with
    both set. *)
Definition PROJECT_ID : string := match GCP_PROJECT with Some s => s | None => EmptyString end.
Definition DATASET_ID : string := match BQ_DATASET with Some s => s | None => EmptyString end.

Definition FARM_PROFILES_TABLE := PROJECT_ID ++ "." ++ DATASET_ID ++ ".farm_profiles".
Definition HARVEST_RECORDS_TABLE := PROJECT_ID ++ "." ++ DATASET_ID ++ ".harvest_records".
Definition FARM_QC_ISSUES_TABLE := PROJECT_ID ++ "." ++ DATASET_ID ++ ".farm_qc_issues".
Definition PLANTING_SCHEDULES_TABLE := PROJECT_ID ++ "." ++ DATASET_ID ++ ".planting_schedules".

Definition missing_body (missing : list string) : M (Z * value) :=
  ret (400, VDict [("status", VStr "error");
                   ("message", VStr ("Missing required fields in body: " ++ join ", " missing))]).

(** [if k in row and row[k] is not None: try: row[k] = conv(row[k])
     except (ValueError, TypeError): return 400, ...] *)
Definition convert_if_present {A} (v : value) (conv : value -> result A)
  (inj : A -> value) (message : string) (k : value -> M (Z * value)) : M (Z * value) :=
  match v with
  | VNone => k VNone
  | _ => catching [ValueError; TypeError] (conv v)
           (ret (400, dict_error message)) (fun a => k (inj a))
  end.

Definition handle_log_harvest (data : value) : M (Z * value) :=
  let required_fields := ["farm_id"; "product_id"; "harvested_quantity_kg"; "harvest_date"] in
  if_missing required_fields data missing_body
  (try_except
    (catching [ValueError; TypeError]
       (and_then (getitem data "harvest_date") strptime_date)
       (ret (400, dict_error "Invalid harvest_date format. Expected YYYY-MM-DD."))
     (fun harvest_date_obj =>
      let harvest_date_iso := date_isoformat harvest_date_obj in
      harvest_id <- new_uuid ;;
      farm_id <- lift (getitem data "farm_id") ;;
      product_id <- lift (getitem data "product_id") ;;
      product_name <- lift (get data "product_name") ;;
      category <- lift (get data "category") ;;
      harvested_quantity_kg <- lift (get data "harvested_quantity_kg") ;;
      estimated_yield_kg <- lift (get data "estimated_yield_kg") ;;
      quality_score <- lift (get data "quality_score") ;;
      quality_notes <- lift (get_default data "quality_notes" (VStr EmptyString)) ;;
      photos_gcs_path <- lift (get data "photos_gcs_path") ;;
      planting_date <- lift (get data "planting_date") ;;
      field_id <- lift (get data "field_id") ;;
      catching [ValueError; TypeError] (int_of harvested_quantity_kg)
        (ret (400, dict_error "Invalid format for harvested_quantity_kg. Expected integer."))
      (fun harvested_quantity_kg =>
      convert_if_present estimated_yield_kg int_of VInt
        "Invalid format for estimated_yield_kg. Expected integer."
      (fun estimated_yield_kg =>
      convert_if_present quality_score float_of VFloat
        "Invalid format for quality_score. Expected number."
      (fun quality_score =>
      convert_if_present planting_date strptime_date (fun _ => planting_date)
        "Invalid planting_date format. Expected YYYY-MM-DD."
      (fun planting_date =>
      let row_to_insert := VDict [
        ("harvest_id", VStr harvest_id);
        ("farm_id", farm_id);
        ("product_id", product_id);
        ("product_name", product_name);
        ("category", category);
        ("harvest_date", VStr harvest_date_iso);
        ("harvested_quantity_kg", VInt harvested_quantity_kg);
        ("estimated_yield_kg", estimated_yield_kg);
        ("quality_score", quality_score);
        ("quality_notes", quality_notes);
        ("photos_gcs_path", photos_gcs_path);
        ("planting_date", planting_date);
        ("field_id", field_id)] in
      '(success, errors) <- insert_rows HARVEST_RECORDS_TABLE [row_to_insert] ;;
      if (success : bool)
      then ret (200, VDict [("status", VStr "success"); ("harvest_id", VStr harvest_id);
                            ("message", VStr "Harvest record logged successfully.")])
      else ret (500, VDict [("status", VStr "error");
                            ("message", VStr "Failed to log harvest record.");
                            ("details", errors)])))))))
    (ret (500, dict_error "An internal error occurred."))).

Definition where_sql (clauses : list string) : string :=
  match clauses with
  | [] => EmptyString
  | _ => "WHERE " ++ join " AND " clauses
  end.

(** The three queries of [handle_get_harvest_advice] and their
    parameters, as the handler builds them from the four optional
    filters: (harvests, QC issues, schedules). *)
Definition advice_queries (farm_id product_id start_date_str end_date_str : value)
  : (string * list query_param) * (string * list query_param) * (string * list query_param) :=
  let by_farm (clause name : string) :=
    if truthy farm_id then [(clause, ScalarQueryParameter name "STRING" farm_id)] else [] in
  let by_product (clause name : string) :=
    if truthy product_id then [(clause, ScalarQueryParameter name "STRING" product_id)] else [] in
  let harvest_filters :=
    (by_farm "farm_id = @farm_id_h" "farm_id_h"
     ++ by_product "product_id = @product_id_h" "product_id_h")%list in
  let qc_filters :=
    (by_farm "farm_id = @farm_id_qc" "farm_id_qc"
     ++ by_product "(product_id IS NULL OR product_id = @product_id_qc)" "product_id_qc")%list in
  let schedule_filters :=
    (by_farm "farm_id = @farm_id_sched" "farm_id_sched"
     ++ by_product "product_id = @product_id_sched" "product_id_sched")%list in
  let start_param := ScalarQueryParameter "start_date" "DATE" start_date_str in
  let end_param := ScalarQueryParameter "end_date" "DATE" end_date_str in
  let '(date_params, harvest_date_clause, qc_date_clause) :=
    if truthy start_date_str && truthy end_date_str then
      ([start_param; end_param],
       "harvest_date BETWEEN @start_date AND @end_date",
       "issue_date BETWEEN @start_date AND @end_date")
    else if truthy start_date_str then
      ([start_param], "harvest_date >= @start_date", "issue_date >= @start_date")
    else if truthy end_date_str then
      ([end_param], "harvest_date <= @end_date", "issue_date <= @end_date")
    else
      ([], "harvest_date >= DATE_SUB(CURRENT_DATE(), INTERVAL 90 DAY)",
       "issue_date >= DATE_SUB(CURRENT_DATE(), INTERVAL 90 DAY)") in
  let harvest_where_clauses := (map fst harvest_filters ++ [harvest_date_clause])%list in
  let harvest_params := (map snd harvest_filters ++ date_params)%list in
  let qc_where_clauses := (map fst qc_filters ++ [qc_date_clause])%list in
  let qc_params := (map snd qc_filters ++ date_params)%list in
  let schedule_where_clauses :=
    ("planned_harvest_date_estimate >= CURRENT_DATE()" :: map fst schedule_filters) in
  let schedule_params := map snd schedule_filters in
  let harvest_where_sql := where_sql harvest_where_clauses in
  let qc_where_sql := where_sql qc_where_clauses in
  let schedule_where_sql := "WHERE " ++ join " AND " schedule_where_clauses in
  let harvest_query := unlines [
    EmptyString;
    "SELECT harvest_date, harvested_quantity_kg, quality_score, quality_notes";
    "FROM `" ++ HARVEST_RECORDS_TABLE ++ "`";
    harvest_where_sql;
    "ORDER BY harvest_date DESC";
    "LIMIT 5";
    EmptyString] in
  let qc_query := unlines [
    EmptyString;
    "SELECT issue_date, issue_type, severity, notes";
    "FROM `" ++ FARM_QC_ISSUES_TABLE ++ "`";
    qc_where_sql;
    "ORDER BY issue_date DESC";
    "LIMIT 5";
    EmptyString] in
  let schedule_query := unlines [
    EmptyString;
    "SELECT planned_planting_date, planned_harvest_date_estimate, expected_yield_estimate_kg, status";
    "FROM `" ++ PLANTING_SCHEDULES_TABLE ++ "`";
    schedule_where_sql;
    "ORDER BY planned_planting_date ASC";
    "LIMIT 5";
    EmptyString] in
  ((harvest_query, harvest_params), (qc_query, qc_params), (schedule_query, schedule_params)).

Definition farm_query : string := unlines [
  EmptyString;
  "SELECT farm_name, farm_location, primary_crops_grown";
  "FROM `" ++ FARM_PROFILES_TABLE ++ "`";
  "WHERE farm_id = @farm_id_f";
  "LIMIT 1";
  EmptyString].

Definition handle_get_harvest_advice (data : value) : M (Z * value) :=
  farm_id <- lift (get data "farm_id") ;;
  product_id <- lift (get data "product_id") ;;
  start_date_str <- lift (get data "start_date") ;;
  end_date_str <- lift (get data "end_date") ;;
  try_except
    (let '((harvest_query, harvest_params), (qc_query, qc_params),
           (schedule_query, schedule_params)) :=
       advice_queries farm_id product_id start_date_str end_date_str in
     '(success_h, harvests) <- fetch_rows harvest_query harvest_params ;;
     '(success_q, qc_issues) <- fetch_rows qc_query qc_params ;;
     '(success_s, schedules) <- fetch_rows schedule_query schedule_params ;;
     '(success_f, farm_info, farm_details) <-
       (if truthy farm_id then
          let farm_params := [ScalarQueryParameter "farm_id_f" "STRING" farm_id] in
          '(success_f, farm_info) <- fetch_rows farm_query farm_params ;;
          farm_details <- (if success_f && truthy farm_info
                           then lift (item0 farm_info) else ret (VDict [])) ;;
          ret (success_f, farm_info, farm_details)
        else ret (true, VNone, VDict [])) ;;
     let overall_success := success_h && success_q && success_s && success_f in
     if overall_success then
       ret (200, VDict [("status", VStr "success");
                        ("farm_details", farm_details);
                        ("recent_harvests", harvests);
                        ("recent_qc_issues", qc_issues);
                        ("upcoming_schedules", schedules)])
     else
       let error_messages :=
         List.concat [
           if negb success_h then ["Harvest query failed: " ++ str_of harvests] else [];
           if negb success_q then ["QC query failed: " ++ str_of qc_issues] else [];
           if negb success_s then ["Schedule query failed: " ++ str_of schedules] else [];
           if negb success_f && truthy farm_id
           then ["Farm query failed: " ++ str_of farm_info] else []] in
       let status_code :=
         if truthy harvests || truthy qc_issues || truthy schedules || truthy farm_details
         then 200 else 500 in
       ret (status_code,
            VDict [("status", VStr (if status_code =? 200 then "warning" else "error"));
                   ("message", VStr (if status_code =? 200
                                     then "Data retrieval issues encountered."
                                     else "Failed to retrieve data for advice."));
                   ("details", VStr (join " | " error_messages));
                   ("farm_details", farm_details);
                   ("recent_harvests", harvests);
                   ("recent_qc_issues", qc_issues);
                   ("upcoming_schedules", schedules)]))
    (ret (500, dict_error "An internal error occurred while getting advice.")).

Definition handle_report_farm_qc_issue (data : value) : M (Z * value) :=
  let required_fields := ["farm_id"; "issue_type"] in
  if_missing required_fields data missing_body
  (try_except
    (issue_date_str <- lift (get_default data "issue_date" (VStr (date_isoformat today))) ;;
     catching [ValueError; TypeError] (strptime_date issue_date_str)
       (ret (400, dict_error "Invalid issue_date format. Expected YYYY-MM-DD."))
     (fun issue_date_obj =>
      let issue_date_iso := date_isoformat issue_date_obj in
      issue_id <- new_uuid ;;
      farm_id <- lift (getitem data "farm_id") ;;
      product_id <- lift (get data "product_id") ;;
      issue_type <- lift (getitem data "issue_type") ;;
      affected_quantity_kg <- lift (get data "affected_quantity_kg") ;;
      severity <- lift (get_default data "severity" (VStr "Medium")) ;;
      reported_by <- lift (get_default data "reported_by" (VStr "AI Agent")) ;;
      notes <- lift (get_default data "notes" (VStr EmptyString)) ;;
      photos_gcs_path <- lift (get data "photos_gcs_path") ;;
      convert_if_present affected_quantity_kg int_of VInt
        "Invalid format for affected_quantity_kg. Expected integer."
      (fun affected_quantity_kg =>
      let row_to_insert := VDict [
        ("issue_id", VStr issue_id);
        ("farm_id", farm_id);
        ("product_id", product_id);
        ("issue_date", VStr issue_date_iso);
        ("issue_type", issue_type);
        ("affected_quantity_kg", affected_quantity_kg);
        ("severity", severity);
        ("reported_by", reported_by);
        ("notes", notes);
        ("photos_gcs_path", photos_gcs_path)] in
      '(success, errors) <- insert_rows FARM_QC_ISSUES_TABLE [row_to_insert] ;;
      if (success : bool)
      then ret (200, VDict [("status", VStr "success"); ("issue_id", VStr issue_id);
                            ("message", VStr "Farm quality issue reported successfully.")])
      else ret (500, VDict [("status", VStr "error");
                            ("message", VStr "Failed to report quality issue.");
                            ("details", errors)]))))
    (ret (500, dict_error "An internal error occurred."))).

Definition availability_query : string := unlines [
  EmptyString;
  "SELECT SUM(harvested_quantity_kg) as total_harvested";
  "FROM `" ++ HARVEST_RECORDS_TABLE ++ "`";
  "WHERE farm_id = @farm_id AND product_id = @product_id AND harvest_date >= DATE_SUB(@requested_date, INTERVAL 7 DAY)";
  EmptyString].

Definition availability_params (farm_id product_id : value) (requested_date_iso : string)
  : list query_param :=
  [ScalarQueryParameter "farm_id" "STRING" farm_id;
   ScalarQueryParameter "product_id" "STRING" product_id;
   ScalarQueryParameter "requested_date" "DATE" (VStr requested_date_iso)].

(** [datetime.combine(requested_date_obj, datetime.min.time())
     + timedelta(days=days, hours=hours, minutes=minutes)] *)
Definition pickup_datetime (requested_date_obj : date) (days hours minutes : Z)
  : result datetime :=
  and_then (timedelta days hours minutes 0) (datetime_add (at_midnight requested_date_obj)).

Definition handle_schedule_farm_pickup (data : value) : M (Z * value) :=
  let required_fields := ["farm_id"; "product_id"; "quantity_kg"; "requested_date"] in
  if_missing required_fields data missing_body
  (try_except
    (requested_date_str <- lift (getitem data "requested_date") ;;
     catching [ValueError; TypeError] (strptime_date requested_date_str)
       (ret (400, dict_error "Invalid requested_date format. Expected YYYY-MM-DD."))
     (fun requested_date_obj =>
      let requested_date_iso := date_isoformat requested_date_obj in
      quantity_kg <- lift (getitem data "quantity_kg") ;;
      catching [ValueError; TypeError] (int_of quantity_kg)
        (ret (400, dict_error "Invalid format for quantity_kg. Expected integer."))
      (fun quantity_kg_int =>
       farm_id <- lift (getitem data "farm_id") ;;
       product_id <- lift (getitem data "product_id") ;;
       '(success_avail, availability_result) <-
         fetch_rows availability_query
                    (availability_params farm_id product_id requested_date_iso) ;;
       available_kg <-
         (if success_avail && truthy availability_result then
            total_harvested <- lift (and_then (item0 availability_result)
                                       (fun row => getitem row "total_harvested")) ;;
            ret (match total_harvested with VNone => VInt 0 | v => v end)
          else ret (VInt 0)) ;;
       if negb success_avail then
         ret (500, VDict [("status", VStr "error");
                          ("message", VStr "Failed to check farm availability.");
                          ("details", availability_result)])
       else
         is_available_for_pickup <- lift (ge_int available_kg quantity_kg_int) ;;
         if (is_available_for_pickup : bool) then
           days <- randint 0 2 ;;
           hours <- randint 8 16 ;;
           minutes <- randint 0 59 ;;
           estimated_pickup_datetime <- lift (pickup_datetime requested_date_obj days hours minutes) ;;
           u <- random_random ;;
           let pickup_confirmation := VDict [
             ("request_status", VStr "Acknowledged");
             ("estimated_pickup_datetime", VStr (datetime_isoformat estimated_pickup_datetime));
             ("confirmed_quantity_kg", VInt quantity_kg_int);
             ("message", VStr "Pickup request received and appears feasible. Logistics is being notified and will confirm exact details.");
             ("requires_cold_chain", VBool (PrimFloat.ltb u point_nine))] in
           ret (200, VDict [("status", VStr "success"); ("details", pickup_confirmation)])
         else
           ret (200, VDict [("status", VStr "unavailable");
                            ("message", VStr ("Unable to schedule pickup for "
                               ++ str_of_Z quantity_kg_int
                               ++ " kg. Only found approximately " ++ str_of available_kg
                               ++ " kg recently harvested or on hand for this product at this farm. Please adjust quantity or date."))]))))
    (ret (500, dict_error "An internal error occurred while processing pickup request."))).

Definition agrioptimize_backend_function (request : request) : M response :=
  if String.eqb (method request) "GET" && String.eqb (path request) "/" then
    out <- run_query "SELECT 1" [] ;;
    match out with
    | Rows _ => ret (Text "AgriOptimize AI Backend is running and connected to BigQuery!", 200)
    | QueryRaises _ e =>
        ret (Text ("AgriOptimize AI Backend health check failed: " ++ e), 500)
    end
  else if String.eqb (method request) "POST" then
    request_data <- lift (get_json request) ;;
    if is_none request_data then ret (no_json_response request)
    else if String.eqb (path request) "/harvest" then
      respond (handle_log_harvest request_data)
    else if String.eqb (path request) "/advice/harvest" then
      respond (handle_get_harvest_advice request_data)
    else if String.eqb (path request) "/issue/farm" then
      respond (handle_report_farm_qc_issue request_data)
    else if String.eqb (path request) "/schedule/pickup" then
      respond (handle_schedule_farm_pickup request_data)
    else
      ret (Json (dict_error ("Endpoint " ++ path request ++ " not found.")), 404)
  else
    ret (Json (dict_error ("Method " ++ method request ++ " not allowed for path "
                           ++ path request ++ ".")), 405).

End WithEnv.
End agrioptimize.

(** * logifresh/main.py *)

(** [x[i], x[j] = x[j], x[i]] *)
Fixpoint set_nth {A} (i : nat) (a : A) (l : list A) : list A :=
  match l, i with
  | [], _ => []
  | _ :: rest, O => a :: rest
  | x :: rest, S k => x :: set_nth k a rest
  end.

Definition swap (i j : nat) (x : list value) : list value :=
  let xi := nth i x VNone in
  let xj := nth j x VNone in
  set_nth j xi (set_nth i xj x).

Module logifresh.
Section WithEnv.
Context {E : Env}.

Definition PROJECT_ID : string := "laeswdm-agbgagenticaihackat".
Definition DATASET_ID : string := "agriculture".

Definition VEHICLES_TABLE := PROJECT_ID ++ "." ++ DATASET_ID ++ ".vehicles".
Definition SHIPMENTS_TABLE := PROJECT_ID ++ "." ++ DATASET_ID ++ ".shipments".
Definition INVENTORY_STOCK_TABLE := PROJECT_ID ++ "." ++ DATASET_ID ++ ".inventory_stock".
Definition COLD_CHAIN_READINGS_TABLE := PROJECT_ID ++ "." ++ DATASET_ID ++ ".cold_chain_readings".
Definition CUSTOMERS_TABLE := PROJECT_ID ++ "." ++ DATASET_ID ++ ".customers".

Definition missing_body (missing : list string) : M (Z * value) :=
  ret (400, VDict [("status", VStr "error");
                   ("message", VStr ("Missing required fields in body: " ++ join ", " missing))]).

Definition shipment_query : string := unlines [
  EmptyString;
  "SELECT";
  "shipment_id, order_id, origin_location_id, destination_location_id,";
  "departure_timestamp, arrival_timestamp_estimate, arrival_timestamp_actual,";
  "carrier_name, vehicle_id, status, total_quantity_kg, requires_cold_chain";
  "FROM `" ++ SHIPMENTS_TABLE ++ "`";
  "WHERE shipment_id = @shipment_id";
  "LIMIT 1";
  EmptyString].

Definition cold_chain_query : string := unlines [
  EmptyString;
  "SELECT timestamp, temperature_celsius, location, sensor_id";
  "FROM `" ++ COLD_CHAIN_READINGS_TABLE ++ "`";
  "WHERE shipment_id = @shipment_id_cc";
  "ORDER BY timestamp DESC";
  "LIMIT 10 -- Get recent readings";
  EmptyString].

Definition handle_track_shipment_location (data : value) : M (Z * value) :=
  let required_fields := ["shipment_id"] in
  if_missing required_fields data missing_body
  (try_except
    (shipment_id <- lift (getitem data "shipment_id") ;;
     let shipment_params := [ScalarQueryParameter "shipment_id" "STRING" shipment_id] in
     '(success_s, shipment_details) <- fetch_rows shipment_query shipment_params ;;
     if negb success_s then
       ret (500, VDict [("status", VStr "error");
                        ("message", VStr "Failed to retrieve shipment details.");
                        ("details", shipment_details)])
     else if negb (truthy shipment_details) then
       ret (200, VDict [("status", VStr "not_found");
                        ("message", VStr ("Shipment ID " ++ str_of shipment_id ++ " not found."))])
     else
       shipment_info <- lift (item0 shipment_details) ;;
       requires_cold_chain <- lift (get_default shipment_info "requires_cold_chain" (VBool false)) ;;
       '(success_cc, cold_chain_readings) <-
         (if truthy requires_cold_chain then
            let cold_chain_params := [ScalarQueryParameter "shipment_id_cc" "STRING" shipment_id] in
            '(success_cc, cold_chain_readings) <- fetch_rows cold_chain_query cold_chain_params ;;
            ret (success_cc, if negb success_cc then VList [] else cold_chain_readings)
          else ret (true, VList [])) ;;
       let overall_success := success_s && success_cc in
       if overall_success then
         ret (200, VDict [("status", VStr "success");
                          ("shipment_details", shipment_info);
                          ("recent_cold_chain_readings", cold_chain_readings)])
       else
         let error_messages := List.concat [
           if negb success_s then ["Shipment query failed: " ++ str_of shipment_details] else [];
           if negb success_cc then ["Cold chain query failed: " ++ str_of cold_chain_readings] else []] in
         let status_code := if negb success_s then 500 else 200 in
         ret (status_code,
              VDict [("status", VStr (if status_code =? 200 then "warning" else "error"));
                     ("message", VStr (if status_code =? 200
                                       then "Data retrieval issues encountered."
                                       else "Failed to retrieve shipment data."));
                     ("details", VStr (join " | " error_messages));
                     ("shipment_details", shipment_info);
                     ("recent_cold_chain_readings", cold_chain_readings)]))
    (ret (500, dict_error "An internal error occurred."))).

(** [datetime.fromisoformat(timestamp_str.replace('Z', '+00:00')).isoformat()] *)
Definition timestamp_iso_of (timestamp_str : value) : result string :=
  match timestamp_str with
  | VStr s => match fromisoformat (str_replace "Z" "+00:00" s) with
              | Some iso => Ok iso
              | None => Raise ValueError
              end
  | _ => Raise AttributeError
  end.

Definition cold_chain_message (temperature_celsius_float : float) : string :=
  let message := "Cold chain reading reported successfully." in
  let message := if PrimFloat.ltb 8%float temperature_celsius_float
                 then message ++ " Warning: Temperature is elevated." else message in
  let message := if PrimFloat.ltb 15%float temperature_celsius_float
                 then "Critical: High temperature excursion reported." else message in
  message.

Definition handle_report_cold_chain_issue (data : value) : M (Z * value) :=
  let required_fields := ["shipment_id"; "temperature_celsius"; "timestamp"] in
  if_missing required_fields data missing_body
  (try_except
    (shipment_id <- lift (getitem data "shipment_id") ;;
     temperature_celsius <- lift (getitem data "temperature_celsius") ;;
     timestamp_str <- lift (getitem data "timestamp") ;;
     catching [ValueError; TypeError] (float_of temperature_celsius)
       (ret (400, dict_error "Invalid format for temperature_celsius. Expected number."))
     (fun temperature_celsius_float =>
     catching [ValueError; TypeError] (timestamp_iso_of timestamp_str)
       (ret (400, dict_error "Invalid timestamp format. Expected ISO 8601 format."))
     (fun timestamp_iso =>
      reading_id <- new_uuid ;;
      vehicle_id <- lift (get data "vehicle_id") ;;
      location <- lift (get data "location") ;;
      sensor_id <- lift (get_default data "sensor_id" (VStr "Unknown")) ;;
      let row_to_insert := VDict [
        ("reading_id", VStr reading_id);
        ("shipment_id", shipment_id);
        ("vehicle_id", vehicle_id);
        ("timestamp", VStr timestamp_iso);
        ("temperature_celsius", VFloat temperature_celsius_float);
        ("location", location);
        ("sensor_id", sensor_id)] in
      '(success, errors) <- insert_rows COLD_CHAIN_READINGS_TABLE [row_to_insert] ;;
      if (success : bool) then
        ret (200, VDict [("status", VStr "success"); ("reading_id", VStr reading_id);
                         ("message", VStr (cold_chain_message temperature_celsius_float))])
      else
        ret (500, VDict [("status", VStr "error");
                         ("message", VStr "Failed to report cold chain reading.");
                         ("details", errors)]))))
    (ret (500, dict_error "An internal error occurred."))).

Definition handle_check_warehouse_stock (data : value) : M (Z * value) :=
  let required_fields := ["location_id"] in
  if_missing required_fields data missing_body
  (try_except
    (location_id <- lift (getitem data "location_id") ;;
     product_id <- lift (get data "product_id") ;;
     status_filter <- lift (get_default data "status" (VStr "Available")) ;;
     nearing_expiry <- lift (get data "nearing_expiry") ;;
     let query_params := List.concat [
       [ScalarQueryParameter "location_id" "STRING" location_id;
        ScalarQueryParameter "status_filter" "STRING" status_filter];
       if truthy product_id
       then [ScalarQueryParameter "product_id" "STRING" product_id] else []] in
     let where_clauses := List.concat [
       ["location_id = @location_id"; "status = @status_filter"];
       if truthy product_id then ["product_id = @product_id"] else [];
       if truthy nearing_expiry
       then ["expiry_date BETWEEN CURRENT_DATE() AND DATE_ADD(CURRENT_DATE(), INTERVAL 7 DAY)"]
       else []] in
     let query := unlines [
       EmptyString;
       "SELECT";
       "stock_id, product_id, current_quantity_kg,";
       "entry_date, best_before_date, expiry_date,";
       "storage_conditions, status";
       "FROM `" ++ INVENTORY_STOCK_TABLE ++ "`";
       "WHERE " ++ join " AND " where_clauses;
       "ORDER BY expiry_date ASC, best_before_date ASC -- Order by freshness";
       "LIMIT 20 -- Limit results";
       EmptyString] in
     '(success, stock_items) <- fetch_rows query query_params ;;
     if (success : bool) then
       ret (200, VDict [("status", VStr "success"); ("location_id", location_id);
                        ("stock_items", stock_items)])
     else
       ret (500, VDict [("status", VStr "error");
                        ("message", VStr "Failed to retrieve warehouse stock.");
                        ("details", stock_items)]))
    (ret (500, dict_error "An internal error occurred."))).

(** [random.shuffle(x)]: for [i] from [len(x) - 1] down to 1, exchange
    [x[i]] with [x[randbelow(i + 1)]]. *)
Fixpoint shuffle_from (i : nat) (x : list value) : M (list value) :=
  match i with
  | O => ret x
  | S k => j <- randbelow (Z.of_nat i + 1) ;; shuffle_from k (swap i (Z.to_nat j) x)
  end.

Definition shuffle (x : list value) : M (list value) :=
  shuffle_from (List.length x - 1) x.

(** The loop over the shuffled customers: stop [i + 1] is reached
    [(i + 1) * estimated_duration_per_stop_minutes] after the previous one. *)
Fixpoint simulated_route (i : Z) (current_time : datetime)
  (estimated_duration_per_stop_minutes : Z) (customer_locations : list value)
  : M (list value) :=
  match customer_locations with
  | [] => ret []
  | customer :: rest =>
      estimated_arrival <-
        lift (and_then (timedelta 0 0 ((i + 1) * estimated_duration_per_stop_minutes) 0)
                       (datetime_add current_time)) ;;
      destination_id <- lift (getitem customer "customer_id") ;;
      destination_address <- lift (getitem customer "shipping_address") ;;
      estimated_service_duration_minutes <- randint 15 45 ;;
      stops <- simulated_route (i + 1) estimated_arrival
                 estimated_duration_per_stop_minutes rest ;;
      ret (VDict [("stop_number", VInt (i + 1));
                  ("destination_id", destination_id);
                  ("destination_address", destination_address);
                  ("estimated_arrival_time", VStr (datetime_isoformat estimated_arrival));
                  ("estimated_service_duration_minutes",
                   VInt estimated_service_duration_minutes)] :: stops)
  end.

Definition vehicle_query : string := unlines [
  EmptyString;
  "SELECT vehicle_id, vehicle_type, capacity_kg, has_temperature_monitoring, carrier_name";
  "FROM `" ++ VEHICLES_TABLE ++ "`";
  "WHERE vehicle_id = @vehicle_id";
  "LIMIT 1";
  EmptyString].

Definition customer_query : string := unlines [
  EmptyString;
  "SELECT customer_id, shipping_address";
  "FROM `" ++ CUSTOMERS_TABLE ++ "`";
  "WHERE customer_id IN UNNEST(@customer_ids)";
  EmptyString].

Definition handle_optimize_delivery_route (data : value) : M (Z * value) :=
  let required_fields := ["destination_locations"; "vehicle_id"] in
  if_missing required_fields data missing_body
  (destination_locations <- lift (getitem data "destination_locations") ;;
   if negb (is_list destination_locations) || negb (truthy destination_locations) then
     ret (400, dict_error "Field 'destination_locations' must be a non-empty list.")
   else
   try_except
    (vehicle_id <- lift (getitem data "vehicle_id") ;;
     destinations <- lift (getitem data "destination_locations") ;;
     let vehicle_params := [ScalarQueryParameter "vehicle_id" "STRING" vehicle_id] in
     '(success_v, vehicle_details) <- fetch_rows vehicle_query vehicle_params ;;
     if negb success_v then
       ret (500, VDict [("status", VStr "error");
                        ("message", VStr "Failed to retrieve vehicle details.");
                        ("details", vehicle_details)])
     else if negb (truthy vehicle_details) then
       ret (200, VDict [("status", VStr "not_found");
                        ("message", VStr ("Vehicle ID " ++ str_of vehicle_id ++ " not found."))])
     else
       vehicle_info <- lift (item0 vehicle_details) ;;
       let customer_ids_to_lookup := destinations in
       let customer_params_array :=
         [ArrayQueryParameter "customer_ids" "STRING" customer_ids_to_lookup] in
       '(success_c, customer_locations) <- fetch_rows customer_query customer_params_array ;;
       let customer_locations :=
         match success_c, customer_locations with
         | true, VList rows => rows
         | _, _ => []
         end in
       match customer_locations with
       | [] =>
           ret (200, VDict [("status", VStr "unavailable");
                            ("message", VStr "Could not find valid destinations based on provided IDs.")])
       | _ =>
           let current_time := now in
           estimated_duration_per_stop_minutes <- randint 30 90 ;;
           customer_locations <- shuffle customer_locations ;;
           route_stops <- simulated_route 0 current_time
                            estimated_duration_per_stop_minutes customer_locations ;;
           let total_estimated_duration_minutes :=
             Z.of_nat (List.length customer_locations) * estimated_duration_per_stop_minutes in
           ret (200, VDict [("status", VStr "success");
                            ("vehicle_id", vehicle_id);
                            ("num_stops", VInt (Z.of_nat (List.length route_stops)));
                            ("estimated_total_duration_minutes",
                             VInt total_estimated_duration_minutes);
                            ("route_stops", VList route_stops);
                            ("message", VStr "Simulated route generated.")])
       end)
    (ret (500, dict_error "An internal error occurred during route optimization."))).

Definition handle_schedule_farm_pickup_logistics (data : value) : M (Z * value) :=
  let required_fields := ["farm_id"; "product_id"; "quantity_kg"; "requested_date"] in
  if_missing required_fields data
    (fun missing =>
       ret (200, VDict [("status", VStr "error");
                        ("message", VStr ("Logistics Pickup Request Error: Missing required fields: "
                                          ++ join ", " missing))]))
    (* the [print] of the [try] block reads the four fields with [data.get] *)
    match get data "farm_id" with
    | Ok _ =>
        ret (200, VDict [("status", VStr "acknowledged");
                         ("message", VStr "Pickup request received by Logistics.")])
    | Raise _ =>
        ret (200, VDict [("status", VStr "error");
                         ("message", VStr ("Error processing logistics pickup request: '"
                                           ++ type_name data
                                           ++ "' object has no attribute 'get'"))])
    end.

(** [try: return req.get_json(silent=True)
     except Exception: return None] *)
Definition get_request_data (req : request) : value :=
  match get_json req with
  | Ok request_data => request_data
  | Raise _ => VNone
  end.

Definition logifresh_backend_function (request : request) : M response :=
  if String.eqb (method request) "GET" && String.eqb (path request) "/" then
    out <- run_query "SELECT 1" [] ;;
    match out with
    | Rows _ => ret (Text "LogiFresh AI Backend is running and connected to BigQuery!", 200)
    | QueryRaises _ e =>
        ret (Text ("LogiFresh AI Backend health check failed: " ++ e), 500)
    end
  else if String.eqb (method request) "POST" then
    let request_data := get_request_data request in
    if is_none request_data then ret (no_json_response request)
    else if String.eqb (path request) "/shipment/status" then
      respond (handle_track_shipment_location request_data)
    else if String.eqb (path request) "/issue/coldchain" then
      respond (handle_report_cold_chain_issue request_data)
    else if String.eqb (path request) "/inventory/stock" then
      respond (handle_check_warehouse_stock request_data)
    else if String.eqb (path request) "/route/optimize" then
      respond (handle_optimize_delivery_route request_data)
    else if String.eqb (path request) "/logistics/schedule-pickup-request" then
      respond (handle_schedule_farm_pickup_logistics request_data)
    else
      ret (Json (dict_error ("Endpoint " ++ path request ++ " not found.")), 404)
  else
    ret (Json (dict_error ("Method " ++ method request ++ " not allowed for path "
                           ++ path request ++ ".")), 405).

End WithEnv.
End logifresh.

(** * marketflow/main.py *)

Module marketflow.
Section WithEnv.
Context {E : Env}.

(** As in agrioptimize, the module exits at import when a variable is
    unset. *)
Definition PROJECT_ID : string := match GCP_PROJECT with Some s => s | None => EmptyString end.
Definition DATASET_ID : string := match BQ_DATASET with Some s => s | None => EmptyString end.

Definition CUSTOMERS_TABLE := PROJECT_ID ++ "." ++ DATASET_ID ++ ".customers".
Definition ORDERS_TABLE := PROJECT_ID ++ "." ++ DATASET_ID ++ ".orders".
Definition ORDER_ITEMS_TABLE := PROJECT_ID ++ "." ++ DATASET_ID ++ ".order_items".
Definition DEMAND_FORECASTS_TABLE := PROJECT_ID ++ "." ++ DATASET_ID ++ ".demand_forecasts".
Definition MARKET_PRICES_TABLE := PROJECT_ID ++ "." ++ DATASET_ID ++ ".market_prices".
Definition INVENTORY_STOCK_TABLE := PROJECT_ID ++ "." ++ DATASET_ID ++ ".inventory_stock".
Definition SHIPMENTS_TABLE := PROJECT_ID ++ "." ++ DATASET_ID ++ ".shipments".
Definition PLANTING_SCHEDULES_TABLE := PROJECT_ID ++ "." ++ DATASET_ID ++ ".planting_schedules".

Definition missing_body (missing : list string) : M (Z * value) :=
  ret (400, VDict [("status", VStr "error");
                   ("message", VStr ("Missing required fields in body: " ++ join ", " missing))]).

Definition handle_get_demand_forecast (data : value) : M (Z * value) :=
  let required_fields := ["product_id"; "target_date_start"; "target_date_end"] in
  if_missing required_fields data missing_body
  (try_except
    (product_id <- lift (getitem data "product_id") ;;
     region <- lift (get data "region") ;;
     target_date_start_str <- lift (getitem data "target_date_start") ;;
     target_date_end_str <- lift (getitem data "target_date_end") ;;
     let query_params := List.concat [
       [ScalarQueryParameter "product_id" "STRING" product_id;
        ScalarQueryParameter "start_date" "DATE" target_date_start_str;
        ScalarQueryParameter "end_date" "DATE" target_date_end_str];
       if truthy region then [ScalarQueryParameter "region" "STRING" region] else []] in
     let where_clauses := List.concat [
       ["product_id = @product_id"; "target_date_start = @start_date";
        "target_date_end = @end_date"];
       if truthy region then ["region = @region"] else []] in
     let query := unlines [
       EmptyString;
       "SELECT";
       "forecast_id, region, forecast_date,";
       "target_date_start, target_date_end,";
       "forecasted_demand_kg, confidence_level";
       "FROM `" ++ DEMAND_FORECASTS_TABLE ++ "`";
       "WHERE " ++ join " AND " where_clauses;
       "ORDER BY forecast_date DESC";
       "LIMIT 5 -- Get the latest few forecasts for this period/region";
       EmptyString] in
     '(success, forecasts) <- fetch_rows query query_params ;;
     if (success : bool) then
       ret (200, VDict [("status", VStr "success"); ("forecasts", forecasts)])
     else
       ret (500, VDict [("status", VStr "error");
                        ("message", VStr "Failed to retrieve demand forecasts.");
                        ("details", forecasts)]))
    (ret (500, dict_error "An internal error occurred."))).

Definition handle_get_market_prices (data : value) : M (Z * value) :=
  let required_fields := ["product_id"] in
  if_missing required_fields data missing_body
  (try_except
    (product_id <- lift (getitem data "product_id") ;;
     region <- lift (get data "region") ;;
     date_str <- lift (get_default data "date" (VStr (date_isoformat today))) ;;
     let query_params := List.concat [
       [ScalarQueryParameter "product_id" "STRING" product_id;
        ScalarQueryParameter "market_date" "DATE" date_str];
       if truthy region then [ScalarQueryParameter "region" "STRING" region] else []] in
     let where_clauses := List.concat [
       ["product_id = @product_id"; "market_date = @market_date"];
       if truthy region then ["region = @region"] else []] in
     let query := unlines [
       EmptyString;
       "SELECT";
       "price_record_id, region, market_date,";
       "average_market_price_per_kg, source";
       "FROM `" ++ MARKET_PRICES_TABLE ++ "`";
       "WHERE " ++ join " AND " where_clauses;
       "LIMIT 1 -- Get price for exact date/region";
       EmptyString] in
     '(success, prices) <- fetch_rows query query_params ;;
     if success && truthy prices then
       ret (200, VDict [("status", VStr "success"); ("prices", prices)])
     else if success && negb (truthy prices) then
       ret (200, VDict [("status", VStr "success"); ("prices", VList []);
                        ("message", VStr ("No market price found for " ++ str_of product_id
                           ++ " on " ++ str_of date_str
                           ++ (if truthy region then " in " ++ str_of region else EmptyString)
                           ++ "."))])
     else
       ret (500, VDict [("status", VStr "error");
                        ("message", VStr "Failed to retrieve market prices.");
                        ("details", prices)]))
    (ret (500, dict_error "An internal error occurred."))).

(** [result[0][column] if success and result and result[0][column] is not None else 0] *)
Definition first_or_zero (success : bool) (result_ : value) (column : string)
  : result value :=
  if success && truthy result_ then
    match and_then (item0 result_) (fun row => getitem row column) with
    | Ok VNone => Ok (VInt 0)
    | r => r
    end
  else Ok (VInt 0).

Definition handle_check_product_availability (data : value) : M (Z * value) :=
  let required_fields := ["product_id"] in
  if_missing required_fields data missing_body
  (try_except
    (product_id <- lift (getitem data "product_id") ;;
     location_id <- lift (get data "location_id") ;;
     let query_params := List.concat [
       [ScalarQueryParameter "product_id" "STRING" product_id];
       if truthy location_id
       then [ScalarQueryParameter "location_id_stock" "STRING" location_id] else []] in
     let stock_where_clauses := List.concat [
       ["product_id = @product_id"; "status = 'Available'"];
       if truthy location_id then ["location_id = @location_id_stock"] else []] in
     let shipment_where_clauses :=
       ["t2.product_id = @product_id_shipment"; "t1.status = 'In Transit'";
        "t1.arrival_timestamp_estimate >= CURRENT_TIMESTAMP()"] in
     let schedule_where_clauses :=
       ["product_id = @product_id_sched"; "planned_harvest_date_estimate >= CURRENT_DATE()";
        "status IN ('Planned', 'Planted', 'Growing', 'Harvesting')"] in
     let stock_where_sql := "WHERE " ++ join " AND " stock_where_clauses in
     let stock_query := unlines [
       EmptyString;
       "SELECT SUM(current_quantity_kg) as total_on_hand, COUNT(DISTINCT location_id) as num_locations";
       "FROM `" ++ INVENTORY_STOCK_TABLE ++ "`";
       stock_where_sql;
       EmptyString] in
     '(success_stock, stock_result) <- fetch_rows stock_query query_params ;;
     on_hand_kg <- lift (first_or_zero success_stock stock_result "total_on_hand") ;;
     num_stock_locations <- lift (first_or_zero success_stock stock_result "num_locations") ;;
     let shipment_params := [ScalarQueryParameter "product_id_shipment" "STRING" product_id] in
     let shipment_query := unlines [
       EmptyString;
       "SELECT SUM(t2.ordered_quantity_kg) as total_incoming_shipments";
       "FROM `" ++ SHIPMENTS_TABLE ++ "` t1";
       "JOIN `" ++ ORDER_ITEMS_TABLE ++ "` t2 ON t1.order_id = t2.order_id -- Simplified join";
       "WHERE " ++ join " AND " shipment_where_clauses;
       EmptyString] in
     '(success_shipment, shipment_result) <- fetch_rows shipment_query shipment_params ;;
     incoming_shipments_kg <-
       lift (first_or_zero success_shipment shipment_result "total_incoming_shipments") ;;
     let schedule_params := [ScalarQueryParameter "product_id_sched" "STRING" product_id] in
     let schedule_where_sql := "WHERE " ++ join " AND " schedule_where_clauses in
     let schedule_query := unlines [
       EmptyString;
       "SELECT SUM(expected_yield_estimate_kg) as total_upcoming_harvest";
       "FROM `" ++ PLANTING_SCHEDULES_TABLE ++ "`";
       schedule_where_sql;
       EmptyString] in
     '(success_schedule, schedule_result) <- fetch_rows schedule_query schedule_params ;;
     upcoming_harvest_kg <-
       lift (first_or_zero success_schedule schedule_result "total_upcoming_harvest") ;;
     let overall_success := success_stock && success_shipment && success_schedule in
     if overall_success then
       ret (200, VDict [("status", VStr "success");
                        ("product_id", product_id);
                        ("location_id", location_id);
                        ("total_on_hand_kg", on_hand_kg);
                        ("num_stock_locations", num_stock_locations);
                        ("total_incoming_shipments_kg", incoming_shipments_kg);
                        ("total_upcoming_harvest_kg", upcoming_harvest_kg)])
     else
       let error_messages := List.concat [
         if negb success_stock then ["Stock query failed: " ++ str_of stock_result] else [];
         if negb success_shipment
         then ["Shipment query failed: " ++ str_of shipment_result] else [];
         if negb success_schedule
         then ["Schedule query failed: " ++ str_of schedule_result] else []] in
       ret (500, VDict [("status", VStr "error");
                        ("message", VStr "Failed to retrieve availability data.");
                        ("details", VStr (join " | " error_messages))]))
    (ret (500, dict_error "An internal error occurred."))).

(** What the loop over [data['items']] does with one item: an early
    [return] of the function, or the line to insert and its total. *)
Inductive item_outcome : Type :=
| Return (status_code : Z) (response_body : value)
| Line (row : value) (line_item_total : float).

Definition order_item (order_id : string) (item : value) : M item_outcome :=
  has_product_id <- lift (contains item "product_id") ;;
  has_quantity_kg <- (if (has_product_id : bool)
                      then lift (contains item "quantity_kg") else ret false) ;;
  if negb has_product_id || negb has_quantity_kg then
    ret (Return 400 (dict_error "Each item in 'items' must have 'product_id' and 'quantity_kg'."))
  else
    product_id <- lift (getitem item "product_id") ;;
    quantity_kg <- lift (getitem item "quantity_kg") ;;
    catching [ValueError; TypeError] (int_of quantity_kg)
      (ret (Return 400 (dict_error ("Invalid quantity_kg format for product "
                                     ++ str_of product_id ++ ". Expected integer."))))
    (fun quantity_kg_int =>
     if quantity_kg_int <=? 0 then
       ret (Return 400 (dict_error ("Invalid quantity for product " ++ str_of product_id
                                     ++ ". Must be positive integer.")))
     else
       u <- random_uniform 1%float 5%float ;;
       let simulated_price_per_kg := round2 u in
       quantity <- lift (float_of_int quantity_kg_int) ;;
       let line_item_total := round2 (quantity * simulated_price_per_kg)%float in
       order_item_id <- new_uuid ;;
       ret (Line (VDict [("order_item_id", VStr order_item_id);
                         ("order_id", VStr order_id);
                         ("product_id", product_id);
                         ("ordered_quantity_kg", VInt quantity_kg_int);
                         ("price_per_kg_at_order", VFloat simulated_price_per_kg);
                         ("line_item_total", VFloat line_item_total)])
                 line_item_total)).

(** The [for item in data['items']] loop: the rows collected and the
    running [total_amount], or the early [return]. *)
Fixpoint order_items (order_id : string) (items : list value)
  (order_items_to_insert : list value) (total_amount : float)
  : M (Z * value + list value * float) :=
  match items with
  | [] => ret (inr (order_items_to_insert, total_amount))
  | item :: rest =>
      out <- order_item order_id item ;;
      match out with
      | Return status_code response_body => ret (inl (status_code, response_body))
      | Line row line_item_total =>
          order_items order_id rest (order_items_to_insert ++ [row])%list
                      (total_amount + line_item_total)%float
      end
  end.

Definition handle_place_purchase_order (data : value) : M (Z * value) :=
  let required_fields := ["customer_id"; "items"] in
  if_missing required_fields data missing_body
  (items <- lift (getitem data "items") ;;
   if negb (is_list items) || negb (truthy items) then
     ret (400, dict_error "Field 'items' must be a non-empty list.")
   else
   order_id <- new_uuid ;;
   customer_id <- lift (getitem data "customer_id") ;;
   let order_date := date_isoformat today in
   try_except
    (collected <- order_items order_id (match items with VList l => l | _ => [] end)
                    [] 0%float ;;
     match collected with
     | inl early => ret early
     | inr (order_items_to_insert, total_amount) =>
         let customer_query :=
           "SELECT shipping_address FROM `" ++ CUSTOMERS_TABLE
           ++ "` WHERE customer_id = @customer_id LIMIT 1" in
         let customer_params := [ScalarQueryParameter "customer_id" "STRING" customer_id] in
         '(success_cust, customer_info) <- fetch_rows customer_query customer_params ;;
         delivery_address <-
           (if success_cust && truthy customer_info
            then lift (and_then (item0 customer_info)
                                (fun row => getitem row "shipping_address"))
            else ret (VStr "Unknown Address")) ;;
         delivery_date_requested <-
           lift (get_default data "delivery_date_requested" (VStr order_date)) ;;
         delivery_address <- lift (get_default data "delivery_address" delivery_address) ;;
         status <- lift (get_default data "status" (VStr "Pending")) ;;
         let order_to_insert := VDict [
           ("order_id", VStr order_id);
           ("customer_id", customer_id);
           ("order_date", VStr order_date);
           ("delivery_date_requested", delivery_date_requested);
           ("delivery_address", delivery_address);
           ("status", status);
           ("total_amount", VFloat (round2 total_amount))] in
         '(success_order, errors_order) <- insert_rows ORDERS_TABLE [order_to_insert] ;;
         '(success_items, errors_items) <- insert_rows ORDER_ITEMS_TABLE order_items_to_insert ;;
         if success_order && success_items then
           ret (200, VDict [("status", VStr "success"); ("order_id", VStr order_id);
                            ("message", VStr "Purchase order placed successfully.");
                            ("total_amount", VFloat total_amount)])
         else
           let error_details := List.concat [
             if negb success_order
             then ["Order insert failed: " ++ str_of errors_order] else [];
             if negb success_items
             then ["Order items insert failed: " ++ str_of errors_items] else []] in
           ret (500, VDict [("status", VStr "error");
                            ("message", VStr "Failed to place purchase order.");
                            ("details", VStr (join " | " error_details))])
     end)
    (ret (500, dict_error "An internal error occurred."))).

(** [try: return req.get_json(silent=True)
     except Exception: return None] *)
Definition get_request_data (req : request) : value :=
  match get_json req with
  | Ok request_data => request_data
  | Raise _ => VNone
  end.

Definition marketflow_backend_function (request : request) : M response :=
  if String.eqb (method request) "GET" && String.eqb (path request) "/" then
    out <- run_query "SELECT 1" [] ;;
    match out with
    | Rows _ => ret (Text "MarketFlow AI Backend is running and connected to BigQuery!", 200)
    | QueryRaises _ e =>
        ret (Text ("MarketFlow AI Backend health check failed: " ++ e), 500)
    end
  else if String.eqb (method request) "POST" then
    let request_data := get_request_data request in
    if is_none request_data then ret (no_json_response request)
    else if String.eqb (path request) "/forecast" then
      respond (handle_get_demand_forecast request_data)
    else if String.eqb (path request) "/prices/current" then
      respond (handle_get_market_prices request_data)
    else if String.eqb (path request) "/inventory/available" then
      respond (handle_check_product_availability request_data)
    else if String.eqb (path request) "/order" then
      respond (handle_place_purchase_order request_data)
    else
      ret (Json (dict_error ("Endpoint " ++ path request ++ " not found.")), 404)
  else
    ret (Json (dict_error ("Method " ++ method request ++ " not allowed for path "
                           ++ path request ++ ".")), 405).

End WithEnv.
End marketflow.

(** * getoptimizedeliveryroute/main.py *)

Module getoptimizedeliveryroute.
Section WithEnv.
Context {E : Env}.

Definition PROJECT_ID : string :=
  match GCP_PROJECT with Some s => s | None => "laeswdm-agbgagenticaihackat" end.
Definition DATASET_ID : string := "agriculture".
Definition FARM_PROFILES_TABLE := PROJECT_ID ++ "." ++ DATASET_ID ++ ".farm_profiles".
Definition WAREHOUSES_TABLE := PROJECT_ID ++ "." ++ DATASET_ID ++ ".warehouses".
Definition ORDERS_TABLE := PROJECT_ID ++ "." ++ DATASET_ID ++ ".orders".
Definition ORDER_ITEMS_TABLE := PROJECT_ID ++ "." ++ DATASET_ID ++ ".order_items".
Definition CUSTOMERS_TABLE := PROJECT_ID ++ "." ++ DATASET_ID ++ ".customers".
Definition VEHICLES_TABLE := PROJECT_ID ++ "." ++ DATASET_ID ++ ".vehicles".

Definition ROUTES_API_URL : string := "https://routes.googleapis.com/directions/v2:computeRoutes".
Definition GEOCODING_API_URL : string := "https://maps.googleapis.com/maps/api/geocode/json".

(** [if not api_key] *)
Definition usable_key (api_key : option string) : option string :=
  match api_key with
  | Some EmptyString | None => None
  | Some k => Some k
  end.

(** This module's own [fetch_rows]: any exception gives [(False, str(e))]. *)
Definition fetch_rows (query : string) (parameters : list query_param) : M (bool * value) :=
  out <- run_query query parameters ;;
  ret match out with
      | Rows results => (true, VList results)
      | QueryRaises _ msg => (false, VStr msg)
      end.

(** The coordinates a geocoding answer holds, [None] when it has none
    or is not shaped as expected. *)
Definition geocode_location (geocode_result : value) : option value :=
  let found :=
    and_then (get geocode_result "status") (fun status =>
    and_then (get geocode_result "results") (fun results =>
    if is_str_eq "OK" status && truthy results then
      and_then (getitem geocode_result "results") (fun results =>
      and_then (item0 results) (fun first =>
      and_then (getitem first "geometry") (fun geometry =>
      and_then (getitem geometry "location") (fun location =>
      and_then (getitem location "lat") (fun lat =>
      and_then (getitem location "lng") (fun lng =>
      Ok (Some (VDict [("latitude", lat); ("longitude", lng)]))))))))
    else Ok None)) in
  match found with
  | Ok r => r
  | Raise _ => None
  end.

Definition geocode_address (address_string : value) (api_key : option string)
  : M (option value) :=
  match usable_key api_key with
  | None => ret None
  | Some key =>
      if negb (truthy address_string) then ret None
      else
        let params := [("address", address_string); ("key", VStr key)] in
        out <- http_get GEOCODING_API_URL params ;;
        match out with
        | HttpJson geocode_result => ret (geocode_location geocode_result)
        | HttpRaises _ => ret None
        end
  end.

(** The [try] block that reads ["Lat:..., Lon:..."] strings; [None]
    when it raises. *)
Definition dummy_coordinates (location_string : string) : option value :=
  let parts := str_split ", Lon:"
                 (str_replace "Lon:" EmptyString (str_replace "Lat:" EmptyString location_string)) in
  match parts with
  | p0 :: p1 :: _ =>
      match parse_float (str_strip p0), parse_float (str_strip p1) with
      | Some lat, Some lon => Some (VDict [("latitude", VFloat lat); ("longitude", VFloat lon)])
      | _, _ => None
      end
  | _ => None
  end.

(** [isinstance(s, str) and "Lat:" in s and "Lon:" in s], then the
    [try] block. *)
Definition parsed_coordinates (location_string : value) : option value :=
  match location_string with
  | VStr s => if str_contains "Lat:" s && str_contains "Lon:" s
              then dummy_coordinates s else None
  | _ => None
  end.

Definition location_query : string := unlines [
  EmptyString;
  "SELECT farm_location FROM `" ++ FARM_PROFILES_TABLE ++ "` WHERE farm_id = @loc_id";
  "UNION ALL";
  "SELECT location_address FROM `" ++ WAREHOUSES_TABLE ++ "` WHERE warehouse_id = @loc_id";
  "LIMIT 1";
  EmptyString].

Definition get_location_coordinates (location_id : value) (api_key : option string)
  : M (option value) :=
  out <- run_query location_query [ScalarQueryParameter "loc_id" "STRING" location_id] ;;
  match out with
  | QueryRaises _ _ => raise ClientError
  | Rows [] => ret None
  | Rows (first :: _) =>
      location_string <- lift (getitem first "farm_location") ;;
      match parsed_coordinates location_string with
      | Some coords => ret (Some coords)
      | None => geocode_address location_string api_key
      end
  end.

Definition orders_query : string := unlines [
  EmptyString;
  "SELECT";
  "o.order_id,";
  "o.delivery_address, -- Get the delivery address from the order";
  "CAST(RAND() * 4000 + 1000 AS INT64) AS total_kg -- Total quantity per order";
  "FROM `" ++ ORDERS_TABLE ++ "` o";
  "--JOIN `" ++ ORDER_ITEMS_TABLE ++ "` oi ON o.order_id = oi.order_id";
  "JOIN `" ++ CUSTOMERS_TABLE ++ "` c ON o.customer_id = c.customer_id -- Join to customers to ensure address is from customer";
  "WHERE o.order_id IN UNNEST(@order_ids)";
  "GROUP BY o.order_id, o.delivery_address -- Group by order and address";
  EmptyString].

(** The loop over the order rows: a destination is kept when its
    address yields coordinates. *)
Fixpoint destination_details_of (rows : list value) (api_key : option string)
  : M (list value) :=
  match rows with
  | [] => ret []
  | row :: rest =>
      address_string <- lift (getitem row "delivery_address") ;;
      coords <- match parsed_coordinates address_string with
                | Some coords => ret (Some coords)
                | None => geocode_address address_string api_key
                end ;;
      kept <- match coords with
              | Some coords =>
                  order_id <- lift (getitem row "order_id") ;;
                  latitude <- lift (getitem coords "latitude") ;;
                  longitude <- lift (getitem coords "longitude") ;;
                  total_kg <- lift (getitem row "total_kg") ;;
                  ret [VDict [("order_id", order_id);
                              ("address", address_string);
                              ("latitude", latitude);
                              ("longitude", longitude);
                              ("total_kg", total_kg)]]
              | None => ret []
              end ;;
      others <- destination_details_of rest api_key ;;
      ret (kept ++ others)%list
  end.

Definition get_destination_details_for_orders (order_ids : value) (api_key : option string)
  : M (list value) :=
  '(success, results) <-
    fetch_rows orders_query [ArrayQueryParameter "order_ids" "STRING" order_ids] ;;
  match success, results with
  | true, VList rows => destination_details_of rows api_key
  | _, _ => ret []
  end.

Definition vehicle_query : string := unlines [
  EmptyString;
  "SELECT vehicle_id, vehicle_type, capacity_kg, has_temperature_monitoring, carrier_name";
  "FROM `" ++ VEHICLES_TABLE ++ "`";
  "WHERE vehicle_id = @vehicle_id";
  "LIMIT 1";
  EmptyString].

Definition get_vehicle_details (vehicle_id : value) : M value :=
  '(success, results) <-
    fetch_rows vehicle_query [ScalarQueryParameter "vehicle_id" "STRING" vehicle_id] ;;
  if success && truthy results then lift (item0 results)
  else if (success : bool) then ret VNone
  else raise ClientError.

Definition waypoint (dest : value) : result value :=
  and_then (getitem dest "latitude") (fun latitude =>
  and_then (getitem dest "longitude") (fun longitude =>
  Ok (VDict [("location",
              VDict [("latLng", VDict [("latitude", latitude); ("longitude", longitude)])])]))).

Fixpoint waypoints (destination_details : list value) : result (list value) :=
  match destination_details with
  | [] => Ok []
  | dest :: rest =>
      and_then (waypoint dest) (fun w =>
      and_then (waypoints rest) (fun ws => Ok (w :: ws)))
  end.

Definition routes_api_payload (origin_coords : value) (destination_waypoints : list value)
  : value :=
  let origin_waypoint := VDict [("location", VDict [("latLng", origin_coords)])] in
  let final_destination_waypoint := last destination_waypoints VNone in
  let intermediate_waypoints := removelast destination_waypoints in
  VDict [("origin", origin_waypoint);
         ("destination", final_destination_waypoint);
         ("intermediates", VList intermediate_waypoints);
         ("travelMode", VStr "DRIVE");
         ("routingPreference", VStr "TRAFFIC_AWARE_OPTIMAL");
         ("computeAlternativeRoutes", VBool false);
         ("routeModifiers", VDict [("avoidTolls", VBool false);
                                   ("avoidHighways", VBool false)])].

Definition routes_api_headers (api_key : string) : list (string * string) :=
  [("Content-Type", "application/json");
   ("X-Goog-Api-Key", api_key);
   ("X-Goog-FieldMask", "routes.duration,routes.distanceMeters,routes.polyline.encodedPolyline")].

Definition call_routes_api_compute_routes (origin_coords : value)
  (destination_details : list value) (api_key : option string) : M (bool * value) :=
  match usable_key api_key with
  | None => ret (false, VStr "API Key not configured.")
  | Some key =>
      match destination_details with
      | [] => ret (false, VStr "No valid destinations with coordinates provided.")
      | _ =>
          destination_waypoints <- lift (waypoints destination_details) ;;
          out <- http_post ROUTES_API_URL
                   (routes_api_payload origin_coords destination_waypoints)
                   (routes_api_headers key) ;;
          match out with
          | HttpJson routes_api_result => ret (true, routes_api_result)
          | HttpRaises e => ret (false, VStr e)
          end
      end
  end.

(** [int(s.strip())] *)
Definition int_of_stripped (s : string) : result Z :=
  match parse_int (str_strip s) with Some n => Ok n | None => Raise ValueError end.

(** [minutes, seconds = s.split('m');
     int(minutes.strip()) * 60 + int(seconds.strip())] *)
Definition minutes_and_seconds (s : string) : result Z :=
  match str_split "m" s with
  | [minutes; seconds] =>
      and_then (int_of_stripped minutes) (fun m =>
      and_then (int_of_stripped seconds) (fun sec => Ok (m * 60 + sec)))
  | _ => Raise ValueError
  end.

Definition parse_duration_string (duration_str : value) : result Z :=
  let has_s :=
    if truthy duration_str then contains duration_str "s" else Ok false in
  and_then has_s (fun has_s =>
  and_then
    (if (has_s : bool) then
       match duration_str with
       | VStr s =>
           match str_split "h" (str_replace "s" EmptyString s) with
           | p0 :: p1 :: _ =>
               and_then (int_of_stripped p0) (fun hours =>
               let minute_seconds_part := str_strip p1 in
               and_then
                 (if str_contains "m" minute_seconds_part
                  then minutes_and_seconds minute_seconds_part
                  else if negb (String.eqb minute_seconds_part EmptyString)
                       then int_of_stripped minute_seconds_part
                       else Ok 0)
                 (fun rest => Ok (hours * 3600 + rest)))
           | _ =>
               if str_contains "m" s then minutes_and_seconds s
               else int_of_stripped s
           end
       | _ => Raise AttributeError
       end
     else Ok 0)
    (fun total_seconds => timedelta 0 0 0 total_seconds)).

(** [for x in v] *)
Definition iterate (v : value) : result (list value) :=
  match v with
  | VList l => Ok l
  | VStr s => Ok (map (fun c => VStr (String c EmptyString)) (list_ascii_of_string s))
  | VDict d => Ok (map (fun kv => VStr (fst kv)) d)
  | _ => Raise TypeError
  end.

(** The loop over the legs of the route the API returned: leg [i] ends
    at destination [i]. *)
Fixpoint stops_of_legs (i : nat) (route_legs : list value) (destination_details : list value)
  (estimated_departure_time : datetime) (current_cumulative_duration : Z)
  : result (list value) :=
  match route_legs with
  | [] => Ok []
  | leg :: rest =>
      and_then (get_default leg "duration" (VStr "0s")) (fun leg_duration_str =>
      and_then (get_default leg "distanceMeters" (VInt 0)) (fun leg_distance_meters =>
      and_then (parse_duration_string leg_duration_str) (fun leg_duration =>
      and_then (timedelta_add current_cumulative_duration leg_duration)
        (fun current_cumulative_duration =>
      and_then
        (match nth_error destination_details i with
         | Some destination_info =>
             and_then (datetime_add estimated_departure_time current_cumulative_duration)
               (fun estimated_arrival =>
             and_then (getitem destination_info "order_id") (fun destination_id =>
             and_then (getitem destination_info "address") (fun destination_address =>
             and_then (get destination_info "total_kg") (fun total_kg_for_stop =>
             Ok [VDict [("stop_number", VInt (Z.of_nat i + 1));
                        ("destination_id", destination_id);
                        ("destination_address", destination_address);
                        ("estimated_arrival_time", VStr (datetime_isoformat estimated_arrival));
                        ("estimated_duration_from_previous_stop", leg_duration_str);
                        ("estimated_distance_from_previous_stop_meters", leg_distance_meters);
                        ("total_kg_for_stop", total_kg_for_stop)]]))))
         | None => Ok []
         end)
        (fun stop =>
      and_then (stops_of_legs (S i) rest destination_details estimated_departure_time
                              current_cumulative_duration)
        (fun stops => Ok (stop ++ stops)%list))))))
  end.

(** Step 4 of the handler: the origin, then one stop per leg of the
    route the API returned. *)
Definition route_stops_with_times (origin_id : value) (destination_details : list value)
  (route_legs : value) (estimated_departure_time : datetime) : result (list value) :=
  let origin_stop := VDict [
    ("stop_number", VInt 0);
    ("location_id", origin_id);
    ("location_type", VStr "Origin");
    ("estimated_arrival_time", VStr (datetime_isoformat estimated_departure_time));
    ("estimated_duration_from_previous_stop", VStr "0s");
    ("estimated_distance_from_previous_stop_meters", VInt 0)] in
  and_then (iterate route_legs) (fun legs =>
  and_then (stops_of_legs O legs destination_details estimated_departure_time 0)
    (fun stops => Ok (origin_stop :: stops))).

(** [len(route_legs)] *)
Definition len (v : value) : result Z :=
  and_then (iterate v) (fun l => Ok (Z.of_nat (List.length l))).

(** What the [try] block of step 2 leaves: an early [return] or the
    data the routing call needs. *)
Inductive located : Type :=
| Answer (r : response)
| Located (origin_coords : value) (destination_details : list value).

Definition handle_optimize_delivery_route (request : request) : M response :=
  if negb (String.eqb (method request) "POST") then
    ret (Dumps (VDict [("error", VStr "Method not allowed")]), 405)
  else
  request_json <- lift (get_json request) ;;
  origin_id <- lift (get request_json "origin_location_id") ;;
  destination_order_ids <- lift (get request_json "destination_order_ids") ;;
  vehicle_id <- lift (get request_json "vehicle_id") ;;
  route_date_str <- lift (get request_json "route_date") ;;
  if negb (truthy origin_id) || negb (truthy destination_order_ids) then
    ret (Dumps (VDict [("status", VStr "error");
                       ("message", VStr "Missing required input parameters")]), 400)
  else if negb (is_list destination_order_ids) || negb (truthy destination_order_ids) then
    ret (Dumps (VDict [("status", VStr "error");
                       ("message", VStr ("Field " ++ dq ++ "destination_order_ids" ++ dq
                                         ++ " must be a non-empty list."))]),
         400)
  else
  step2 <-
    try_except
      (origin_coords <- get_location_coordinates origin_id GOOGLE_MAPS_API_KEY ;;
       match origin_coords with
       | None =>
           ret (Answer (Dumps (VDict [("status", VStr "not_found");
                                      ("message", VStr ("Origin location ID " ++ str_of origin_id
                                         ++ " not found or coordinates unavailable."))]),
                        404))
       | Some origin_coords =>
           destination_details <-
             get_destination_details_for_orders destination_order_ids GOOGLE_MAPS_API_KEY ;;
           match destination_details with
           | [] =>
               ret (Answer (Dumps (VDict [("status", VStr "unavailable");
                                          ("message", VStr "Could not find valid destinations or coordinates for provided order IDs.")]),
                            200))
           | _ =>
               _ <- (if truthy vehicle_id
                     then try_except (get_vehicle_details vehicle_id) (ret VNone)
                     else ret VNone) ;;
               ret (Located origin_coords destination_details)
           end
       end)
      (ret (Answer (Dumps (VDict [("status", VStr "error");
                                  ("message", VStr "Error retrieving necessary data")]),
                    500))) ;;
  match step2 with
  | Answer r => ret r
  | Located origin_coords destination_details =>
      '(success, routes_api_result) <-
        call_routes_api_compute_routes origin_coords destination_details GOOGLE_MAPS_API_KEY ;;
      if negb success then
        ret (Dumps (VDict [("status", VStr "error");
                           ("message", VStr "Failed to compute route via routing service");
                           ("details", routes_api_result)]), 500)
      else
        routes <- lift (get routes_api_result "routes") ;;
        if negb (truthy routes) then
          ret (Dumps (VDict [("status", VStr "unavailable");
                             ("message", VStr "Could not compute a route with the provided locations.")]),
               200)
        else
          main_route <- lift (and_then (getitem routes_api_result "routes") item0) ;;
          total_estimated_duration_str <- lift (get_default main_route "duration" (VStr "0s")) ;;
          total_estimated_distance_meters <-
            lift (get_default main_route "distanceMeters" (VInt 0)) ;;
          route_legs <- lift (get_default main_route "legs" (VList [])) ;;
          minutes <- randint 5 15 ;;
          estimated_departure_time <-
            lift (and_then (timedelta 0 0 minutes 0) (datetime_add now)) ;;
          route_stops <- lift (route_stops_with_times origin_id destination_details
                                 route_legs estimated_departure_time) ;;
          num_legs <- lift (len route_legs) ;;
          let response_data := VDict [
            ("status", VStr "success");
            ("vehicle_id", vehicle_id);
            ("num_stops_on_route", VInt (num_legs + 1));
            ("estimated_total_duration", total_estimated_duration_str);
            ("estimated_total_distance_meters", total_estimated_distance_meters);
            ("route_stops", VList route_stops);
            ("route_date", route_date_str)] in
          ret (Dumps response_data, 200)
  end.

End WithEnv.
End getoptimizedeliveryroute.

(** * The lookup functions

    [getproduct], [getfirmdetails] and [getcustomerdetails] are one
    program up to the table, the request field, the selected columns and
    the search clause. *)

(** [str(e)] for the [KeyError] a row raises on a missing column. *)
Definition no_row_field (key : string) : string :=
  dq ++ "no row field '" ++ key ++ "'" ++ dq.

(** [{c: row[c] for c in columns}], or the text of the first [KeyError]. *)
Fixpoint select_columns (columns : list string) (row : value) : string + list (string * value) :=
  match columns with
  | [] => inr []
  | c :: rest =>
      match getitem row c with
      | Ok v => match select_columns rest row with
                | inr fields => inr ((c, v) :: fields)
                | inl e => inl e
                end
      | Raise _ => inl (no_row_field c)
      end
  end.

Fixpoint collect_matches (columns : list string) (rows : list value) : string + list value :=
  match rows with
  | [] => inr []
  | row :: rest =>
      match select_columns columns row with
      | inl e => inl e
      | inr fields => match collect_matches columns rest with
                      | inr matches => inr (VDict fields :: matches)
                      | inl e => inl e
                      end
      end
  end.

Section Lookup.
Context {E : Env}.
Variables (BIGQUERY_TABLE field what : string) (columns : list string)
          (list_query search_query : string) (pattern_name : string).

Definition lookup_by_name (request : request) : M response :=
  request_json <- lift (get_json request) ;;
  name_input <-
    (if truthy request_json then
       present <- lift (contains request_json field) ;;
       if (present : bool) then
         v <- lift (getitem request_json field) ;;
         ret (if truthy v then v else VNone)
       else ret VNone
     else ret VNone) ;;
  let '(query, query_params) :=
    if negb (truthy name_input) then (list_query, [])
    else (search_query,
          [ScalarQueryParameter pattern_name "STRING"
             (VStr ("%" ++ str_of name_input ++ "%"))]) in
  out <- run_query query query_params ;;
  let failed (details : string) : response :=
    (Dumps (VDict [("error", VStr ("Internal server error during " ++ what ++ " lookup"));
                   ("details", VStr details)]), 500) in
  match out with
  | QueryRaises _ e => ret (failed e)
  | Rows results =>
      match collect_matches columns results with
      | inl e => ret (failed e)
      | inr matches => ret (Dumps (VDict [("matches", VList matches)]), 200)
      end
  end.
End Lookup.

Module getproduct.
Section WithEnv.
Context {E : Env}.
Definition BIGQUERY_TABLE : string := "laeswdm-agbgagenticaihackat.agriculture.product_catalog".

Definition lookup_product_by_name : request -> M response :=
  lookup_by_name "product_name" "product"
    ["product_id"; "product_name"; "category"; "storage_requirements"]
    (unlines [EmptyString;
              "SELECT product_id, product_name, category, storage_requirements";
              "FROM `" ++ BIGQUERY_TABLE ++ "`";
              "LIMIT 100 -- Limit results when fetching all to avoid large responses";
              EmptyString])
    (unlines [EmptyString;
              "SELECT product_id, product_name, category, storage_requirements";
              "FROM `" ++ BIGQUERY_TABLE ++ "`";
              "WHERE LOWER(product_name) LIKE LOWER(@product_name_pattern)";
              EmptyString])
    "product_name_pattern".
End WithEnv.
End getproduct.

Module getfirmdetails.
Section WithEnv.
Context {E : Env}.
Definition BIGQUERY_TABLE : string := "laeswdm-agbgagenticaihackat.agriculture.farm_profiles".

Definition lookup_farm_by_name : request -> M response :=
  lookup_by_name "farm_name" "farm"
    ["farm_id"; "farm_name"; "farm_location"; "supplier_name"]
    (unlines [EmptyString;
              "SELECT farm_id, farm_name, farm_location, supplier_name";
              "FROM `" ++ BIGQUERY_TABLE ++ "`";
              "LIMIT 100 -- Limit results when fetching all to avoid large responses";
              EmptyString])
    (unlines [EmptyString;
              "SELECT farm_id, farm_name, farm_location, supplier_name";
              "FROM `" ++ BIGQUERY_TABLE ++ "`";
              "WHERE LOWER(farm_name) LIKE LOWER(@query_pattern) OR LOWER(farm_location) LIKE LOWER(@query_pattern)";
              "LIMIT 100 -- Limit results for search too";
              EmptyString])
    "query_pattern".
End WithEnv.
End getfirmdetails.

Module getcustomerdetails.
Section WithEnv.
Context {E : Env}.
Definition BIGQUERY_TABLE : string := "laeswdm-agbgagenticaihackat.agriculture.customers".

Definition lookup_customer_by_name : request -> M response :=
  lookup_by_name "customer_name_query" "customer"
    ["customer_id"; "customer_name"; "customer_type"; "shipping_address"]
    (unlines [EmptyString;
              "SELECT customer_id, customer_name, customer_type, shipping_address";
              "FROM `" ++ BIGQUERY_TABLE ++ "`";
              "LIMIT 100 -- Limit results when fetching all to avoid large responses";
              EmptyString])
    (unlines [EmptyString;
              "SELECT customer_id, customer_name, customer_type, shipping_address";
              "FROM `" ++ BIGQUERY_TABLE ++ "`";
              "WHERE LOWER(customer_name) LIKE LOWER(@query_pattern)";
              "LIMIT 100 -- Limit results for search too";
              EmptyString])
    "query_pattern".
End WithEnv.
End getcustomerdetails.

(** * getvehicledetails/main.py *)

Module getvehicledetails.
Section WithEnv.
Context {E : Env}.
Definition BIGQUERY_TABLE : string := "laeswdm-agbgagenticaihackat.agriculture.vehicles".

Definition query : string := unlines [
  EmptyString;
  "SELECT vehicle_id, carrier_name, vehicle_type, capacity_kg, has_temperature_monitoring, vehicle_license_no # Include license_no in select";
  "FROM `" ++ BIGQUERY_TABLE ++ "`";
  "WHERE vehicle_license_no = @license_no";
  "LIMIT 1";
  EmptyString].

Definition columns : list string :=
  ["vehicle_id"; "carrier_name"; "vehicle_type"; "capacity_kg";
   "has_temperature_monitoring"; "vehicle_license_no"].

Definition lookup_vehicle_by_license (request : request) : M response :=
  let bad_request : M response :=
    ret (Dumps (VDict [("error", VStr "Missing or empty vehicle_license_no in request body")]),
         400) in
  request_json <- lift (get_json request) ;;
  if negb (truthy request_json) then bad_request
  else
    present <- lift (contains request_json "vehicle_license_no") ;;
    if negb present then bad_request
    else
      vehicle_license_no_input <- lift (getitem request_json "vehicle_license_no") ;;
      if negb (truthy vehicle_license_no_input) then bad_request
      else
        out <- run_query query
                 [ScalarQueryParameter "license_no" "STRING" vehicle_license_no_input] ;;
        let failed (details : string) : response :=
          (Dumps (VDict [("error", VStr "Internal server error during vehicle lookup");
                         ("details", VStr details)]), 500) in
        match out with
        | QueryRaises _ e => ret (failed e)
        | Rows [] =>
            ret (Dumps (VDict [("error", VStr ("Vehicle with license '"
                                               ++ str_of vehicle_license_no_input
                                               ++ "' not found"));
                               ("matches", VList [])]), 404)
        | Rows (row :: _) =>
            match select_columns columns row with
            | inl e => ret (failed e)
            | inr fields => ret (Dumps (VDict [("matches", VList [VDict fields])]), 200)
            end
        end.
End WithEnv.
End getvehicledetails.

(** * Properties *)

(** ** The three routed backends *)

Inductive backend : Type := Agrioptimize | Logifresh | Marketflow.

Definition entry_point {E : Env} (b : backend) : request -> M response :=
  match b with
  | Agrioptimize => agrioptimize.agrioptimize_backend_function
  | Logifresh => logifresh.logifresh_backend_function
  | Marketflow => marketflow.marketflow_backend_function
  end.

Definition post (path : string) (content_type : option string) (data : value) : request :=
  mkrequest "POST" path content_type (Ok data).

(** ** Reading a run *)

Definition status_of {A} (run : result (A * Z) * world) : option Z :=
  match fst run with
  | Ok (_, status) => Some status
  | Raise _ => None
  end.


(** A field of a dictionary body. *)
Definition field (k : string) (v : value) : option value :=
  match v with
  | VDict d => assoc k d
  | _ => None
  end.

(** The events a run added to the trace. *)
Definition added (w w' : world) (new : list event) : Prop :=
  trace w' = (trace w ++ new)%list.

(** ** An environment to run examples in

    The warehouse and the web APIs are given by their answers.  The
    generator returns 0, 1, 2, ...; the examples use no builtin of the
    environment on an input where it would differ from Python's. *)

Fixpoint decimal (cs : list ascii) (acc : Z) : option Z :=
  match cs with
  | [] => Some acc
  | c :: rest => match digit c with
                 | Some d => decimal rest (acc * 10 + d)
                 | None => None
                 end
  end.

Definition example_env
  (query : string -> list query_param -> query_outcome)
  (insert : string -> list value -> insert_outcome)
  (http_post : string -> value -> list (string * string) -> http_outcome) : Env :=
  {| GCP_PROJECT := Some "demo-project";
     BQ_DATASET := Some "agriculture";
     GOOGLE_MAPS_API_KEY := Some "maps-key";
     client_query := query;
     client_insert_rows_json := insert;
     requests_get := fun _ _ => HttpRaises "unreachable";
     requests_post := http_post;
     random_bits := fun k => Z.of_nat k;
     uuid4 := fun k => "uuid-" ++ str_of_Z (Z.of_nat k);
     today := mkdate 2025 6 1;
     now := mkdatetime (toordinal (mkdate 2025 6 1)) 43200 0;
     parse_int := fun s => match list_ascii_of_string s with
                           | [] => None
                           | cs => decimal cs 0
                           end;
     parse_float := fun _ => None;
     repr := fun _ => "<repr>";
     round2 := fun x => x;
     fromisoformat := fun s => if String.eqb s "2025-06-01T10:00:00+00:00"
                               then Some s else None |}.

Definition no_rows : string -> list query_param -> query_outcome := fun _ _ => Rows [].
Definition insert_ok : string -> list value -> insert_outcome := fun _ _ => InsertReturns [].
Definition no_http : string -> value -> list (string * string) -> http_outcome :=
  fun _ _ _ => HttpRaises "unreachable".

Definition w0 : world := mkworld [] 0 0.

(** ** Lemmas on the validation prefix *)

Lemma all_in_missing (required_fields : list string) (data : value) (missing : list string) :
  truthy data = true ->
  missing_fields required_fields data = Ok missing ->
  all_in required_fields data = Ok (match missing with [] => true | _ => false end).
Proof.
  intros Ht. revert missing.
  induction required_fields as [|f rest IH]; intros missing H; simpl in *.
  - injection H as <-. reflexivity.
  - rewrite Ht in H. simpl in H.
    destruct (contains data f) as [[|]|e]; simpl in H; try discriminate.
    + destruct (missing_fields rest data) as [l|e]; try discriminate.
      injection H as <-. apply IH. reflexivity.
    + destruct (missing_fields rest data) as [l|e]; try discriminate.
      injection H as <-. reflexivity.
Qed.

Lemma if_missing_incomplete {A} (required_fields : list string) (data : value)
  (on_missing : list string -> M A) (k : M A) (missing : list string) (w : world) :
  missing_fields required_fields data = Ok missing ->
  missing <> [] ->
  if_missing required_fields data on_missing k w = on_missing missing w.
Proof.
  intros H Hne. unfold if_missing, bind, ret, lift.
  destruct (truthy data) eqn:Ht; simpl.
  - rewrite (all_in_missing _ _ _ Ht H).
    destruct missing; [contradiction|]. simpl. rewrite H. reflexivity.
  - rewrite H. reflexivity.
Qed.

Lemma if_missing_complete {A} (required_fields : list string) (data : value)
  (on_missing : list string -> M A) (k : M A) (w : world) :
  truthy data = true ->
  all_in required_fields data = Ok true ->
  if_missing required_fields data on_missing k w = k w.
Proof.
  intros Ht H. unfold if_missing, bind, ret, lift. rewrite Ht, H. reflexivity.
Qed.

(** ** C9: a POST without a parsable JSON body *)

(** C9. For every POST request to the agrioptimize, logifresh or
    marketflow entry point for which [get_json] returns [None], the
    response is 415 with message "Unsupported Media Type. Expected
    'application/json'." when the lowercased Content-Type header differs
    from 'application/json', and 400 with message "Invalid JSON body
    received." otherwise; the world is left as it was: no handler ran, no
    external call was made. *)
Theorem C9_unparsable_body {E : Env} (b : backend) (request : request) (w : world) :
  method request = "POST" ->
  get_json request = Ok VNone ->
  let header := match content_type request with Some s => s | None => EmptyString end in
  (str_lower header <> "application/json" ->
   entry_point b request w =
     (Ok (Json (VDict [("status", VStr "error");
                       ("message", VStr "Unsupported Media Type. Expected 'application/json'.")]),
          415), w))
  /\ (str_lower header = "application/json" ->
      entry_point b request w =
        (Ok (Json (VDict [("status", VStr "error");
                          ("message", VStr "Invalid JSON body received.")]), 400), w)).
Proof.
  intros Hm Hj header.
  assert (Hrun : entry_point b request w = (Ok (no_json_response request), w)).
  { destruct b; simpl;
      unfold agrioptimize.agrioptimize_backend_function,
             logifresh.logifresh_backend_function, logifresh.get_request_data,
             marketflow.marketflow_backend_function, marketflow.get_request_data,
             bind, lift;
      rewrite Hm, Hj; reflexivity. }
  rewrite Hrun. unfold no_json_response. fold header.
  split; intros H.
  - apply String.eqb_neq in H. rewrite H. reflexivity.
  - apply String.eqb_eq in H. rewrite H. reflexivity.
Qed.

Lemma C9_unparsable_body_witness :
  let E := example_env no_rows insert_ok no_http in
  let request := mkrequest "POST" "/harvest" (Some "text/plain") (Ok VNone) in
  entry_point Agrioptimize request w0 =
    (Ok (Json (VDict [("status", VStr "error");
                      ("message", VStr "Unsupported Media Type. Expected 'application/json'.")]),
         415), w0).
Proof.
  intros E request.
  apply (proj1 (@C9_unparsable_body E Agrioptimize request w0 eq_refl eq_refl)).
  vm_compute. discriminate.
Defined.

(** ** Routing of a POST with a JSON body *)

(** A body that is [None] reaches no handler. *)
Lemma post_none {E : Env} (b : backend) (path : string) (ct : option string) :
  entry_point b (post path ct VNone) = ret (no_json_response (post path ct VNone)).
Proof. destruct b; reflexivity. Qed.

(** It is answered 415 or 400, and nothing is called. *)
Lemma post_none_run {E : Env} (b : backend) (path : string) (ct : option string)
  (w : world) :
  exists (body : value) (code : Z),
    entry_point b (post path ct VNone) w = (Ok (Json body, code), w)
    /\ (code = 415 \/ code = 400).
Proof.
  rewrite post_none. unfold ret, no_json_response.
  destruct (negb _); eexists; eexists; (split; [reflexivity|auto]).
Qed.

Lemma is_none_eq (data : value) : is_none data = true -> data = VNone.
Proof. destruct data; [reflexivity|discriminate..]. Qed.

Lemma route_agrioptimize {E : Env} (path : string) (ct : option string) (data : value) :
  is_none data = false ->
  entry_point Agrioptimize (post path ct data) =
    if String.eqb path "/harvest" then respond (agrioptimize.handle_log_harvest data)
    else if String.eqb path "/advice/harvest"
         then respond (agrioptimize.handle_get_harvest_advice data)
    else if String.eqb path "/issue/farm"
         then respond (agrioptimize.handle_report_farm_qc_issue data)
    else if String.eqb path "/schedule/pickup"
         then respond (agrioptimize.handle_schedule_farm_pickup data)
    else ret (Json (dict_error ("Endpoint " ++ path ++ " not found.")), 404).
Proof. destruct data; [discriminate|reflexivity..]. Qed.

Lemma route_logifresh {E : Env} (path : string) (ct : option string) (data : value) :
  is_none data = false ->
  entry_point Logifresh (post path ct data) =
    if String.eqb path "/shipment/status"
    then respond (logifresh.handle_track_shipment_location data)
    else if String.eqb path "/issue/coldchain"
         then respond (logifresh.handle_report_cold_chain_issue data)
    else if String.eqb path "/inventory/stock"
         then respond (logifresh.handle_check_warehouse_stock data)
    else if String.eqb path "/route/optimize"
         then respond (logifresh.handle_optimize_delivery_route data)
    else if String.eqb path "/logistics/schedule-pickup-request"
         then respond (logifresh.handle_schedule_farm_pickup_logistics data)
    else ret (Json (dict_error ("Endpoint " ++ path ++ " not found.")), 404).
Proof. destruct data; [discriminate|reflexivity..]. Qed.

Lemma route_marketflow {E : Env} (path : string) (ct : option string) (data : value) :
  is_none data = false ->
  entry_point Marketflow (post path ct data) =
    if String.eqb path "/forecast" then respond (marketflow.handle_get_demand_forecast data)
    else if String.eqb path "/prices/current"
         then respond (marketflow.handle_get_market_prices data)
    else if String.eqb path "/inventory/available"
         then respond (marketflow.handle_check_product_availability data)
    else if String.eqb path "/order" then respond (marketflow.handle_place_purchase_order data)
    else ret (Json (dict_error ("Endpoint " ++ path ++ " not found.")), 404).
Proof. destruct data; [discriminate|reflexivity..]. Qed.

Lemma respond_run (h : M (Z * value)) (w w' : world) (status : Z) (body : value) :
  h w = (Ok (status, body), w') -> respond h w = (Ok (Json body, status), w').
Proof. intros H. unfold respond, bind, ret. rewrite H. reflexivity. Qed.

(** ** C1: missing required fields *)

(** The [required_fields] list of the handler a routed path is served
    by; [None] for a path whose handler has none. *)
Definition required_fields (b : backend) (path : string) : option (list string) :=
  match b with
  | Agrioptimize =>
      if String.eqb path "/harvest"
      then Some ["farm_id"; "product_id"; "harvested_quantity_kg"; "harvest_date"]
      else if String.eqb path "/issue/farm" then Some ["farm_id"; "issue_type"]
      else if String.eqb path "/schedule/pickup"
      then Some ["farm_id"; "product_id"; "quantity_kg"; "requested_date"]
      else None
  | Logifresh =>
      if String.eqb path "/shipment/status" then Some ["shipment_id"]
      else if String.eqb path "/issue/coldchain"
      then Some ["shipment_id"; "temperature_celsius"; "timestamp"]
      else if String.eqb path "/inventory/stock" then Some ["location_id"]
      else if String.eqb path "/route/optimize" then Some ["destination_locations"; "vehicle_id"]
      else if String.eqb path "/logistics/schedule-pickup-request"
      then Some ["farm_id"; "product_id"; "quantity_kg"; "requested_date"]
      else None
  | Marketflow =>
      if String.eqb path "/forecast"
      then Some ["product_id"; "target_date_start"; "target_date_end"]
      else if String.eqb path "/prices/current" then Some ["product_id"]
      else if String.eqb path "/inventory/available" then Some ["product_id"]
      else if String.eqb path "/order" then Some ["customer_id"; "items"]
      else None
  end.

(** The fields of [required_fields] a dictionary lacks. *)
Lemma missing_fields_dict (fields : list string) (kvs : list (string * value)) :
  exists missing,
    missing_fields fields (VDict kvs) = Ok missing
    /\ forall f, In f fields -> assoc f kvs = None -> In f missing.
Proof.
  induction fields as [|f rest [l [Hl Hin]]].
  - exists []. split; [reflexivity|]. intros f [].
  - cbn [missing_fields]. rewrite Hl. unfold contains.
    destruct (assoc f kvs) eqn:Ha; destruct (negb (truthy (VDict kvs))); cbn [negb].
    + exists (f :: l). split; [reflexivity|].
      intros g [<-|Hg] Hnone; [left; reflexivity|right; auto].
    + exists l. split; [reflexivity|].
      intros g [<-|Hg] Hnone; [congruence|auto].
    + exists (f :: l). split; [reflexivity|].
      intros g [<-|Hg] Hnone; [left; reflexivity|right; auto].
    + exists (f :: l). split; [reflexivity|].
      intros g [<-|Hg] Hnone; [left; reflexivity|right; auto].
Qed.

Ltac path_cases H :=
  repeat match type of H with
         | (if String.eqb ?p ?s then _ else _) = _ =>
             let Hp := fresh "Hp" in
             destruct (String.eqb p s) eqn:Hp;
             [apply String.eqb_eq in Hp; subst p|]
         end.

(** The JSON object with the members [kvs] has a member named [f]. *)
Definition has_field (kvs : list (string * value)) (f : string) : bool :=
  existsb (String.eqb f) (map fst kvs).

(** The fields of the list [fields] that the object lacks, in the order
    of the list. *)
Definition lacking (fields : list string) (kvs : list (string * value)) : list string :=
  filter (fun f => negb (has_field kvs f)) fields.

(** The answer that names the fields [missing]: 400, except on the
    route of the logistics receiver. *)
Definition missing_answer (path : string) (missing : list string) : response :=
  if String.eqb path "/logistics/schedule-pickup-request"
  then (Json (VDict [("status", VStr "error");
                     ("message",
                      VStr ("Logistics Pickup Request Error: Missing required fields: "
                            ++ join ", " missing))]), 200)
  else (Json (VDict [("status", VStr "error");
                     ("message", VStr ("Missing required fields in body: "
                                       ++ join ", " missing))]), 400).

Lemma has_field_assoc (kvs : list (string * value)) (f : string) :
  has_field kvs f = match assoc f kvs with Some _ => true | None => false end.
Proof.
  unfold has_field. induction kvs as [|[k v] rest IH]; [reflexivity|].
  cbn [map fst existsb assoc]. destruct (String.eqb f k); [reflexivity|exact IH].
Qed.

(** On an object the handlers find missing the fields it lacks. *)
Lemma missing_fields_object (fields : list string) (kvs : list (string * value)) :
  missing_fields fields (VDict kvs) = Ok (lacking fields kvs).
Proof.
  induction fields as [|f rest IH]; [reflexivity|].
  cbn [missing_fields lacking filter]. fold (lacking rest kvs). rewrite IH.
  rewrite has_field_assoc. unfold contains.
  destruct kvs as [|kv kvs']; [reflexivity|].
  cbn [truthy negb]. destruct (assoc f (kv :: kvs')); reflexivity.
Qed.

(** On a falsy body they find every field missing. *)
Lemma missing_fields_falsy (fields : list string) (data : value) :
  truthy data = false -> missing_fields fields data = Ok fields.
Proof.
  intros Hfalsy. induction fields as [|f rest IH]; [reflexivity|].
  cbn [missing_fields]. rewrite Hfalsy, IH. reflexivity.
Qed.

Lemma required_fields_not_empty (b : backend) (path : string) (fields : list string) :
  required_fields b path = Some fields -> fields <> [].
Proof.
  intros H. destruct b; unfold required_fields in H; path_cases H; try discriminate;
    injection H as <-; discriminate.
Qed.

(** The answer of a routed handler to a body it finds fields missing
    in. *)
Lemma missing_answered {E : Env} (b : backend) (path : string) (ct : option string)
  (data : value) (fields missing : list string) (w : world) :
  required_fields b path = Some fields ->
  is_none data = false ->
  missing_fields fields data = Ok missing ->
  missing <> [] ->
  entry_point b (post path ct data) w = (Ok (missing_answer path missing), w).
Proof.
  intros Hreq Hnone Hmiss Hne.
  destruct b; unfold required_fields in Hreq; path_cases Hreq; try discriminate;
    injection Hreq as <-;
    rewrite ?(route_agrioptimize _ _ _ Hnone), ?(route_logifresh _ _ _ Hnone),
            ?(route_marketflow _ _ _ Hnone);
    unfold missing_answer;
    cbn [String.eqb Ascii.eqb Bool.eqb];
    apply respond_run;
    unfold agrioptimize.handle_log_harvest, agrioptimize.handle_report_farm_qc_issue,
      agrioptimize.handle_schedule_farm_pickup,
      logifresh.handle_track_shipment_location, logifresh.handle_report_cold_chain_issue,
      logifresh.handle_check_warehouse_stock, logifresh.handle_optimize_delivery_route,
      logifresh.handle_schedule_farm_pickup_logistics,
      marketflow.handle_get_demand_forecast, marketflow.handle_get_market_prices,
      marketflow.handle_check_product_availability, marketflow.handle_place_purchase_order;
    rewrite (if_missing_incomplete _ _ _ _ _ _ Hmiss Hne); reflexivity.
Qed.

(** C1 (as amended).  For every routed handler with a required-field
    list and every POST whose JSON body is an object that lacks one or
    more of these fields, the backend answers 400 with the message
    "Missing required fields in body: " followed by the names of exactly
    the required fields the object lacks, in the handler's order and
    separated by ", "; the route /logistics/schedule-pickup-request is
    the exception: it answers 200 with status "error" and a message that
    names the same fields.  A body that is false, zero, an empty string
    or an empty array holds no field and is answered in the same way,
    with every required field named.  No call is made in either case.
    In particular POST /harvest with an object without
    harvested_quantity_kg gives 400.  The vehicle lookup answers an
    object without vehicle_license_no with 400 and a message naming that
    field; the standalone route function answers an object without
    origin_location_id or destination_order_ids with 400 and a message
    that names no field. *)
Theorem C1_missing_required_fields {E : Env} :
  (forall (b : backend) (path : string) (ct : option string)
          (kvs : list (string * value)) (fields : list string) (w : world),
     required_fields b path = Some fields ->
     lacking fields kvs <> [] ->
     entry_point b (post path ct (VDict kvs)) w =
       (Ok (if String.eqb path "/logistics/schedule-pickup-request"
            then (Json (VDict [("status", VStr "error");
                               ("message",
                                VStr ("Logistics Pickup Request Error: Missing required fields: "
                                      ++ join ", " (lacking fields kvs)))]), 200)
            else (Json (VDict [("status", VStr "error");
                               ("message", VStr ("Missing required fields in body: "
                                                 ++ join ", " (lacking fields kvs)))]), 400)),
        w))
  /\ (forall (b : backend) (path : string) (ct : option string) (data : value)
             (fields : list string) (w : world),
        required_fields b path = Some fields ->
        is_none data = false ->
        truthy data = false ->
        entry_point b (post path ct data) w = (Ok (missing_answer path fields), w))
  /\ (forall (ct : option string) (kvs : list (string * value)) (w : world),
        has_field kvs "harvested_quantity_kg" = false ->
        status_of (entry_point Agrioptimize (post "/harvest" ct (VDict kvs)) w) = Some 400)
  /\ (forall (m p : string) (ct : option string) (kvs : list (string * value)) (w : world),
        has_field kvs "vehicle_license_no" = false ->
        getvehicledetails.lookup_vehicle_by_license (mkrequest m p ct (Ok (VDict kvs))) w =
          (Ok (Dumps (VDict [("error",
                              VStr "Missing or empty vehicle_license_no in request body")]),
               400), w))
  /\ (forall (p : string) (ct : option string) (kvs : list (string * value)) (w : world),
        has_field kvs "origin_location_id" = false
        \/ has_field kvs "destination_order_ids" = false ->
        getoptimizedeliveryroute.handle_optimize_delivery_route
          (mkrequest "POST" p ct (Ok (VDict kvs))) w =
          (Ok (Dumps (VDict [("status", VStr "error");
                             ("message", VStr "Missing required input parameters")]),
               400), w)).
Proof.
  assert (Object : forall (b : backend) (path : string) (ct : option string)
                     (kvs : list (string * value)) (fields : list string) (w : world),
            required_fields b path = Some fields ->
            lacking fields kvs <> [] ->
            entry_point b (post path ct (VDict kvs)) w =
              (Ok (missing_answer path (lacking fields kvs)), w)).
  { intros b path ct kvs fields w Hreq Hne.
    exact (missing_answered b path ct (VDict kvs) fields _ w Hreq eq_refl
             (missing_fields_object fields kvs) Hne). }
  split; [exact Object|]. split; [|split; [|split]].
  - intros b path ct data fields w Hreq Hnone Hfalsy.
    exact (missing_answered b path ct data fields fields w Hreq Hnone
             (missing_fields_falsy fields data Hfalsy)
             (required_fields_not_empty b path fields Hreq)).
  - intros ct kvs w Hnone.
    rewrite (Object Agrioptimize "/harvest" ct kvs _ w eq_refl).
    + reflexivity.
    + cbn [lacking filter]. rewrite Hnone. cbn [negb].
      destruct (negb (has_field kvs "farm_id")), (negb (has_field kvs "product_id"));
        discriminate.
  - intros m p ct kvs w Hnone. rewrite has_field_assoc in Hnone.
    unfold getvehicledetails.lookup_vehicle_by_license, bind, lift, ret. cbn [get_json].
    destruct kvs as [|kv kvs']; [reflexivity|].
    cbn [truthy negb contains].
    destruct (assoc "vehicle_license_no" (kv :: kvs')); [discriminate|reflexivity].
  - intros p ct kvs w Hnone. rewrite !has_field_assoc in Hnone.
    unfold getoptimizedeliveryroute.handle_optimize_delivery_route, bind, lift, ret.
    cbn [method get_json String.eqb Ascii.eqb Bool.eqb negb get get_default].
    destruct Hnone as [Hnone|Hnone].
    + destruct (assoc "origin_location_id" kvs); [discriminate|reflexivity].
    + destruct (assoc "destination_order_ids" kvs); [discriminate|].
      cbn [truthy negb]. rewrite Bool.orb_true_r. reflexivity.
Qed.

Lemma C1_missing_required_fields_witness :
  let E := example_env no_rows insert_ok no_http in
  let kvs := [("farm_id", VStr "F1"); ("product_id", VStr "P1");
              ("harvest_date", VStr "2025-06-01")] in
  lacking ["farm_id"; "product_id"; "harvested_quantity_kg"; "harvest_date"] kvs
    = ["harvested_quantity_kg"]
  /\ entry_point Agrioptimize (post "/harvest" (Some "application/json") (VDict kvs)) w0 =
       (Ok (Json (VDict [("status", VStr "error");
                         ("message",
                          VStr "Missing required fields in body: harvested_quantity_kg")]),
            400), w0).
Proof.
  intros E kvs. split; [reflexivity|].
  apply (proj1 (@C1_missing_required_fields E) Agrioptimize "/harvest"
               (Some "application/json") kvs
               ["farm_id"; "product_id"; "harvested_quantity_kg"; "harvest_date"] w0).
  - reflexivity.
  - discriminate.
Defined.

(** The claim as stated fails on the logistics receiver of the logifresh
    backend: a body that lacks three of its four required fields is
    answered with 200, not 400. *)
Lemma C1_counterexample :
  let E := example_env no_rows insert_ok no_http in
  let data := VDict [("farm_id", VStr "F1")] in
  let run := entry_point Logifresh
               (post "/logistics/schedule-pickup-request" (Some "application/json") data) w0 in
  missing_fields ["farm_id"; "product_id"; "quantity_kg"; "requested_date"] data
    = Ok ["product_id"; "quantity_kg"; "requested_date"]
  /\ status_of run = Some 200
  /\ status_of run <> Some 400.
Proof.
  intros E data run. split; [reflexivity|].
  split; [vm_compute; reflexivity|vm_compute; discriminate].
Qed.

(** ** Lemmas on dictionaries *)

Lemma assoc_truthy (k : string) (kvs : list (string * value)) (v : value) :
  assoc k kvs = Some v -> truthy (VDict kvs) = true.
Proof. destruct kvs; [discriminate|reflexivity]. Qed.

Lemma assoc_contains (k : string) (kvs : list (string * value)) (v : value) :
  assoc k kvs = Some v -> contains (VDict kvs) k = Ok true.
Proof. intros H. unfold contains. rewrite H. reflexivity. Qed.

Lemma assoc_getitem (k : string) (kvs : list (string * value)) (v : value) :
  assoc k kvs = Some v -> getitem (VDict kvs) k = Ok v.
Proof. intros H. unfold getitem. rewrite H. reflexivity. Qed.

Ltac monad := unfold respond, bind, ret, lift, raise, try_except, catching, and_then,
                fetch_rows, insert_rows, run_query, run_insert, new_uuid.
Ltac monad_in H :=
  cbv beta iota zeta delta [respond bind ret lift raise try_except catching and_then
                            fetch_rows insert_rows run_query run_insert new_uuid] in H.

(** ** C7: not-found results *)

(** C7. Not-found results map to 200 or to 404 depending on the
    handler.  For every shipment_id whose warehouse lookup returns no
    row, POST /shipment/status answers 200 with body status "not_found";
    for every vehicle_license_no the lookup is issued for (a non-empty
    one) and that matches no vehicle row, the vehicle lookup answers 404
    with an empty [matches] list.  Each performs this one query. *)
Theorem C7_not_found {E : Env} :
  (forall (ct : option string) (kvs : list (string * value)) (shipment_id : value) (w : world),
     assoc "shipment_id" kvs = Some shipment_id ->
     client_query logifresh.shipment_query
                  [ScalarQueryParameter "shipment_id" "STRING" shipment_id] = Rows [] ->
     entry_point Logifresh (post "/shipment/status" ct (VDict kvs)) w =
       (Ok (Json (VDict [("status", VStr "not_found");
                         ("message", VStr ("Shipment ID " ++ str_of shipment_id
                                           ++ " not found."))]), 200),
        log (Query logifresh.shipment_query
                   [ScalarQueryParameter "shipment_id" "STRING" shipment_id]) w))
  /\ (forall (m p : string) (ct : option string) (kvs : list (string * value))
             (vehicle_license_no : value) (w : world),
        assoc "vehicle_license_no" kvs = Some vehicle_license_no ->
        truthy vehicle_license_no = true ->
        client_query getvehicledetails.query
                     [ScalarQueryParameter "license_no" "STRING" vehicle_license_no] = Rows [] ->
        getvehicledetails.lookup_vehicle_by_license (mkrequest m p ct (Ok (VDict kvs))) w =
          (Ok (Dumps (VDict [("error", VStr ("Vehicle with license '"
                                             ++ str_of vehicle_license_no ++ "' not found"));
                             ("matches", VList [])]), 404),
           log (Query getvehicledetails.query
                      [ScalarQueryParameter "license_no" "STRING" vehicle_license_no]) w)).
Proof.
  split.
  - intros ct kvs shipment_id w Hid Hq.
    rewrite route_logifresh by reflexivity. cbn [String.eqb Ascii.eqb Bool.eqb].
    apply respond_run. unfold logifresh.handle_track_shipment_location.
    rewrite if_missing_complete;
      [|exact (assoc_truthy _ _ _ Hid)
       |cbn [all_in]; rewrite (assoc_contains _ _ _ Hid); reflexivity].
    monad. rewrite (assoc_getitem _ _ _ Hid), Hq. reflexivity.
  - intros m p ct kvs license w Hl Ht Hq.
    unfold getvehicledetails.lookup_vehicle_by_license. monad. cbn [get_json].
    rewrite (assoc_truthy _ _ _ Hl), (assoc_contains _ _ _ Hl), (assoc_getitem _ _ _ Hl).
    cbn [negb]. rewrite Ht. cbn [negb]. rewrite Hq. reflexivity.
Qed.

Lemma C7_not_found_witness :
  let E := example_env no_rows insert_ok no_http in
  status_of (entry_point Logifresh
               (post "/shipment/status" (Some "application/json")
                     (VDict [("shipment_id", VStr "S-404")])) w0) = Some 200
  /\ status_of (getvehicledetails.lookup_vehicle_by_license
                  (mkrequest "POST" "/" (Some "application/json")
                             (Ok (VDict [("vehicle_license_no", VStr "ABC-123")]))) w0)
     = Some 404.
Proof.
  intros E. split.
  - rewrite (proj1 (@C7_not_found E) (Some "application/json")
                   [("shipment_id", VStr "S-404")] (VStr "S-404") w0 eq_refl eq_refl).
    reflexivity.
  - rewrite (proj2 (@C7_not_found E) "POST" "/" (Some "application/json")
                   [("vehicle_license_no", VStr "ABC-123")] (VStr "ABC-123") w0
                   eq_refl eq_refl eq_refl).
    reflexivity.
Defined.

(** ** C10: cold chain readings *)

(** [d.get(k, default)] on a dictionary. *)
Definition dict_get (kvs : list (string * value)) (k : string) (default : value) : value :=
  match assoc k kvs with Some v => v | None => default end.

(** C10. For every valid POST /issue/coldchain request (an object with
    the three required fields, a temperature that [float()] accepts, an
    ISO 8601 timestamp) whose warehouse insert succeeds, the response is
    200 with status "success" whatever the temperature, and the reading
    row is inserted unconditionally; the message is exactly "Critical:
    High temperature excursion reported." when the temperature exceeds
    15.0, the success message with the elevated-temperature warning
    appended when it exceeds 8.0 but not 15.0, and the plain success
    message otherwise. *)
Theorem C10_cold_chain_reading {E : Env} (ct : option string) (kvs : list (string * value))
  (shipment_id temperature_celsius timestamp : value) (t : float) (timestamp_iso : string)
  (w : world) :
  assoc "shipment_id" kvs = Some shipment_id ->
  assoc "temperature_celsius" kvs = Some temperature_celsius ->
  assoc "timestamp" kvs = Some timestamp ->
  float_of temperature_celsius = Ok t ->
  logifresh.timestamp_iso_of timestamp = Ok timestamp_iso ->
  let reading_id := uuid4 (uuids w) in
  let row := VDict [("reading_id", VStr reading_id);
                    ("shipment_id", shipment_id);
                    ("vehicle_id", dict_get kvs "vehicle_id" VNone);
                    ("timestamp", VStr timestamp_iso);
                    ("temperature_celsius", VFloat t);
                    ("location", dict_get kvs "location" VNone);
                    ("sensor_id", dict_get kvs "sensor_id" (VStr "Unknown"))] in
  client_insert_rows_json logifresh.COLD_CHAIN_READINGS_TABLE [row] = InsertReturns [] ->
  entry_point Logifresh (post "/issue/coldchain" ct (VDict kvs)) w =
    (Ok (Json (VDict [("status", VStr "success");
                      ("reading_id", VStr reading_id);
                      ("message",
                       VStr (if PrimFloat.ltb 15%float t
                             then "Critical: High temperature excursion reported."
                             else if PrimFloat.ltb 8%float t
                             then "Cold chain reading reported successfully. Warning: Temperature is elevated."
                             else "Cold chain reading reported successfully."))]), 200),
     mkworld (trace w ++ [InsertRowsJson logifresh.COLD_CHAIN_READINGS_TABLE [row]])%list
             (draws w) (S (uuids w))).
Proof.
  intros Hs Ht Hts Hf Hiso reading_id row Hins.
  rewrite route_logifresh by reflexivity. cbn [String.eqb Ascii.eqb Bool.eqb].
  apply respond_run. unfold logifresh.handle_report_cold_chain_issue.
  rewrite if_missing_complete;
    [|exact (assoc_truthy _ _ _ Hs)
     |cbn [all_in];
      rewrite (assoc_contains _ _ _ Hs), (assoc_contains _ _ _ Ht), (assoc_contains _ _ _ Hts);
      reflexivity].
  monad.
  rewrite (assoc_getitem _ _ _ Hs), (assoc_getitem _ _ _ Ht), (assoc_getitem _ _ _ Hts).
  rewrite Hf, Hiso. unfold get, get_default, log. cbn [trace draws uuids].
  fold (dict_get kvs "vehicle_id" VNone) (dict_get kvs "location" VNone)
       (dict_get kvs "sensor_id" (VStr "Unknown")).
  fold reading_id. fold row. rewrite Hins. cbn [insert_result].
  unfold logifresh.cold_chain_message.
  destruct (PrimFloat.ltb 15 t), (PrimFloat.ltb 8 t); reflexivity.
Qed.

Lemma C10_cold_chain_reading_witness :
  let E := example_env no_rows insert_ok no_http in
  let kvs := [("shipment_id", VStr "S-1"); ("temperature_celsius", VInt 12);
              ("timestamp", VStr "2025-06-01T10:00:00Z")] in
  exists w',
    entry_point Logifresh (post "/issue/coldchain" (Some "application/json") (VDict kvs)) w0 =
      (Ok (Json (VDict [("status", VStr "success");
                        ("reading_id", VStr "uuid-0");
                        ("message", VStr "Cold chain reading reported successfully. Warning: Temperature is elevated.")]),
           200), w').
Proof.
  intros E kvs. eexists.
  rewrite (@C10_cold_chain_reading E (Some "application/json") kvs
             (VStr "S-1") (VInt 12) (VStr "2025-06-01T10:00:00Z")
             12%float "2025-06-01T10:00:00+00:00" w0
             eq_refl eq_refl eq_refl eq_refl eq_refl eq_refl).
  reflexivity.
Defined.

(** ** C6: partial failure of the advice retrievals *)

(** Whether the warehouse call of an event failed, and what the helper
    ([fetch_rows] or [insert_rows]) returned for it: the rows, or the
    error text. *)
Definition failed {E : Env} (ev : event) : bool :=
  match ev with
  | Query sql params => negb (fst (fetch_result (client_query sql params)))
  | InsertRowsJson t rows => negb (fst (insert_result t (client_insert_rows_json t rows)))
  | _ => false
  end.

Definition answer {E : Env} (ev : event) : value :=
  match ev with
  | Query sql params => snd (fetch_result (client_query sql params))
  | InsertRowsJson t rows => snd (insert_result t (client_insert_rows_json t rows))
  | _ => VNone
  end.








(** ** C5: scheduling a farm pickup *)

(** The [harvest_records] table, as far as the availability query reads
    it; a quantity can be NULL. *)
Record harvest_record : Type := mk_harvest_record {
  hr_farm_id : string;
  hr_product_id : string;
  hr_harvest_date : date;
  hr_harvested_quantity_kg : option Z
}.

(** SQL [SUM]: NULLs are skipped, the sum of nothing is NULL. *)
Definition sql_sum (xs : list (option Z)) : option Z :=
  fold_left (fun acc x => match x, acc with
                          | Some v, Some a => Some (a + v)
                          | Some v, None => Some v
                          | None, _ => acc
                          end) xs None.

(** The [WHERE] clause of [availability_query]:
    [farm_id = @farm_id AND product_id = @product_id
     AND harvest_date >= DATE_SUB(@requested_date, INTERVAL 7 DAY)]. *)
Definition selected (farm_id product_id : string) (requested_date : date)
  (r : harvest_record) : bool :=
  String.eqb (hr_farm_id r) farm_id && String.eqb (hr_product_id r) product_id
  && (toordinal requested_date - 7 <=? toordinal (hr_harvest_date r)).

Definition total_harvested (table : list harvest_record) (farm_id product_id : string)
  (requested_date : date) : option Z :=
  sql_sum (map hr_harvested_quantity_kg (filter (selected farm_id product_id requested_date) table)).

(** What the warehouse answers to [availability_query] over a table. *)
Definition availability_rows (table : list harvest_record) (farm_id product_id : string)
  (requested_date : date) : query_outcome :=
  Rows [VDict [("total_harvested",
                match total_harvested table farm_id product_id requested_date with
                | Some n => VInt n
                | None => VNone
                end)]].

(** Following the words of the specification: the records of the 7 days
    up to [requested_date]. *)
Definition within_7_days_up_to (farm_id product_id : string) (requested_date : date)
  (r : harvest_record) : bool :=
  String.eqb (hr_farm_id r) farm_id && String.eqb (hr_product_id r) product_id
  && (toordinal requested_date - 7 <=? toordinal (hr_harvest_date r))
  && (toordinal (hr_harvest_date r) <=? toordinal requested_date).

Definition total_within_7_days (table : list harvest_record) (farm_id product_id : string)
  (requested_date : date) : option Z :=
  sql_sum (map hr_harvested_quantity_kg
               (filter (within_7_days_up_to farm_id product_id requested_date) table)).

(** Seconds from the start of day 0 of the calendar. *)
Definition seconds_of (dt : datetime) : Z := dt_ordinal dt * 86400 + dt_second dt.

Lemma days_before_year_nonneg (y : Z) : 1 <= y -> 0 <= days_before_year y.
Proof.
  intros Hy. unfold days_before_year.
  assert (H1 : (y - 1) / 100 <= (y - 1) / 4).
  { apply Z.div_le_compat_l; lia. }
  assert (H2 : 0 <= (y - 1) / 400) by (apply Z.div_pos; lia).
  lia.
Qed.

Lemma valid_date_ordinal (y m d : Z) :
  valid_date y m d = true -> 1 <= toordinal (mkdate y m d).
Proof.
  unfold valid_date, MINYEAR. intros H.
  repeat (apply andb_prop in H; destruct H as [H ?]).
  apply Z.leb_le in H, H0, H1, H2, H3, H4.
  unfold toordinal; cbn [year month day].
  pose proof (days_before_year_nonneg y H).
  assert (0 <= days_before_month y m).
  { unfold days_before_month.
    assert (Hm : m = 1 \/ m = 2 \/ m = 3 \/ m = 4 \/ m = 5 \/ m = 6 \/ m = 7 \/ m = 8
                 \/ m = 9 \/ m = 10 \/ m = 11 \/ m = 12) by lia.
    destruct (is_leap y);
      repeat (destruct Hm as [->|Hm]; [vm_compute; discriminate|]); subst; vm_compute; discriminate. }
  lia.
Qed.

Lemma parse_ymd_ordinal (s : string) (d : date) : parse_ymd s = Some d -> 1 <= toordinal d.
Proof.
  unfold parse_ymd. intros H.
  repeat match type of H with
         | match ?x with _ => _ end = _ =>
             let Hv := fresh "Hv" in destruct x eqn:Hv; try discriminate
         end.
  injection H as <-. apply valid_date_ordinal. assumption.
Qed.

Lemma pickup_datetime_in_range (d : date) (days hours minutes : Z) :
  1 <= toordinal d -> toordinal d + 2 <= MAXORDINAL ->
  0 <= days <= 2 -> 8 <= hours <= 16 -> 0 <= minutes <= 59 ->
  agrioptimize.pickup_datetime d days hours minutes
  = Ok (mkdatetime (toordinal d + days) (hours * 3600 + minutes * 60) 0).
Proof.
  intros Hlo Hhi Hd Hh Hm.
  unfold agrioptimize.pickup_datetime, timedelta, and_then.
  set (total := days * 86400 + hours * 3600 + minutes * 60 + 0).
  assert (Hq : total / 86400 = days /\ total mod 86400 = hours * 3600 + minutes * 60).
  { assert (Ht : total = days * 86400 + (hours * 3600 + minutes * 60)) by (unfold total; lia).
    rewrite Ht. split.
    - rewrite Z.div_add_l by lia. rewrite Z.div_small by lia. lia.
    - rewrite Z.add_comm, Z.mod_add by lia. apply Z.mod_small. lia. }
  destruct Hq as [Hq Hr].
  rewrite Hq.
  replace (Z.abs days <=? 999999999) with true by (symmetry; apply Z.leb_le; lia).
  unfold datetime_add, at_midnight. cbn [dt_second dt_ordinal dt_microsecond].
  rewrite Z.add_0_l, Hq, Hr.
  replace ((1 <=? toordinal d + days) && (toordinal d + days <=? MAXORDINAL)) with true.
  - reflexivity.
  - symmetry. apply andb_true_intro. split; apply Z.leb_le; lia.
Qed.

Ltac monad_goal :=
  cbv beta iota zeta delta [respond bind ret lift raise try_except catching and_then
                            fetch_rows insert_rows run_query run_insert new_uuid].

(** C5 (as amended).  For every valid POST /schedule/pickup request (an
    object with the four required fields, farm_id and product_id strings,
    quantity_kg an integer, requested_date in YYYY-MM-DD format and not
    later than 9999-12-29) whose availability query the warehouse
    answers, the backend answers 200, with status "success" and
    confirmed_quantity_kg equal to the requested quantity if and only if
    the sum of harvested_quantity_kg over the records of that farm and
    product dated 7 days before requested_date or later (no upper bound;
    a missing sum counting as 0) is at least the requested quantity, and
    with status "unavailable" otherwise; in the success case
    estimated_pickup_datetime lies between requested_date at 08:00 and
    requested_date plus 2 days at 16:59. *)
Theorem C5_schedule_pickup {E : Env} (table : list harvest_record) (ct : option string)
  (kvs : list (string * value)) (farm_id product_id requested_date : string)
  (quantity_kg : Z) (d : date) (w : world) :
  assoc "farm_id" kvs = Some (VStr farm_id) ->
  assoc "product_id" kvs = Some (VStr product_id) ->
  assoc "quantity_kg" kvs = Some (VInt quantity_kg) ->
  assoc "requested_date" kvs = Some (VStr requested_date) ->
  parse_ymd requested_date = Some d ->
  toordinal d + 2 <= MAXORDINAL ->
  client_query agrioptimize.availability_query
    (agrioptimize.availability_params (VStr farm_id) (VStr product_id) (date_isoformat d))
    = availability_rows table farm_id product_id d ->
  let available := match total_harvested table farm_id product_id d with
                   | Some n => n
                   | None => 0
                   end in
  exists (body : value) (w' : world),
    entry_point Agrioptimize (post "/schedule/pickup" ct (VDict kvs)) w
      = (Ok (Json body, 200), w')
    /\ (field "status" body = Some (VStr "success") <-> quantity_kg <= available)
    /\ (quantity_kg <= available ->
        exists (details : value) (dt : datetime),
          field "details" body = Some details
          /\ field "confirmed_quantity_kg" details = Some (VInt quantity_kg)
          /\ field "estimated_pickup_datetime" details = Some (VStr (datetime_isoformat dt))
          /\ seconds_of (mkdatetime (toordinal d) (8 * 3600) 0) <= seconds_of dt
          /\ seconds_of dt <= seconds_of (mkdatetime (toordinal d + 2) (16 * 3600 + 59 * 60) 0)
          /\ 0 <= dt_second dt < 86400)
    /\ (available < quantity_kg -> field "status" body = Some (VStr "unavailable")).
Proof.
  intros Hf Hp Hq Hs Hparse Hmax Hans available.
  pose proof (parse_ymd_ordinal _ _ Hparse) as Hmin.
  assert (Hresp : forall status body w',
             agrioptimize.handle_schedule_farm_pickup (VDict kvs) w = (Ok (status, body), w') ->
             entry_point Agrioptimize (post "/schedule/pickup" ct (VDict kvs)) w
             = (Ok (Json body, status), w')).
  { intros status body w' Hrun. rewrite route_agrioptimize by reflexivity.
    cbn [String.eqb Ascii.eqb Bool.eqb]. apply respond_run. exact Hrun. }
  destruct (agrioptimize.handle_schedule_farm_pickup (VDict kvs) w) as [r w'] eqn:Hrun.
  unfold agrioptimize.handle_schedule_farm_pickup in Hrun.
  rewrite if_missing_complete in Hrun;
    [|exact (assoc_truthy _ _ _ Hf)
     |cbn [all_in];
      rewrite (assoc_contains _ _ _ Hf), (assoc_contains _ _ _ Hp),
        (assoc_contains _ _ _ Hq), (assoc_contains _ _ _ Hs); reflexivity].
  monad_in Hrun.
  rewrite (assoc_getitem _ _ _ Hs) in Hrun. unfold strptime_date in Hrun.
  rewrite Hparse, (assoc_getitem _ _ _ Hq) in Hrun. cbn [int_of] in Hrun.
  rewrite (assoc_getitem _ _ _ Hf), (assoc_getitem _ _ _ Hp) in Hrun.
  monad_in Hrun. rewrite Hans in Hrun. unfold availability_rows in Hrun.
  cbn [fetch_result truthy andb negb item0 getitem assoc String.eqb Ascii.eqb Bool.eqb]
    in Hrun.
  replace (match match total_harvested table farm_id product_id d with
                 | Some n => VInt n | None => VNone end with
           | VNone => VInt 0
           | _ => match total_harvested table farm_id product_id d with
                  | Some n => VInt n | None => VNone end
           end) with (VInt available) in Hrun
    by (unfold available; destruct (total_harvested table farm_id product_id d); reflexivity).
  cbn [ge_int] in Hrun.
  destruct (quantity_kg <=? available) eqn:Hle.
  - apply Z.leb_le in Hle.
    unfold randint, randbelow, random_random in Hrun. monad_in Hrun.
    cbn [draws trace uuids log] in Hrun.
    set (days := 0 + random_bits (draws w) mod (2 - 0 + 1)) in Hrun.
    set (hours := 8 + random_bits (S (draws w)) mod (16 - 8 + 1)) in Hrun.
    set (minutes := 0 + random_bits (S (S (draws w))) mod (59 - 0 + 1)) in Hrun.
    assert (Hd : 0 <= days <= 2).
    { unfold days. pose proof (Z.mod_pos_bound (random_bits (draws w)) (2 - 0 + 1)). lia. }
    assert (Hh : 8 <= hours <= 16).
    { unfold hours. pose proof (Z.mod_pos_bound (random_bits (S (draws w))) (16 - 8 + 1)). lia. }
    assert (Hm : 0 <= minutes <= 59).
    { unfold minutes.
      pose proof (Z.mod_pos_bound (random_bits (S (S (draws w)))) (59 - 0 + 1)). lia. }
    rewrite (pickup_datetime_in_range d days hours minutes Hmin Hmax Hd Hh Hm) in Hrun.
    injection Hrun as <- <-.
    do 2 eexists. split; [apply Hresp; reflexivity|].
    split; [split; [intros _; exact Hle|intros _; reflexivity]|].
    split; [|intros Hlt; lia].
    intros _. do 2 eexists. split; [reflexivity|].
    split; [reflexivity|]. split; [reflexivity|].
    unfold seconds_of. cbn [dt_ordinal dt_second]. lia.
  - apply Z.leb_gt in Hle. injection Hrun as <- <-.
    do 2 eexists. split; [apply Hresp; reflexivity|].
    split; [split; [intros Hst; discriminate Hst|intros Hge; lia]|].
    split; [intros Hge; lia|intros _; reflexivity].
Qed.

(** A warehouse that answers the availability query over a table. *)
Definition warehouse_over (table : list harvest_record)
  (sql : string) (params : list query_param) : query_outcome :=
  match params with
  | [ScalarQueryParameter _ _ (VStr farm_id); ScalarQueryParameter _ _ (VStr product_id);
     ScalarQueryParameter _ _ (VStr requested_date)] =>
      match parse_ymd requested_date with
      | Some d => availability_rows table farm_id product_id d
      | None => QueryRaises GoogleAPIError "Invalid date"
      end
  | _ => Rows []
  end.

(** One harvest of 100 kg, dated nine days after the pickup date asked
    for below. *)
Definition later_harvest : list harvest_record :=
  [mk_harvest_record "F1" "P1" (mkdate 2025 6 10) (Some 100)].

Definition pickup_request : list (string * value) :=
  [("farm_id", VStr "F1"); ("product_id", VStr "P1"); ("quantity_kg", VInt 50);
   ("requested_date", VStr "2025-06-01")].

Lemma C5_schedule_pickup_witness :
  let E := example_env (warehouse_over later_harvest) insert_ok no_http in
  exists (body : value) (w' : world),
    entry_point Agrioptimize
      (post "/schedule/pickup" (Some "application/json") (VDict pickup_request)) w0
      = (Ok (Json body, 200), w')
    /\ field "status" body = Some (VStr "success").
Proof.
  intros E.
  destruct (@C5_schedule_pickup E later_harvest (Some "application/json") pickup_request
              "F1" "P1" "2025-06-01" 50 (mkdate 2025 6 1) w0
              eq_refl eq_refl eq_refl eq_refl)
    as (body & w' & Hrun & Hiff & _).
  - vm_compute. reflexivity.
  - vm_compute. discriminate.
  - vm_compute. reflexivity.
  - exists body, w'. split; [exact Hrun|].
    apply Hiff. vm_compute. discriminate.
Defined.

(** The claim as stated fails: no harvest lies in the 7 days up to the
    requested date (the sum the claim names is missing, so 0 < 50), and
    yet the pickup of 50 kg is confirmed, because the query has no upper
    bound on the harvest date. *)
Lemma C5_counterexample :
  let E := example_env (warehouse_over later_harvest) insert_ok no_http in
  let run := entry_point Agrioptimize
               (post "/schedule/pickup" (Some "application/json") (VDict pickup_request)) w0 in
  total_within_7_days later_harvest "F1" "P1" (mkdate 2025 6 1) = None
  /\ status_of run = Some 200
  /\ (exists body, fst run = Ok (Json body, 200)
                   /\ field "status" body = Some (VStr "success")
                   /\ field "status" body <> Some (VStr "unavailable")).
Proof.
  intros E run. split; [reflexivity|]. split; [vm_compute; reflexivity|].
  let r := eval vm_compute in (fst run) in
  lazymatch r with Ok (Json ?body, _) => exists body end.
  split; [vm_compute; reflexivity|].
  split; [reflexivity|discriminate].
Qed.

(** ** A logic of runs

    [spec m Q]: from every world, [m] only appends events to the trace,
    and its result and the events it appends satisfy [Q]. *)

Definition spec {A} (m : M A) (Q : result A -> list event -> Prop) : Prop :=
  forall w, exists new, added w (snd (m w)) new /\ Q (fst (m w)) new.

(** A computation that reaches no external service. *)
Definition silent {A} (m : M A) : Prop := spec m (fun _ new => new = []).

Lemma added_nil (w : world) : added w w [].
Proof. unfold added. rewrite app_nil_r. reflexivity. Qed.

Lemma added_log (w w' : world) (ev : event) (new : list event) :
  added (log ev w) w' new -> added w w' (ev :: new).
Proof.
  unfold added, log. cbn [trace]. intros ->. rewrite <- app_assoc. reflexivity.
Qed.

Lemma added_same (w w1 w' : world) (new : list event) :
  added w w1 [] -> added w1 w' new -> added w w' new.
Proof.
  unfold added. rewrite app_nil_r. intros <- H. exact H.
Qed.

Lemma added_unique (w w' : world) (l1 l2 : list event) :
  added w w' l1 -> added w w' l2 -> l1 = l2.
Proof. unfold added. intros -> H. apply app_inv_head in H. exact H. Qed.

Lemma spec_weaken {A} (m : M A) (Q Q' : result A -> list event -> Prop) :
  spec m Q -> (forall r new, Q r new -> Q' r new) -> spec m Q'.
Proof.
  intros H HQ w. destruct (H w) as [new [Ha Hq]]. exists new. auto.
Qed.

Lemma spec_ret {A} (a : A) (Q : result A -> list event -> Prop) :
  Q (Ok a) [] -> spec (ret a) Q.
Proof. intros H w. exists []. split; [apply added_nil|exact H]. Qed.

Lemma spec_raise {A} (e : exc) (Q : result A -> list event -> Prop) :
  Q (Raise e) [] -> spec (raise e) Q.
Proof. intros H w. exists []. split; [apply added_nil|exact H]. Qed.

Lemma spec_lift {A} (r : result A) (Q : result A -> list event -> Prop) :
  Q r [] -> spec (lift r) Q.
Proof. intros H w. exists []. split; [apply added_nil|exact H]. Qed.

Lemma spec_bind_silent {A B} (m : M A) (k : A -> M B) (Q : result B -> list event -> Prop) :
  silent m ->
  (forall e, Q (Raise e) []) ->
  (forall a, spec (k a) Q) ->
  spec (bind m k) Q.
Proof.
  intros Hm Hr Hk w. unfold bind.
  destruct (Hm w) as [new [Ha ->]].
  destruct (m w) as [[a|e] w1]; cbn [fst snd] in *.
  - destruct (Hk a w1) as [new [Ha' Hq]]. exists new.
    split; [exact (added_same _ _ _ _ Ha Ha')|exact Hq].
  - exists []. split; [exact Ha|apply Hr].
Qed.

(** [try: body / except Exception: return x] *)
Lemma spec_try_ret {A} (body : M A) (x : A) (Q : result A -> list event -> Prop) :
  spec body Q ->
  (forall e new, Q (Raise e) new -> Q (Ok x) new) ->
  spec (try_except body (ret x)) Q.
Proof.
  intros Hb Hq w. unfold try_except, ret.
  destruct (Hb w) as [new [Ha Hn]].
  destruct (body w) as [[a|e] w1]; cbn [fst snd] in *; exists new; eauto.
Qed.

Lemma spec_catching {A B} (classes : list exc) (r : result A) (handler : M B)
  (k : A -> M B) (Q : result B -> list event -> Prop) :
  spec handler Q ->
  (forall e, Q (Raise e) []) ->
  (forall a, spec (k a) Q) ->
  spec (catching classes r handler k) Q.
Proof.
  intros Hh Hr Hk. unfold catching. destruct r as [a|e]; [apply Hk|].
  destruct (existsb (exc_eqb e) classes); [exact Hh|apply spec_raise, Hr].
Qed.

Lemma spec_if_missing {A} (required_fields : list string) (data : value)
  (on_missing : list string -> M A) (k : M A) (Q : result A -> list event -> Prop) :
  (forall missing, spec (on_missing missing) Q) ->
  (forall e, Q (Raise e) []) ->
  spec k Q ->
  spec (if_missing required_fields data on_missing k) Q.
Proof.
  intros Hm Hr Hk. unfold if_missing.
  apply spec_bind_silent; [|exact Hr|].
  - destruct (negb (truthy data)); [apply spec_ret; reflexivity|].
    apply spec_bind_silent; [apply spec_lift; reflexivity|reflexivity|].
    intros ok. apply spec_ret. reflexivity.
  - intros [|]; [|exact Hk].
    apply spec_bind_silent; [apply spec_lift; reflexivity|exact Hr|exact Hm].
Qed.

(** The steps that reach the warehouse: the continuation is specified
    for the events that follow. *)
Lemma spec_bind_query {E : Env} {B} (sql : string) (params : list query_param)
  (k : query_outcome -> M B) (Q : result B -> list event -> Prop) :
  spec (k (client_query sql params)) (fun r new => Q r (Query sql params :: new)) ->
  spec (bind (run_query sql params) k) Q.
Proof.
  intros H w. unfold bind, run_query.
  destruct (H (log (Query sql params) w)) as [new [Ha Hq]].
  exists (Query sql params :: new). split; [apply added_log, Ha|exact Hq].
Qed.

Lemma spec_bind_fetch {E : Env} {B} (sql : string) (params : list query_param)
  (k : bool * value -> M B) (Q : result B -> list event -> Prop) :
  spec (k (fetch_result (client_query sql params)))
       (fun r new => Q r (Query sql params :: new)) ->
  spec (bind (fetch_rows sql params) k) Q.
Proof.
  intros H w. unfold bind, fetch_rows, run_query, ret.
  destruct (H (log (Query sql params) w)) as [new [Ha Hq]].
  exists (Query sql params :: new). split; [apply added_log, Ha|exact Hq].
Qed.

Lemma spec_bind_insert {E : Env} {B} (table_id : string) (rows : list value)
  (k : bool * value -> M B) (Q : result B -> list event -> Prop) :
  spec (k (insert_result table_id (client_insert_rows_json table_id rows)))
       (fun r new => Q r (InsertRowsJson table_id rows :: new)) ->
  spec (bind (insert_rows table_id rows) k) Q.
Proof.
  intros H w. unfold bind, insert_rows, run_insert, ret.
  destruct (H (log (InsertRowsJson table_id rows) w)) as [new [Ha Hq]].
  exists (InsertRowsJson table_id rows :: new). split; [apply added_log, Ha|exact Hq].
Qed.

(** Silent steps *)

Lemma silent_ret {A} (a : A) : silent (ret a).
Proof. apply spec_ret. reflexivity. Qed.

Lemma silent_lift {A} (r : result A) : silent (lift r).
Proof. apply spec_lift. reflexivity. Qed.

Lemma silent_raise {A} (e : exc) : silent (@raise A e).
Proof. apply spec_raise. reflexivity. Qed.

Lemma silent_bind {A B} (m : M A) (k : A -> M B) :
  silent m -> (forall a, silent (k a)) -> silent (bind m k).
Proof. intros Hm Hk. apply spec_bind_silent; [exact Hm|reflexivity|exact Hk]. Qed.

Lemma silent_new_uuid {E : Env} : silent new_uuid.
Proof.
  intros w. exists []. split; [|reflexivity].
  unfold added. cbn. rewrite app_nil_r. reflexivity.
Qed.

Lemma silent_randbelow {E : Env} (n : Z) : silent (randbelow n).
Proof.
  intros w. exists []. split; [|reflexivity].
  unfold added. cbn. rewrite app_nil_r. reflexivity.
Qed.

Lemma silent_randint {E : Env} (a b : Z) : silent (randint a b).
Proof.
  apply silent_bind; [apply silent_randbelow|]. intros r. apply silent_ret.
Qed.

Lemma silent_random_random {E : Env} : silent random_random.
Proof.
  apply silent_bind; [apply silent_randbelow|]. intros r. apply silent_ret.
Qed.

Lemma silent_random_uniform {E : Env} (a b : float) : silent (random_uniform a b).
Proof.
  apply silent_bind; [apply silent_random_random|]. intros r. apply silent_ret.
Qed.

Lemma silent_catching {A B} (classes : list exc) (r : result A) (handler : M B)
  (k : A -> M B) :
  silent handler -> (forall a, silent (k a)) -> silent (catching classes r handler k).
Proof. intros Hh Hk. apply spec_catching; [exact Hh|reflexivity|exact Hk]. Qed.

Ltac silence_step :=
  first
    [ apply silent_ret | apply silent_lift | apply silent_raise | apply silent_new_uuid
    | apply silent_randint | apply silent_randbelow | apply silent_random_random
    | apply silent_random_uniform
    | apply silent_bind; [|intro]
    | apply silent_catching; [|intro]
    | match goal with
      | |- silent (if ?c then _ else _) => destruct c
      | |- silent (match ?x with _ => _ end) => destruct x
      end ].

(** The loops of the handlers that reach no external service. *)

Lemma silent_shuffle {E : Env} (x : list value) : silent (logifresh.shuffle x).
Proof.
  unfold logifresh.shuffle. generalize (List.length x - 1)%nat as i. intros i.
  revert x. induction i as [|i IH]; intros x; cbn [logifresh.shuffle_from].
  - apply silent_ret.
  - apply silent_bind; [apply silent_randbelow|]. intros j. apply IH.
Qed.

Lemma silent_simulated_route {E : Env} (customers : list value) :
  forall (i : Z) (current_time : datetime) (per_stop : Z),
    silent (logifresh.simulated_route i current_time per_stop customers).
Proof.
  induction customers as [|customer rest IH]; intros i current_time per_stop;
    cbn [logifresh.simulated_route].
  - apply silent_ret.
  - repeat first [apply IH|silence_step].
Qed.

Lemma silent_order_item {E : Env} (order_id : string) (item : value) :
  silent (marketflow.order_item order_id item).
Proof. unfold marketflow.order_item. repeat silence_step. Qed.

Lemma silent_order_items {E : Env} (order_id : string) (items : list value) :
  forall (rows : list value) (total_amount : float),
    silent (marketflow.order_items order_id items rows total_amount).
Proof.
  induction items as [|item rest IH]; intros rows total_amount;
    cbn [marketflow.order_items].
  - apply silent_ret.
  - apply silent_bind; [apply silent_order_item|].
    intros [status_code response_body|row line_item_total]; [apply silent_ret|apply IH].
Qed.

Ltac silence :=
  repeat first [ apply silent_shuffle | apply silent_simulated_route
               | apply silent_order_items | silence_step ].

Lemma spec_bind_ret {A B} (a : A) (k : A -> M B) (Q : result B -> list event -> Prop) :
  spec (k a) Q -> spec (bind (ret a) k) Q.
Proof. intros H. exact H. Qed.

Lemma spec_convert_if_present {E : Env} {A} (v : value) (conv : value -> result A)
  (inj : A -> value) (message : string) (k : value -> M (Z * value))
  (Q : result (Z * value) -> list event -> Prop) :
  Q (Ok (400, dict_error message)) [] ->
  (forall e, Q (Raise e) []) ->
  (forall v', spec (k v') Q) ->
  spec (agrioptimize.convert_if_present v conv inj message k) Q.
Proof.
  intros H400 Hr Hk. unfold agrioptimize.convert_if_present.
  destruct v; try apply Hk;
    (apply spec_catching; [apply spec_ret, H400|exact Hr|intros a; apply Hk]).
Qed.

Lemma spec_bind_if {A B} (c : bool) (m1 m2 : M A) (k : A -> M B)
  (Q : result B -> list event -> Prop) :
  spec (if c then bind m1 k else bind m2 k) Q -> spec (bind (if c then m1 else m2) k) Q.
Proof. destruct c; auto. Qed.

Lemma spec_bind_assoc {A B C} (m : M A) (f : A -> M B) (k : B -> M C)
  (Q : result C -> list event -> Prop) :
  spec (bind m (fun x => bind (f x) k)) Q -> spec (bind (bind m f) k) Q.
Proof.
  intros H w. destruct (H w) as [new Hn]. exists new.
  unfold bind in *. destruct (m w) as [[a|e] w1]; exact Hn.
Qed.

(** One step of a proof by the rules; [side] proves the conditions on
    [Q] at a point where no more event follows. *)
Ltac spec_step side :=
  cbv beta;
  lazymatch goal with
  | |- spec (ret _) _ => apply spec_ret; side
  | |- spec (raise _) _ => apply spec_raise; side
  | |- spec (lift _) _ => apply spec_lift; side
  | |- spec (bind (ret _) _) _ => apply spec_bind_ret
  | |- spec (bind (fetch_rows ?q ?p) _) _ =>
      apply spec_bind_fetch; cbv beta;
      let H := fresh "Hfetch" in
      destruct (fetch_result (client_query q p)) as [[|] ?] eqn:H;
      cbn [andb negb]
  | |- spec (bind (insert_rows ?t ?rows) _) _ =>
      apply spec_bind_insert; cbv beta;
      let H := fresh "Hinsert" in
      destruct (insert_result t (client_insert_rows_json t rows)) as [[|] ?] eqn:H;
      cbn [andb negb]
  | |- spec (bind (run_query ?q ?p) _) _ =>
      apply spec_bind_query; cbv beta;
      let H := fresh "Hquery" in destruct (client_query q p) eqn:H
  | |- spec (bind ?m _) _ =>
      first [apply spec_bind_silent; [solve [silence]|side|intro]
            |apply spec_bind_if
            |apply spec_bind_assoc
            |lazymatch m with
             | match ?x with _ => _ end => destruct x eqn:?
             end]
  | |- spec (try_except _ (ret _)) _ => apply spec_try_ret; [|side]
  | |- spec (catching _ _ _ _) _ => apply spec_catching; [|side|intro]
  | |- spec (if_missing _ _ _ _) _ => apply spec_if_missing; [intro|side|]
  | |- spec (agrioptimize.convert_if_present _ _ _ _ _) _ =>
      apply spec_convert_if_present; [side|side|intro]
  | |- spec (if ?c then _ else _) _ => destruct c eqn:?
  | |- spec (match ?x with _ => _ end) _ => destruct x eqn:?
  end.

(** ** C2: failures of the warehouse *)

(** The response of a handler to a failure it does not survive: a fixed
    message, and what the helper reported in [details]. *)
Definition fatal_response {E : Env} (message : string) (ev : event) : result (Z * value) :=
  Ok (500, VDict [("status", VStr "error"); ("message", VStr message);
                  ("details", answer ev)]).

(** If the first external call of the run failed, the run ended with
    the fatal response. *)
Definition fatal {E : Env} (message : string) (r : result (Z * value)) (new : list event)
  : Prop :=
  forall ev rest, new = ev :: rest -> failed ev = true -> r = fatal_response message ev.

Lemma fetch_event {E : Env} (sql : string) (params : list query_param) (b : bool) (v : value) :
  fetch_result (client_query sql params) = (b, v) ->
  failed (Query sql params) = negb b /\ answer (Query sql params) = v.
Proof. intros H. unfold failed, answer. rewrite H. split; reflexivity. Qed.

Lemma insert_event {E : Env} (table_id : string) (rows : list value) (b : bool) (v : value) :
  insert_result table_id (client_insert_rows_json table_id rows) = (b, v) ->
  failed (InsertRowsJson table_id rows) = negb b /\ answer (InsertRowsJson table_id rows) = v.
Proof. intros H. unfold failed, answer. rewrite H. split; reflexivity. Qed.

Ltac fatal_side :=
  intros;
  let ev := fresh "ev" in let rest := fresh "rest" in
  let Heq := fresh "Heq" in let Hfail := fresh "Hfail" in
  intros ev rest Heq Hfail;
  first [discriminate Heq
        |match goal with
         | H : fatal _ (Raise _) _ |- _ => discriminate (H _ _ Heq Hfail)
         end
        |injection Heq as <- <-;
         match goal with
         | H : fetch_result (client_query ?q ?p) = (?b, ?v) |- _ =>
             let Hf := fresh "Hf" in let Ha := fresh "Ha" in
             destruct (fetch_event q p b v H) as [Hf Ha];
             first [discriminate (eq_trans (eq_sym Hf) Hfail)
                   |unfold fatal_response; rewrite <- Ha; reflexivity]
         | H : insert_result ?t (client_insert_rows_json ?t ?rows) = (?b, ?v) |- _ =>
             let Hf := fresh "Hf" in let Ha := fresh "Ha" in
             destruct (insert_event t rows b v H) as [Hf Ha];
             first [discriminate (eq_trans (eq_sym Hf) Hfail)
                   |unfold fatal_response; rewrite <- Ha; reflexivity]
         end].

Lemma fatal_log_harvest {E : Env} (data : value) :
  spec (agrioptimize.handle_log_harvest data) (fatal "Failed to log harvest record.").
Proof.
  unfold agrioptimize.handle_log_harvest, agrioptimize.missing_body.
  repeat spec_step fatal_side.
Qed.

Lemma fatal_report_farm_qc_issue {E : Env} (data : value) :
  spec (agrioptimize.handle_report_farm_qc_issue data)
       (fatal "Failed to report quality issue.").
Proof.
  unfold agrioptimize.handle_report_farm_qc_issue, agrioptimize.missing_body.
  repeat spec_step fatal_side.
Qed.

Lemma fatal_schedule_farm_pickup {E : Env} (data : value) :
  spec (agrioptimize.handle_schedule_farm_pickup data)
       (fatal "Failed to check farm availability.").
Proof.
  unfold agrioptimize.handle_schedule_farm_pickup, agrioptimize.missing_body.
  repeat spec_step fatal_side.
Qed.

Lemma fatal_track_shipment_location {E : Env} (data : value) :
  spec (logifresh.handle_track_shipment_location data)
       (fatal "Failed to retrieve shipment details.").
Proof.
  unfold logifresh.handle_track_shipment_location, logifresh.missing_body.
  repeat spec_step fatal_side.
Qed.

Lemma fatal_report_cold_chain_issue {E : Env} (data : value) :
  spec (logifresh.handle_report_cold_chain_issue data)
       (fatal "Failed to report cold chain reading.").
Proof.
  unfold logifresh.handle_report_cold_chain_issue, logifresh.missing_body.
  repeat spec_step fatal_side.
Qed.

Lemma fatal_check_warehouse_stock {E : Env} (data : value) :
  spec (logifresh.handle_check_warehouse_stock data)
       (fatal "Failed to retrieve warehouse stock.").
Proof.
  unfold logifresh.handle_check_warehouse_stock, logifresh.missing_body.
  repeat spec_step fatal_side.
Qed.

Lemma fatal_get_demand_forecast {E : Env} (data : value) :
  spec (marketflow.handle_get_demand_forecast data)
       (fatal "Failed to retrieve demand forecasts.").
Proof.
  unfold marketflow.handle_get_demand_forecast, marketflow.missing_body.
  repeat spec_step fatal_side.
Qed.

Lemma fatal_get_market_prices {E : Env} (data : value) :
  spec (marketflow.handle_get_market_prices data)
       (fatal "Failed to retrieve market prices.").
Proof.
  unfold marketflow.handle_get_market_prices, marketflow.missing_body.
  repeat spec_step fatal_side.
Qed.


Lemma fatal_optimize_delivery_route {E : Env} (data : value) :
  spec (logifresh.handle_optimize_delivery_route data)
       (fatal "Failed to retrieve vehicle details.").
Proof.
  unfold logifresh.handle_optimize_delivery_route, logifresh.missing_body.
  repeat spec_step fatal_side.
Qed.

(** The routes whose handler does not survive a failure of its first
    warehouse call, with the message each answers then. *)
Definition fatal_message (b : backend) (path : string) : option string :=
  match b with
  | Agrioptimize =>
      if String.eqb path "/harvest" then Some "Failed to log harvest record."
      else if String.eqb path "/issue/farm" then Some "Failed to report quality issue."
      else if String.eqb path "/schedule/pickup" then Some "Failed to check farm availability."
      else None
  | Logifresh =>
      if String.eqb path "/shipment/status" then Some "Failed to retrieve shipment details."
      else if String.eqb path "/issue/coldchain"
      then Some "Failed to report cold chain reading."
      else if String.eqb path "/inventory/stock" then Some "Failed to retrieve warehouse stock."
      else if String.eqb path "/route/optimize" then Some "Failed to retrieve vehicle details."
      else None
  | Marketflow =>
      if String.eqb path "/forecast" then Some "Failed to retrieve demand forecasts."
      else if String.eqb path "/prices/current" then Some "Failed to retrieve market prices."
      else None
  end.

Lemma respond_fatal {E : Env} (h : M (Z * value)) (message : string) (w w' : world)
  (r : result response) (ev : event) (rest : list event) :
  spec h (fatal message) ->
  respond h w = (r, w') ->
  added w w' (ev :: rest) ->
  failed ev = true ->
  r = Ok (Json (VDict [("status", VStr "error"); ("message", VStr message);
                       ("details", answer ev)]), 500).
Proof.
  intros Hspec Hrun Hadd Hfail.
  destruct (Hspec w) as [new [Ha Hq]].
  unfold respond, bind, ret in Hrun.
  destruct (h w) as [[[status_code response_body]|e] w1]; cbn [fst snd] in *;
    injection Hrun as <- <-;
    pose proof (added_unique _ _ _ _ Ha Hadd) as ->;
    specialize (Hq ev rest eq_refl Hfail); unfold fatal_response in Hq.
  - injection Hq as -> ->. reflexivity.
  - discriminate Hq.
Qed.

(** C2 (as amended).  For every request to /harvest, /issue/farm,
    /schedule/pickup, /shipment/status, /issue/coldchain,
    /inventory/stock, /route/optimize, /forecast or /prices/current whose
    first warehouse call (query or insert) fails, the handler returns
    HTTP 500 with status "error", the fixed message of the route, and in
    [details] the error string the warehouse helper reported.  (Failures
    of later retrievals are absorbed: see the counterexample.) *)
Theorem C2_fatal_warehouse_failure {E : Env} (b : backend) (path : string)
  (ct : option string) (data : value) (message : string) (w w' : world)
  (r : result response) (ev : event) (rest : list event) :
  fatal_message b path = Some message ->
  entry_point b (post path ct data) w = (r, w') ->
  added w w' (ev :: rest) ->
  failed ev = true ->
  r = Ok (Json (VDict [("status", VStr "error"); ("message", VStr message);
                       ("details", answer ev)]), 500).
Proof.
  intros Hmsg Hrun Hadd Hfail.
  destruct (is_none data) eqn:Hnone.
  { apply is_none_eq in Hnone. subst data. rewrite post_none in Hrun.
    injection Hrun as <- <-.
    pose proof (added_unique _ _ _ _ (added_nil w) Hadd) as Hnew. discriminate Hnew. }
  destruct b; unfold fatal_message in Hmsg; path_cases Hmsg; try discriminate;
    injection Hmsg as <-;
    rewrite ?(route_agrioptimize _ _ _ Hnone), ?(route_logifresh _ _ _ Hnone),
            ?(route_marketflow _ _ _ Hnone) in Hrun;
    cbn [String.eqb Ascii.eqb Bool.eqb] in Hrun;
    refine (respond_fatal _ _ _ _ _ _ _ _ Hrun Hadd Hfail).
  - apply fatal_log_harvest.
  - apply fatal_report_farm_qc_issue.
  - apply fatal_schedule_farm_pickup.
  - apply fatal_track_shipment_location.
  - apply fatal_report_cold_chain_issue.
  - apply fatal_check_warehouse_stock.
  - apply fatal_optimize_delivery_route.
  - apply fatal_get_demand_forecast.
  - apply fatal_get_market_prices.
Qed.

(** A warehouse that refuses every insert. *)
Definition insert_refused : string -> list value -> insert_outcome :=
  fun _ _ => InsertRaises GoogleAPIError "quota exceeded".

Definition harvest_request : value :=
  VDict [("farm_id", VStr "F1"); ("product_id", VStr "P1");
         ("harvested_quantity_kg", VInt 120); ("harvest_date", VStr "2025-06-01")].

Lemma C2_fatal_warehouse_failure_witness :
  let E := example_env no_rows insert_refused no_http in
  let run := entry_point Agrioptimize
               (post "/harvest" (Some "application/json") harvest_request) w0 in
  fst run = Ok (Json (VDict [("status", VStr "error");
                             ("message", VStr "Failed to log harvest record.");
                             ("details", VStr "quota exceeded")]), 500).
Proof.
  intros E run.
  destruct (trace (snd run)) as [|ev rest] eqn:Htrace; [discriminate Htrace|].
  assert (Hev : failed ev = true /\ answer ev = VStr "quota exceeded").
  { vm_compute in Htrace. injection Htrace as <- <-. split; reflexivity. }
  destruct Hev as [Hfail Hanswer].
  rewrite (@C2_fatal_warehouse_failure E Agrioptimize "/harvest" (Some "application/json")
             harvest_request "Failed to log harvest record." w0 (snd run) (fst run) ev rest
             eq_refl (surjective_pairing run) Htrace Hfail).
  rewrite Hanswer. reflexivity.
Defined.

(** A warehouse where the shipment is found and the cold chain query
    fails. *)
Definition cold_chain_down (sql : string) (params : list query_param) : query_outcome :=
  if str_contains "cold_chain_readings" sql
  then QueryRaises GoogleAPIError "backend error"
  else Rows [VDict [("shipment_id", VStr "S-1"); ("requires_cold_chain", VBool true)]].

(** The claim as stated fails: the warehouse client reports a failure
    during the request (the cold chain query), and the answer is 200 with
    status "warning", whose [details] do not carry the error string. *)
Lemma C2_counterexample :
  let E := example_env cold_chain_down insert_ok no_http in
  let run := entry_point Logifresh
               (post "/shipment/status" (Some "application/json")
                     (VDict [("shipment_id", VStr "S-1")])) w0 in
  existsb failed (trace (snd run)) = true
  /\ status_of run = Some 200
  /\ status_of run <> Some 500
  /\ exists body, fst run = Ok (Json body, 200)
                  /\ field "status" body = Some (VStr "warning")
                  /\ field "details" body = Some (VStr "Cold chain query failed: []").
Proof.
  intros E run.
  split; [vm_compute; reflexivity|].
  split; [vm_compute; reflexivity|].
  split; [vm_compute; discriminate|].
  eexists. split; [vm_compute; reflexivity|].
  split; reflexivity.
Qed.

(** ** C8: what a request writes to the warehouse *)

(** The statement is a [SELECT]: its first word, after the blank lines
    the source starts its SQL texts with. *)
Definition is_select (sql : string) : bool := String.prefix "SELECT" (lstrip sql).

(** The call changes no row that exists: it is not a SQL statement
    other than a [SELECT].  ([insert_rows_json] only appends.) *)
Definition no_update_or_delete (ev : event) : bool :=
  match ev with
  | Query sql _ => is_select sql
  | _ => true
  end.

(** The rows a run handed to [insert_rows_json], by table, in order. *)
Fixpoint inserts (new : list event) : list (string * list value) :=
  match new with
  | [] => []
  | InsertRowsJson table rows :: rest => (table, rows) :: inserts rest
  | _ :: rest => inserts rest
  end.

(** The frame of a run: only [SELECT]s, and inserts of the shape given. *)
Definition frame {A} (shape : list (string * list value) -> Prop)
  (r : result A) (new : list event) : Prop :=
  forallb no_update_or_delete new = true /\ shape (inserts new).

Definition nothing (ins : list (string * list value)) : Prop := ins = [].

Definition at_most_one_row (table : string) (ins : list (string * list value)) : Prop :=
  ins = [] \/ exists row, ins = [(table, [row])].

(** The inserts of [/order]: one row for the order, and one for each
    item of the request. *)
Definition order_rows {E : Env} (data : value) (ins : list (string * list value)) : Prop :=
  ins = [] \/
  exists items order lines,
    getitem data "items" = Ok (VList items) /\
    ins = [(marketflow.ORDERS_TABLE, [order]); (marketflow.ORDER_ITEMS_TABLE, lines)] /\
    List.length lines = List.length items.

(** The table a route inserts its one row into. *)
Definition insert_table {E : Env} (b : backend) (path : string) : option string :=
  match b with
  | Agrioptimize =>
      if String.eqb path "/harvest" then Some agrioptimize.HARVEST_RECORDS_TABLE
      else if String.eqb path "/issue/farm" then Some agrioptimize.FARM_QC_ISSUES_TABLE
      else None
  | Logifresh =>
      if String.eqb path "/issue/coldchain" then Some logifresh.COLD_CHAIN_READINGS_TABLE
      else None
  | Marketflow => None
  end.

(** What a request may insert. *)
Definition written {E : Env} (b : backend) (request : request)
  (ins : list (string * list value)) : Prop :=
  ins = []
  \/ (exists table row,
        insert_table b (path request) = Some table /\ ins = [(table, [row])])
  \/ (b = Marketflow /\ path request = "/order" /\
      exists data, get_json request = Ok data /\ order_rows data ins).

Lemma spec_bind_lift {A B} (r : result A) (k : A -> M B)
  (Q : result B -> list event -> Prop) :
  (forall e, r = Raise e -> Q (Raise e) []) ->
  (forall a, r = Ok a -> spec (k a) Q) ->
  spec (bind (lift r) k) Q.
Proof.
  intros Hr Hk. destruct r as [a|e].
  - exact (Hk a eq_refl).
  - intros w. exists []. split; [apply added_nil|exact (Hr e eq_refl)].
Qed.

(** A silent step whose result is known to satisfy [P]. *)
Lemma spec_bind_post {A B} (m : M A) (P : A -> Prop) (k : A -> M B)
  (Q : result B -> list event -> Prop) :
  spec m (fun r new => new = [] /\ forall a, r = Ok a -> P a) ->
  (forall e, Q (Raise e) []) ->
  (forall a, P a -> spec (k a) Q) ->
  spec (bind m k) Q.
Proof.
  intros Hm Hr Hk w. unfold bind.
  destruct (Hm w) as [new [Ha [-> HP]]].
  destruct (m w) as [[a|e] w1]; cbn [fst snd] in *.
  - destruct (Hk a (HP a eq_refl) w1) as [new [Ha' Hq]]. exists new.
    split; [exact (added_same _ _ _ _ Ha Ha')|exact Hq].
  - exists []. split; [exact Ha|apply Hr].
Qed.

Lemma spec_respond (h : M (Z * value)) (Q : list event -> Prop) :
  spec h (fun _ new => Q new) -> spec (respond h) (fun _ new => Q new).
Proof.
  intros H w. destruct (H w) as [new [Ha Hq]]. exists new.
  unfold respond, bind, ret in *.
  destruct (h w) as [[[status_code response_body]|e] w1]; cbn [fst snd] in *; auto.
Qed.

Lemma advice_queries_select {E : Env} (farm_id product_id start_date_str end_date_str : value) :
  let '((harvest_query, _), (qc_query, _), (schedule_query, _)) :=
    agrioptimize.advice_queries farm_id product_id start_date_str end_date_str in
  is_select harvest_query = true /\ is_select qc_query = true
  /\ is_select schedule_query = true.
Proof.
  unfold agrioptimize.advice_queries.
  destruct (truthy start_date_str && truthy end_date_str);
    [|destruct (truthy start_date_str); [|destruct (truthy end_date_str)]];
    repeat split; reflexivity.
Qed.

Ltac frame_side :=
  intros; cbv beta;
  first
    [ assumption
    | match goal with H : frame _ _ ?new |- frame _ _ ?new => exact H end
    | split;
      [ cbn [forallb no_update_or_delete andb];
        repeat match goal with H : is_select _ = true |- _ => rewrite H end;
        reflexivity
      | cbn [inserts];
        first [ reflexivity
              | left; reflexivity
              | right; eexists; reflexivity ] ] ].

Lemma frame_log_harvest {E : Env} (data : value) :
  spec (agrioptimize.handle_log_harvest data)
       (frame (at_most_one_row agrioptimize.HARVEST_RECORDS_TABLE)).
Proof.
  unfold agrioptimize.handle_log_harvest, agrioptimize.missing_body.
  repeat spec_step frame_side.
Qed.

Lemma frame_get_harvest_advice {E : Env} (data : value) :
  spec (agrioptimize.handle_get_harvest_advice data) (frame nothing).
Proof.
  unfold agrioptimize.handle_get_harvest_advice.
  do 4 spec_step frame_side.
  apply spec_try_ret; [|frame_side].
  pose proof (advice_queries_select a a0 a1 a2) as Hsel.
  destruct (agrioptimize.advice_queries a a0 a1 a2)
    as [[[harvest_query harvest_params] [qc_query qc_params]]
        [schedule_query schedule_params]].
  destruct Hsel as (Hh & Hq & Hs).
  repeat spec_step frame_side.
Qed.

Lemma frame_report_farm_qc_issue {E : Env} (data : value) :
  spec (agrioptimize.handle_report_farm_qc_issue data)
       (frame (at_most_one_row agrioptimize.FARM_QC_ISSUES_TABLE)).
Proof.
  unfold agrioptimize.handle_report_farm_qc_issue, agrioptimize.missing_body.
  repeat spec_step frame_side.
Qed.

Lemma frame_schedule_farm_pickup {E : Env} (data : value) :
  spec (agrioptimize.handle_schedule_farm_pickup data) (frame nothing).
Proof.
  unfold agrioptimize.handle_schedule_farm_pickup, agrioptimize.missing_body.
  repeat spec_step frame_side.
Qed.

Lemma frame_track_shipment_location {E : Env} (data : value) :
  spec (logifresh.handle_track_shipment_location data) (frame nothing).
Proof.
  unfold logifresh.handle_track_shipment_location, logifresh.missing_body.
  repeat spec_step frame_side.
Qed.

Lemma frame_report_cold_chain_issue {E : Env} (data : value) :
  spec (logifresh.handle_report_cold_chain_issue data)
       (frame (at_most_one_row logifresh.COLD_CHAIN_READINGS_TABLE)).
Proof.
  unfold logifresh.handle_report_cold_chain_issue, logifresh.missing_body.
  repeat spec_step frame_side.
Qed.

Lemma frame_check_warehouse_stock {E : Env} (data : value) :
  spec (logifresh.handle_check_warehouse_stock data) (frame nothing).
Proof.
  unfold logifresh.handle_check_warehouse_stock, logifresh.missing_body.
  repeat spec_step frame_side.
Qed.

Lemma frame_optimize_delivery_route {E : Env} (data : value) :
  spec (logifresh.handle_optimize_delivery_route data) (frame nothing).
Proof.
  unfold logifresh.handle_optimize_delivery_route, logifresh.missing_body.
  repeat spec_step frame_side.
Qed.

Lemma frame_schedule_farm_pickup_logistics {E : Env} (data : value) :
  spec (logifresh.handle_schedule_farm_pickup_logistics data) (frame nothing).
Proof.
  unfold logifresh.handle_schedule_farm_pickup_logistics.
  repeat spec_step frame_side.
Qed.

Lemma frame_get_demand_forecast {E : Env} (data : value) :
  spec (marketflow.handle_get_demand_forecast data) (frame nothing).
Proof.
  unfold marketflow.handle_get_demand_forecast, marketflow.missing_body.
  repeat spec_step frame_side.
Qed.

Lemma frame_get_market_prices {E : Env} (data : value) :
  spec (marketflow.handle_get_market_prices data) (frame nothing).
Proof.
  unfold marketflow.handle_get_market_prices, marketflow.missing_body.
  repeat spec_step frame_side.
Qed.

Lemma frame_check_product_availability {E : Env} (data : value) :
  spec (marketflow.handle_check_product_availability data) (frame nothing).
Proof.
  unfold marketflow.handle_check_product_availability, marketflow.missing_body.
  repeat spec_step frame_side.
Qed.

Lemma order_items_rows {E : Env} (order_id : string) (items : list value) :
  forall (rows : list value) (total_amount : float),
    spec (marketflow.order_items order_id items rows total_amount)
         (fun r new =>
            new = [] /\
            forall collected, r = Ok collected ->
            forall rows' total', collected = inr (rows', total') ->
            List.length rows' = (List.length rows + List.length items)%nat).
Proof.
  induction items as [|item rest IH]; intros rows total_amount;
    cbn [marketflow.order_items].
  - apply spec_ret. split; [reflexivity|].
    intros collected [= <-] rows' total' [= <- <-]. cbn [List.length]. lia.
  - apply spec_bind_silent; [apply silent_order_item| |].
    + intros e. split; [reflexivity|discriminate].
    + intros [status_code response_body|row line_item_total].
      * apply spec_ret. split; [reflexivity|]. intros collected [= <-]. discriminate.
      * eapply spec_weaken; [apply IH|].
        intros r new [-> H]. split; [reflexivity|].
        intros collected Hr rows' total' Hc.
        rewrite (H collected Hr rows' total' Hc), length_app.
        cbn [List.length]. lia.
Qed.

Lemma frame_place_purchase_order {E : Env} (data : value) :
  spec (marketflow.handle_place_purchase_order data) (frame (order_rows data)).
Proof.
  unfold marketflow.handle_place_purchase_order, marketflow.missing_body.
  apply spec_if_missing; [intro; apply spec_ret; frame_side|frame_side|].
  apply spec_bind_lift; [frame_side|]. intros items Hitems.
  destruct (negb (is_list items) || negb (truthy items)) eqn:Hlist;
    [apply spec_ret; frame_side|].
  destruct items as [| | | | |l|]; try discriminate Hlist.
  do 2 spec_step frame_side.
  apply spec_try_ret; [|frame_side].
  eapply spec_bind_post; [apply order_items_rows|frame_side|].
  cbv beta. intros [early|[order_items_to_insert total_amount]] Hrows.
  - apply spec_ret. frame_side.
  - specialize (Hrows _ _ eq_refl). cbn [List.length Nat.add] in Hrows.
    assert (Hdone : forall order,
               order_rows data [(marketflow.ORDERS_TABLE, [order]);
                                (marketflow.ORDER_ITEMS_TABLE, order_items_to_insert)]).
    { intros order. right. exists l, order, order_items_to_insert. auto. }
    repeat spec_step ltac:(intros; cbv beta;
                           first [frame_side|split; [reflexivity|apply Hdone]]).
Qed.

(** Every run of a backend is within the frame. *)
Lemma frame_entry_point {E : Env} (b : backend) (request : request) :
  spec (entry_point b request)
       (fun _ new => forallb no_update_or_delete new = true
                     /\ written b request (inserts new)).
Proof.
  assert (Hnothing : forall h : M (Z * value),
             spec h (frame nothing) ->
             spec (respond h)
                  (fun _ new => forallb no_update_or_delete new = true
                                /\ written b request (inserts new))).
  { intros h H. apply spec_respond. eapply spec_weaken; [exact H|].
    intros r new [Hs Hn]. split; [exact Hs|]. left. exact Hn. }
  assert (Hone : forall (h : M (Z * value)) table,
             insert_table b (path request) = Some table ->
             spec h (frame (at_most_one_row table)) ->
             spec (respond h)
                  (fun _ new => forallb no_update_or_delete new = true
                                /\ written b request (inserts new))).
  { intros h table Ht H. apply spec_respond. eapply spec_weaken; [exact H|].
    intros r new [Hs [Hn|[row Hn]]]; (split; [exact Hs|]).
    - left. exact Hn.
    - right. left. exists table, row. auto. }
  assert (Hleaf : forall r : response,
             spec (ret r)
                  (fun _ new => forallb no_update_or_delete new = true
                                /\ written b request (inserts new))).
  { intros r. apply spec_ret. split; [reflexivity|left; reflexivity]. }
  assert (Hhealth : forall up down : string,
             spec (out <- run_query "SELECT 1" [] ;;
                   match out with
                   | Rows _ => ret (Text up, 200)
                   | QueryRaises _ e => ret (Text (down ++ e), 500)
                   end)
                  (fun _ new => forallb no_update_or_delete new = true
                                /\ written b request (inserts new))).
  { intros up down. apply spec_bind_query.
    destruct (client_query "SELECT 1" []); apply spec_ret;
      (split; [reflexivity|left; reflexivity]). }
  destruct b; cbn [entry_point];
    [unfold agrioptimize.agrioptimize_backend_function
    |unfold logifresh.logifresh_backend_function, logifresh.get_request_data
    |unfold marketflow.marketflow_backend_function, marketflow.get_request_data];
    (destruct (String.eqb (method request) "GET" && String.eqb (path request) "/");
     [apply Hhealth|]);
    (destruct (String.eqb (method request) "POST"); [|apply Hleaf]);
    [apply spec_bind_lift;
     [intros e _; split; [reflexivity|left; reflexivity]|intros data Hdata]
    |destruct (get_json request) as [data|e] eqn:Hdata; cbv zeta; [|apply Hleaf]
    |destruct (get_json request) as [data|e] eqn:Hdata; cbv zeta; [|apply Hleaf]];
    (destruct (is_none data); [apply Hleaf|]).
  - destruct (String.eqb (path request) "/harvest") eqn:H1.
    { eapply Hone; [|apply frame_log_harvest]. cbn [insert_table]. rewrite H1. reflexivity. }
    destruct (String.eqb (path request) "/advice/harvest") eqn:H2.
    { apply Hnothing, frame_get_harvest_advice. }
    destruct (String.eqb (path request) "/issue/farm") eqn:H3.
    { eapply Hone; [|apply frame_report_farm_qc_issue].
      cbn [insert_table]. rewrite H1, H3. reflexivity. }
    destruct (String.eqb (path request) "/schedule/pickup") eqn:H4.
    { apply Hnothing, frame_schedule_farm_pickup. }
    apply Hleaf.
  - destruct (String.eqb (path request) "/shipment/status") eqn:H1.
    { apply Hnothing, frame_track_shipment_location. }
    destruct (String.eqb (path request) "/issue/coldchain") eqn:H2.
    { eapply Hone; [|apply frame_report_cold_chain_issue].
      cbn [insert_table]. rewrite H2. reflexivity. }
    destruct (String.eqb (path request) "/inventory/stock") eqn:H3.
    { apply Hnothing, frame_check_warehouse_stock. }
    destruct (String.eqb (path request) "/route/optimize") eqn:H4.
    { apply Hnothing, frame_optimize_delivery_route. }
    destruct (String.eqb (path request) "/logistics/schedule-pickup-request") eqn:H5.
    { apply Hnothing, frame_schedule_farm_pickup_logistics. }
    apply Hleaf.
  - destruct (String.eqb (path request) "/forecast") eqn:H1.
    { apply Hnothing, frame_get_demand_forecast. }
    destruct (String.eqb (path request) "/prices/current") eqn:H2.
    { apply Hnothing, frame_get_market_prices. }
    destruct (String.eqb (path request) "/inventory/available") eqn:H3.
    { apply Hnothing, frame_check_product_availability. }
    destruct (String.eqb (path request) "/order") eqn:H4.
    { apply spec_respond. eapply spec_weaken; [apply frame_place_purchase_order|].
      intros r new [Hs Hn]. split; [exact Hs|]. right. right.
      apply String.eqb_eq in H4. split; [reflexivity|]. split; [exact H4|].
      exists data. auto. }
    apply Hleaf.
Qed.

(** C8 (as amended): a request to a backend never updates or deletes:
    every SQL statement it issues is a SELECT, and what it writes it
    writes by inserting rows.  A request either inserts nothing, or (on
    /harvest, /issue/farm and /issue/coldchain) inserts exactly one row
    into the one table of its route, or (on /order) inserts one row into
    the orders table and then one row for each item of the request into
    the order_items table. *)
Theorem C8_insert_only {E : Env} (b : backend) (request : request) (w : world) :
  exists new,
    added w (snd (entry_point b request w)) new /\
    forallb no_update_or_delete new = true /\
    (inserts new = []
     \/ (exists table row,
           insert_table b (path request) = Some table /\ inserts new = [(table, [row])])
     \/ (b = Marketflow /\ path request = "/order" /\
         exists data items order lines,
           get_json request = Ok data /\
           getitem data "items" = Ok (VList items) /\
           inserts new = [(marketflow.ORDERS_TABLE, [order]);
                          (marketflow.ORDER_ITEMS_TABLE, lines)] /\
           List.length lines = List.length items)).
Proof.
  destruct (frame_entry_point b request w) as [new [Ha [Hs Hw]]].
  exists new. split; [exact Ha|]. split; [exact Hs|].
  destruct Hw as [Hn|[Hone|(Hb & Hp & data & Hdata & [Hn|Horder])]]; auto.
  destruct Horder as (items & order & lines & Hitems & Hins & Hlen).
  right. right. split; [exact Hb|]. split; [exact Hp|].
  exists data, items, order, lines. auto.
Qed.

(** A purchase order of two items. *)
Definition two_items_order : value :=
  VDict [("customer_id", VStr "C-1");
         ("items", VList [VDict [("product_id", VStr "P-1"); ("quantity_kg", VInt 10)];
                          VDict [("product_id", VStr "P-2"); ("quantity_kg", VInt 4)]])].

(** C8 (as stated) fails: one request to /order of two items, answered
    with 200, has inserted three rows into two tables: one into orders,
    two into order_items. *)
Lemma C8_counterexample :
  let E := example_env no_rows insert_ok no_http in
  let run := entry_point Marketflow (post "/order" (Some "application/json") two_items_order) w0 in
  status_of run = Some 200 /\
  map (fun '(table, rows) => (table, List.length rows)) (inserts (trace (snd run)))
  = [(marketflow.ORDERS_TABLE, 1%nat); (marketflow.ORDER_ITEMS_TABLE, 2%nat)] /\
  marketflow.ORDERS_TABLE <> marketflow.ORDER_ITEMS_TABLE.
Proof.
  cbv zeta. split; [vm_compute; reflexivity|].
  split; [vm_compute; reflexivity|]. vm_compute. discriminate.
Qed.

Lemma C8_insert_only_witness :
  let E := example_env no_rows insert_ok no_http in
  let request := post "/order" (Some "application/json") two_items_order in
  exists new,
    added w0 (snd (entry_point Marketflow request w0)) new /\
    forallb no_update_or_delete new = true /\
    (inserts new = []
     \/ (exists table row,
           insert_table Marketflow (path request) = Some table
           /\ inserts new = [(table, [row])])
     \/ (Marketflow = Marketflow /\ path request = "/order" /\
         exists data items order lines,
           get_json request = Ok data /\
           getitem data "items" = Ok (VList items) /\
           inserts new = [(marketflow.ORDERS_TABLE, [order]);
                          (marketflow.ORDER_ITEMS_TABLE, lines)] /\
           List.length lines = List.length items)).
Proof.
  intros E request. exact (C8_insert_only Marketflow request w0).
Defined.

(** ** C4: the health check *)

Definition health_ok (b : backend) : string :=
  match b with
  | Agrioptimize => "AgriOptimize AI Backend is running and connected to BigQuery!"
  | Logifresh => "LogiFresh AI Backend is running and connected to BigQuery!"
  | Marketflow => "MarketFlow AI Backend is running and connected to BigQuery!"
  end.

Definition health_failed (b : backend) : string :=
  match b with
  | Agrioptimize => "AgriOptimize AI Backend health check failed: "
  | Logifresh => "LogiFresh AI Backend health check failed: "
  | Marketflow => "MarketFlow AI Backend health check failed: "
  end.

(** The answer to [GET /]: whether [SELECT 1] ran. *)
Definition health_check {E : Env} (b : backend) : response :=
  match client_query "SELECT 1" [] with
  | Rows _ => (Text (health_ok b), 200)
  | QueryRaises _ e => (Text (health_failed b ++ e), 500)
  end.

(** The four lookup functions. *)
Inductive lookup : Type := Product | Farm | Customer | Vehicle.

Definition lookup_function {E : Env} (f : lookup) : request -> M response :=
  match f with
  | Product => getproduct.lookup_product_by_name
  | Farm => getfirmdetails.lookup_farm_by_name
  | Customer => getcustomerdetails.lookup_customer_by_name
  | Vehicle => getvehicledetails.lookup_vehicle_by_license
  end.

Definition method_not_allowed : response :=
  (Dumps (VDict [("error", VStr "Method not allowed")]), 405).

(** [GET /], with no body. *)
Definition get_root : request := mkrequest "GET" "/" None (Ok VNone).

(** A lookup by name that received no body lists the table. *)
Lemma lookup_by_name_no_body {E : Env} (field what : string) (columns : list string)
  (list_query search_query pattern_name : string) (request : request) (w : world) :
  get_json request = Ok VNone ->
  let run := lookup_by_name field what columns list_query search_query pattern_name
               request w in
  snd run = log (Query list_query []) w
  /\ match client_query list_query [] with
     | Rows [] => fst run = Ok (Dumps (VDict [("matches", VList [])]), 200)
     | Rows _ => status_of run = Some 200 \/ status_of run = Some 500
     | QueryRaises _ _ => status_of run = Some 500
     end.
Proof.
  intros Hjson. unfold lookup_by_name. rewrite Hjson.
  unfold bind, lift, ret, run_query, status_of. cbn [truthy negb].
  destruct (client_query list_query []) as [[|row rows]|err e];
    cbn [collect_matches]; cbv zeta;
    try (split; reflexivity).
  destruct (select_columns columns row); [split; [reflexivity|right; reflexivity]|].
  destruct (collect_matches columns rows); split; cbn [fst snd]; auto.
Qed.


(** *** Handlers that return

    What a POST with a JSON object is answered with rests on the
    handlers returning: no exception leaves them. *)

(** [m] ends with a value: no exception leaves it. *)
Definition returns {A} (m : M A) : Prop :=
  forall w, exists a w', m w = (Ok a, w').

Lemma returns_ret {A} (a : A) : returns (ret a).
Proof. intros w. exists a, w. reflexivity. Qed.

Lemma returns_bind {A B} (m : M A) (k : A -> M B) :
  returns m -> (forall a, returns (k a)) -> returns (bind m k).
Proof.
  intros Hm Hk w. unfold bind. destruct (Hm w) as (a & w1 & ->). apply Hk.
Qed.

Lemma returns_bind_ok {A B} (r : result A) (a : A) (k : A -> M B) :
  r = Ok a -> returns (k a) -> returns (bind (lift r) k).
Proof. intros -> Hk w. apply Hk. Qed.

(** Whatever the body of a [try] does, the function returns when its
    [except Exception] clause does. *)
Lemma returns_try_except {A} (body handler : M A) :
  returns handler -> returns (try_except body handler).
Proof.
  intros Hh w. unfold try_except.
  destruct (body w) as [[a|e] w1]; [exists a, w1; reflexivity|apply Hh].
Qed.

Lemma returns_respond (h : M (Z * value)) : returns h -> returns (respond h).
Proof.
  intros H. unfold respond. apply returns_bind; [exact H|].
  intros [status_code response_body]. apply returns_ret.
Qed.

Lemma all_in_dict (fields : list string) (kvs : list (string * value)) :
  exists b, all_in fields (VDict kvs) = Ok b
            /\ (b = true -> forall f, In f fields -> exists v, assoc f kvs = Some v).
Proof.
  induction fields as [|f rest (b & Hb & Hall)].
  - exists true. split; [reflexivity|]. intros _ f [].
  - cbn [all_in contains]. destruct (assoc f kvs) as [v|] eqn:Hf.
    + exists b. split; [exact Hb|].
      intros Ht g [<-|Hg]; [exists v; exact Hf|exact (Hall Ht g Hg)].
    + exists false. split; [reflexivity|discriminate].
Qed.

(** The validation of an object: either some field is missing, or the
    rest of the handler runs with all of them present. *)
Lemma returns_if_missing_dict {A} (fields : list string) (kvs : list (string * value))
  (on_missing : list string -> M A) (k : M A) :
  (forall missing, returns (on_missing missing)) ->
  ((forall f, In f fields -> exists v, getitem (VDict kvs) f = Ok v) -> returns k) ->
  returns (if_missing fields (VDict kvs) on_missing k).
Proof.
  intros Hm Hk w. unfold if_missing, bind, ret, lift.
  destruct (missing_fields_dict fields kvs) as [missing [Hmissing _]].
  destruct (all_in_dict fields kvs) as (b & Hb & Hall).
  destruct (negb (truthy (VDict kvs))).
  - rewrite Hmissing. apply Hm.
  - rewrite Hb. destruct b; cbn [negb].
    + apply Hk. intros f Hf. destruct (Hall eq_refl f Hf) as [v Hv].
      exists v. cbn [getitem]. rewrite Hv. reflexivity.
    + rewrite Hmissing. apply Hm.
Qed.

Ltac returns_validated :=
  apply returns_if_missing_dict;
  [intro; apply returns_ret|intros _; apply returns_try_except; apply returns_ret].

Lemma returns_log_harvest {E : Env} (kvs : list (string * value)) :
  returns (agrioptimize.handle_log_harvest (VDict kvs)).
Proof.
  unfold agrioptimize.handle_log_harvest, agrioptimize.missing_body. returns_validated.
Qed.

Lemma returns_get_harvest_advice {E : Env} (kvs : list (string * value)) :
  returns (agrioptimize.handle_get_harvest_advice (VDict kvs)).
Proof.
  unfold agrioptimize.handle_get_harvest_advice.
  do 4 (eapply returns_bind_ok; [reflexivity|]).
  apply returns_try_except, returns_ret.
Qed.

Lemma returns_report_farm_qc_issue {E : Env} (kvs : list (string * value)) :
  returns (agrioptimize.handle_report_farm_qc_issue (VDict kvs)).
Proof.
  unfold agrioptimize.handle_report_farm_qc_issue, agrioptimize.missing_body.
  returns_validated.
Qed.

Lemma returns_schedule_farm_pickup {E : Env} (kvs : list (string * value)) :
  returns (agrioptimize.handle_schedule_farm_pickup (VDict kvs)).
Proof.
  unfold agrioptimize.handle_schedule_farm_pickup, agrioptimize.missing_body.
  returns_validated.
Qed.

Lemma returns_track_shipment_location {E : Env} (kvs : list (string * value)) :
  returns (logifresh.handle_track_shipment_location (VDict kvs)).
Proof.
  unfold logifresh.handle_track_shipment_location, logifresh.missing_body.
  returns_validated.
Qed.

Lemma returns_report_cold_chain_issue {E : Env} (kvs : list (string * value)) :
  returns (logifresh.handle_report_cold_chain_issue (VDict kvs)).
Proof.
  unfold logifresh.handle_report_cold_chain_issue, logifresh.missing_body.
  returns_validated.
Qed.

Lemma returns_check_warehouse_stock {E : Env} (kvs : list (string * value)) :
  returns (logifresh.handle_check_warehouse_stock (VDict kvs)).
Proof.
  unfold logifresh.handle_check_warehouse_stock, logifresh.missing_body.
  returns_validated.
Qed.

Lemma returns_optimize_delivery_route {E : Env} (kvs : list (string * value)) :
  returns (logifresh.handle_optimize_delivery_route (VDict kvs)).
Proof.
  unfold logifresh.handle_optimize_delivery_route, logifresh.missing_body.
  apply returns_if_missing_dict; [intro; apply returns_ret|].
  intros Hall.
  destruct (Hall "destination_locations") as [v Hv]; [cbn; auto|].
  eapply returns_bind_ok; [exact Hv|].
  destruct (negb (is_list v) || negb (truthy v)); [apply returns_ret|].
  apply returns_try_except, returns_ret.
Qed.

Lemma returns_schedule_farm_pickup_logistics {E : Env} (kvs : list (string * value)) :
  returns (logifresh.handle_schedule_farm_pickup_logistics (VDict kvs)).
Proof.
  unfold logifresh.handle_schedule_farm_pickup_logistics.
  apply returns_if_missing_dict; [intro; apply returns_ret|].
  intros _. destruct (get (VDict kvs) "farm_id"); apply returns_ret.
Qed.

Lemma returns_get_demand_forecast {E : Env} (kvs : list (string * value)) :
  returns (marketflow.handle_get_demand_forecast (VDict kvs)).
Proof.
  unfold marketflow.handle_get_demand_forecast, marketflow.missing_body.
  returns_validated.
Qed.

Lemma returns_get_market_prices {E : Env} (kvs : list (string * value)) :
  returns (marketflow.handle_get_market_prices (VDict kvs)).
Proof.
  unfold marketflow.handle_get_market_prices, marketflow.missing_body.
  returns_validated.
Qed.

Lemma returns_check_product_availability {E : Env} (kvs : list (string * value)) :
  returns (marketflow.handle_check_product_availability (VDict kvs)).
Proof.
  unfold marketflow.handle_check_product_availability, marketflow.missing_body.
  returns_validated.
Qed.

Lemma returns_place_purchase_order {E : Env} (kvs : list (string * value)) :
  returns (marketflow.handle_place_purchase_order (VDict kvs)).
Proof.
  unfold marketflow.handle_place_purchase_order, marketflow.missing_body.
  apply returns_if_missing_dict; [intro; apply returns_ret|].
  intros Hall.
  destruct (Hall "items") as [items Hitems]; [cbn; auto|].
  destruct (Hall "customer_id") as [customer_id Hcustomer]; [cbn; auto|].
  eapply returns_bind_ok; [exact Hitems|].
  destruct (negb (is_list items) || negb (truthy items)); [apply returns_ret|].
  apply returns_bind; [intros w; eexists; eexists; reflexivity|]. intros order_id.
  eapply returns_bind_ok; [exact Hcustomer|].
  apply returns_try_except, returns_ret.
Qed.

(** A handler that returns is answered with its dictionary and its
    status code. *)
Lemma respond_json (h : M (Z * value)) (w : world) :
  returns h ->
  exists (body : value) (code : Z) (w' : world), respond h w = (Ok (Json body, code), w').
Proof.
  intros H. unfold respond, bind, ret.
  destruct (H w) as ([status_code response_body] & w' & ->).
  exists response_body, status_code, w'. reflexivity.
Qed.

Lemma no_json_response_json (request : request) :
  exists (body : value) (code : Z), no_json_response request = (Json body, code).
Proof.
  unfold no_json_response.
  destruct (negb _); eexists; eexists; reflexivity.
Qed.

(** C4 (as amended): each of the three routed backends serves GET / as
    a health check: it runs [SELECT 1] on the warehouse and answers with
    a text, 200 when the query ran and 500 with the failure text when it
    raised; and it answers every POST whose body [get_json] reads as a
    JSON object, or as [None], with a (JSON body, status code) pair,
    whatever the path.  The standalone route function has no health check: every
    request that is not a POST, GET / included, is rejected with 405
    without reaching any service.  The four lookup functions have none
    either: they read neither the method nor the path, so GET / is
    treated as a data request; without a body the three lookups by name
    run one SELECT that lists the table, and the lookup by license
    answers 400. *)
Theorem C4_health_check {E : Env} :
  (forall (b : backend) (request : request) (w : world),
      method request = "GET" -> path request = "/" ->
      entry_point b request w = (Ok (health_check b), log (Query "SELECT 1" []) w))
  /\ (forall (request : request) (w : world),
         method request <> "POST" ->
         getoptimizedeliveryroute.handle_optimize_delivery_route request w
         = (Ok method_not_allowed, w))
  /\ (forall (f : lookup) (request : request) (m p : string) (w : world),
         lookup_function f (mkrequest m p (content_type request) (get_json request)) w
         = lookup_function f request w)
  /\ (forall (f : lookup) (request : request) (w : world),
         get_json request = Ok VNone ->
         match f with
         | Vehicle =>
             lookup_function f request w
             = (Ok (Dumps (VDict [("error",
                                   VStr "Missing or empty vehicle_license_no in request body")]),
                    400), w)
         | _ =>
             exists sql,
               snd (lookup_function f request w) = log (Query sql []) w
               /\ is_select sql = true
               /\ match client_query sql [] with
                  | Rows [] => fst (lookup_function f request w)
                               = Ok (Dumps (VDict [("matches", VList [])]), 200)
                  | Rows _ => status_of (lookup_function f request w) = Some 200
                              \/ status_of (lookup_function f request w) = Some 500
                  | QueryRaises _ _ => status_of (lookup_function f request w) = Some 500
                  end
         end)
  /\ (forall (b : backend) (request : request) (w : world),
         method request = "POST" ->
         (get_json request = Ok VNone \/ exists kvs, get_json request = Ok (VDict kvs)) ->
         exists (body : value) (code : Z) (w' : world),
           entry_point b request w = (Ok (Json body, code), w')).
Proof.
  split; [|split; [|split; [|split]]].
  - intros b request w Hm Hp. unfold health_check.
    destruct b; cbn [entry_point];
      [unfold agrioptimize.agrioptimize_backend_function
      |unfold logifresh.logifresh_backend_function
      |unfold marketflow.marketflow_backend_function];
      rewrite Hm, Hp; cbn [String.eqb Ascii.eqb Bool.eqb andb];
      unfold bind, run_query, ret;
      destruct (client_query "SELECT 1" []); reflexivity.
  - intros request w Hm. apply String.eqb_neq in Hm.
    unfold getoptimizedeliveryroute.handle_optimize_delivery_route, method_not_allowed.
    rewrite Hm. reflexivity.
  - intros f request m p w. destruct f; reflexivity.
  - intros f request w Hjson.
    destruct f; cbn [lookup_function];
      [unfold getproduct.lookup_product_by_name
      |unfold getfirmdetails.lookup_farm_by_name
      |unfold getcustomerdetails.lookup_customer_by_name
      |unfold getvehicledetails.lookup_vehicle_by_license; rewrite Hjson; reflexivity];
      (eexists; split; [apply (lookup_by_name_no_body _ _ _ _ _ _ _ w Hjson)|];
       split; [reflexivity|];
       apply (lookup_by_name_no_body _ _ _ _ _ _ _ w Hjson)).
  - intros b [m p ct json] w Hm Hjson. cbn [method get_json] in Hm, Hjson. subst m.
    destruct Hjson as [->|[kvs ->]].
    + change (mkrequest "POST" p ct (Ok VNone)) with (post p ct VNone).
      rewrite post_none. unfold ret.
      destruct (no_json_response_json (post p ct VNone)) as (body & code & ->).
      exists body, code, w. reflexivity.
    + change (mkrequest "POST" p ct (Ok (VDict kvs))) with (post p ct (VDict kvs)).
      destruct b;
        [rewrite (route_agrioptimize p ct (VDict kvs) eq_refl)
        |rewrite (route_logifresh p ct (VDict kvs) eq_refl)
        |rewrite (route_marketflow p ct (VDict kvs) eq_refl)];
        repeat match goal with
               | |- context [if String.eqb p ?s then _ else _] => destruct (String.eqb p s)
               end;
        lazymatch goal with
        | |- context [ret _ w] => eexists; eexists; eexists; reflexivity
        | |- context [respond _ w] => apply respond_json
        end.
      * apply returns_log_harvest.
      * apply returns_get_harvest_advice.
      * apply returns_report_farm_qc_issue.
      * apply returns_schedule_farm_pickup.
      * apply returns_track_shipment_location.
      * apply returns_report_cold_chain_issue.
      * apply returns_check_warehouse_stock.
      * apply returns_optimize_delivery_route.
      * apply returns_schedule_farm_pickup_logistics.
      * apply returns_get_demand_forecast.
      * apply returns_get_market_prices.
      * apply returns_check_product_availability.
      * apply returns_place_purchase_order.
Qed.

Lemma C4_health_check_witness :
  let E := example_env no_rows insert_ok no_http in
  entry_point Agrioptimize get_root w0
  = (Ok (Text "AgriOptimize AI Backend is running and connected to BigQuery!", 200),
     mkworld [Query "SELECT 1" []] 0 0).
Proof.
  cbv zeta.
  exact (proj1 (@C4_health_check (example_env no_rows insert_ok no_http))
               Agrioptimize get_root w0 eq_refl eq_refl).
Defined.

(** C4 (as stated) fails: the standalone route function rejects GET /
    with 405, and the product lookup treats it as a request for the
    list of products, which it reads from the warehouse.  Nor is every
    POST with a JSON body answered with a pair: on the body [5] the
    validation of /harvest raises [TypeError], which leaves the entry
    point. *)
Lemma C4_counterexample :
  let E := example_env no_rows insert_ok no_http in
  getoptimizedeliveryroute.handle_optimize_delivery_route get_root w0
  = (Ok (Dumps (VDict [("error", VStr "Method not allowed")]), 405), w0)
  /\ fst (getproduct.lookup_product_by_name get_root w0)
     = Ok (Dumps (VDict [("matches", VList [])]), 200)
  /\ (exists sql, trace (snd (getproduct.lookup_product_by_name get_root w0)) = [Query sql []]
                  /\ sql <> "SELECT 1")
  /\ entry_point Agrioptimize (post "/harvest" (Some "application/json") (VInt 5)) w0
     = (Raise TypeError, w0).
Proof.
  cbv zeta. split; [reflexivity|]. split; [vm_compute; reflexivity|].
  split; [|vm_compute; reflexivity].
  eexists. split; [vm_compute; reflexivity|]. discriminate.
Qed.

(** ** C3: where a route comes from *)

Definition is_query (ev : event) : bool :=
  match ev with Query _ _ => true | _ => false end.


(** [m] makes no call but those [p] allows. *)
Definition emits {A} (p : event -> bool) (m : M A) : Prop :=
  spec m (fun _ new => forallb p new = true).

Lemma added_app (w w1 w' : world) (l1 l2 : list event) :
  added w w1 l1 -> added w1 w' l2 -> added w w' (l1 ++ l2).
Proof. unfold added. intros H1 H2. rewrite H2, H1, app_assoc. reflexivity. Qed.

(** Sequencing, for a first step that reaches a service. *)
Lemma spec_bind {A B} (m : M A) (k : A -> M B) (P : result A -> list event -> Prop)
  (Q : result B -> list event -> Prop) :
  spec m P ->
  (forall e new, P (Raise e) new -> Q (Raise e) new) ->
  (forall a new1, P (Ok a) new1 -> spec (k a) (fun r new => Q r (new1 ++ new)%list)) ->
  spec (bind m k) Q.
Proof.
  intros Hm Hr Hk w. unfold bind.
  destruct (Hm w) as [new1 [Ha1 Hp]].
  destruct (m w) as [[a|e] w1]; cbn [fst snd] in *.
  - destruct (Hk a new1 Hp w1) as [new [Ha Hq]]. exists (new1 ++ new)%list.
    split; [exact (added_app _ _ _ _ _ Ha1 Ha)|exact Hq].
  - exists new1. split; [exact Ha1|exact (Hr e new1 Hp)].
Qed.



Section Emits.
Context {E : Env} (p : event -> bool).

Lemma emits_ret {A} (a : A) : emits p (ret a).
Proof. apply spec_ret. reflexivity. Qed.

Lemma emits_lift {A} (r : result A) : emits p (lift r).
Proof. apply spec_lift. reflexivity. Qed.

Lemma emits_raise {A} (e : exc) : emits p (@raise A e).
Proof. apply spec_raise. reflexivity. Qed.

Lemma emits_bind {A B} (m : M A) (k : A -> M B) :
  emits p m -> (forall a, emits p (k a)) -> emits p (bind m k).
Proof.
  intros Hm Hk.
  apply (spec_bind m k (fun _ new => forallb p new = true)); [exact Hm|auto|].
  intros a new1 H1. eapply spec_weaken; [apply Hk|].
  cbv beta. intros r new H. rewrite forallb_app, H1, H. reflexivity.
Qed.

Lemma emits_try_except {A} (body handler : M A) :
  emits p body -> emits p handler -> emits p (try_except body handler).
Proof.
  intros Hb Hh w. unfold try_except.
  destruct (Hb w) as [new1 [Ha1 H1]].
  destruct (body w) as [[a|e] w1]; cbn [fst snd] in *.
  - exists new1. auto.
  - destruct (Hh w1) as [new2 [Ha2 H2]]. exists (new1 ++ new2)%list.
    split; [exact (added_app _ _ _ _ _ Ha1 Ha2)|].
    rewrite forallb_app, H1, H2. reflexivity.
Qed.

Lemma emits_run_query (sql : string) (params : list query_param) :
  p (Query sql params) = true -> emits p (run_query sql params).
Proof.
  intros H w. exists [Query sql params]. split; [reflexivity|].
  cbn [forallb]. rewrite H. reflexivity.
Qed.

Lemma emits_http_get (url : string) (params : list (string * value)) :
  p (HttpGet url params) = true -> emits p (http_get url params).
Proof.
  intros H w. exists [HttpGet url params]. split; [reflexivity|].
  cbn [forallb]. rewrite H. reflexivity.
Qed.

End Emits.

Ltac emits_step :=
  first
    [ apply emits_ret | apply emits_lift | apply emits_raise
    | apply emits_run_query; reflexivity
    | apply emits_http_get; reflexivity
    | apply emits_try_except
    | apply emits_bind; [|intro]
    | match goal with
      | |- emits _ (if ?c then _ else _) => destruct c
      | |- emits _ (match ?x with _ => _ end) => destruct x
      end ].

(** *** What the retrieval steps of the standalone function retrieve

    None of them calls the routing service; what they return is read
    off the rows the warehouse answered, in the order of the rows. *)















(** *** The stops follow the destinations and the legs *)


Lemma getitem_field (v : value) (k : string) (x : value) :
  getitem v k = Ok x -> field k v = Some x.
Proof.
  destruct v as [| | | | | |d]; cbn [getitem field]; try discriminate.
  destruct (assoc k d); [intros [= ->]; reflexivity|discriminate].
Qed.







(** *** The answer re-packages the response of the routing service *)


(** The answer of a run is not a route. *)
Definition no_route (r : response) : Prop :=
  forall body, r = (Dumps body, 200) -> field "status" body <> Some (VStr "success").

Ltac no_route_side :=
  intros; cbv beta;
  let body := fresh "body" in let Heq := fresh "Heq" in let Hst := fresh "Hst" in
  intros body Heq Hst;
  first [discriminate Heq
        |injection Heq as <-; discriminate Hst
        |injection Heq as Heq; discriminate Heq
        |injection Heq; intros; discriminate].









(** A warehouse, a geocoder and a routing service that answer.  The legs
    carry their durations in the one form [parse_duration_string] reads
    to the end, with hours. *)
Definition routing_rows (sql : string) (params : list query_param) : query_outcome :=
  if str_contains "farm_location" sql then
    Rows [VDict [("farm_location", VStr "1 Mill Lane")]]
  else if str_contains "delivery_address" sql then
    Rows [VDict [("order_id", VStr "O-1"); ("delivery_address", VStr "2 High Street");
                 ("total_kg", VInt 1200)];
          VDict [("order_id", VStr "O-2"); ("delivery_address", VStr "3 Low Street");
                 ("total_kg", VInt 2500)]]
  else Rows [].

Definition geocoder_answer : value :=
  VDict [("status", VStr "OK");
         ("results",
          VList [VDict [("geometry",
                         VDict [("location", VDict [("lat", VInt 52);
                                                    ("lng", VInt 13)])])]])].

Definition routes_answer : value :=
  VDict [("routes",
          VList [VDict [("duration", VStr "900s"); ("distanceMeters", VInt 12000);
                        ("legs",
                         VList [VDict [("duration", VStr "0h 6m 40s");
                                       ("distanceMeters", VInt 5000)];
                                VDict [("duration", VStr "0h 8m 20s");
                                       ("distanceMeters", VInt 7000)]])]])].


Definition route_request : request :=
  mkrequest "POST" "/" (Some "application/json")
    (Ok (VDict [("origin_location_id", VStr "W-1");
                ("destination_order_ids", VList [VStr "O-1"; VStr "O-2"])])).


(** A warehouse with one vehicle and two customers. *)
Definition fleet_rows (sql : string) (params : list query_param) : query_outcome :=
  if str_contains "vehicles" sql then Rows [VDict [("vehicle_id", VStr "V-1")]]
  else if str_contains "customers" sql then
    Rows [VDict [("customer_id", VStr "C-1"); ("shipping_address", VStr "2 High Street")];
          VDict [("customer_id", VStr "C-2"); ("shipping_address", VStr "3 Low Street")]]
  else Rows [].

Definition delivery_request : value :=
  VDict [("destination_locations", VList [VStr "C-1"; VStr "C-2"]);
         ("vehicle_id", VStr "V-1")].


(** * Further properties of the handlers *)

(** ** Rejected requests *)

(** A status code of the 4xx class. *)
Definition rejected (code : Z) : bool := (400 <=? code) && (code <? 500).

(** A run that answered with a 4xx code called no service. *)
Definition untouched (r : result (Z * value)) (new : list event) : Prop :=
  forall code body, r = Ok (code, body) -> rejected code = true -> new = [].

Ltac untouched_side :=
  intros; cbv beta;
  let code := fresh "code" in let body := fresh "body" in
  let Heq := fresh "Heq" in let Hrej := fresh "Hrej" in
  intros code body Heq Hrej;
  first
    [ reflexivity
    | discriminate Heq
    | exfalso; injection Heq as <- <-;
      repeat match type of Hrej with
             | context [if ?c then _ else _] => destruct c
             end;
      vm_compute in Hrej; discriminate Hrej ].

Lemma untouched_log_harvest {E : Env} (data : value) :
  spec (agrioptimize.handle_log_harvest data) untouched.
Proof.
  unfold agrioptimize.handle_log_harvest, agrioptimize.missing_body.
  repeat spec_step untouched_side.
Qed.

Lemma untouched_get_harvest_advice {E : Env} (data : value) :
  spec (agrioptimize.handle_get_harvest_advice data) untouched.
Proof.
  unfold agrioptimize.handle_get_harvest_advice.
  repeat spec_step untouched_side.
Qed.

Lemma untouched_report_farm_qc_issue {E : Env} (data : value) :
  spec (agrioptimize.handle_report_farm_qc_issue data) untouched.
Proof.
  unfold agrioptimize.handle_report_farm_qc_issue, agrioptimize.missing_body.
  repeat spec_step untouched_side.
Qed.

Lemma untouched_schedule_farm_pickup {E : Env} (data : value) :
  spec (agrioptimize.handle_schedule_farm_pickup data) untouched.
Proof.
  unfold agrioptimize.handle_schedule_farm_pickup, agrioptimize.missing_body.
  repeat spec_step untouched_side.
Qed.

Lemma untouched_track_shipment_location {E : Env} (data : value) :
  spec (logifresh.handle_track_shipment_location data) untouched.
Proof.
  unfold logifresh.handle_track_shipment_location, logifresh.missing_body.
  repeat spec_step untouched_side.
Qed.

Lemma untouched_report_cold_chain_issue {E : Env} (data : value) :
  spec (logifresh.handle_report_cold_chain_issue data) untouched.
Proof.
  unfold logifresh.handle_report_cold_chain_issue, logifresh.missing_body.
  repeat spec_step untouched_side.
Qed.

Lemma untouched_check_warehouse_stock {E : Env} (data : value) :
  spec (logifresh.handle_check_warehouse_stock data) untouched.
Proof.
  unfold logifresh.handle_check_warehouse_stock, logifresh.missing_body.
  repeat spec_step untouched_side.
Qed.

Lemma untouched_optimize_delivery_route {E : Env} (data : value) :
  spec (logifresh.handle_optimize_delivery_route data) untouched.
Proof.
  unfold logifresh.handle_optimize_delivery_route, logifresh.missing_body.
  repeat spec_step untouched_side.
Qed.

Lemma untouched_schedule_farm_pickup_logistics {E : Env} (data : value) :
  spec (logifresh.handle_schedule_farm_pickup_logistics data) untouched.
Proof.
  unfold logifresh.handle_schedule_farm_pickup_logistics.
  repeat spec_step untouched_side.
Qed.

Lemma untouched_get_demand_forecast {E : Env} (data : value) :
  spec (marketflow.handle_get_demand_forecast data) untouched.
Proof.
  unfold marketflow.handle_get_demand_forecast, marketflow.missing_body.
  repeat spec_step untouched_side.
Qed.

Lemma untouched_get_market_prices {E : Env} (data : value) :
  spec (marketflow.handle_get_market_prices data) untouched.
Proof.
  unfold marketflow.handle_get_market_prices, marketflow.missing_body.
  repeat spec_step untouched_side.
Qed.

Lemma untouched_check_product_availability {E : Env} (data : value) :
  spec (marketflow.handle_check_product_availability data) untouched.
Proof.
  unfold marketflow.handle_check_product_availability, marketflow.missing_body.
  repeat spec_step untouched_side.
Qed.

Lemma untouched_place_purchase_order {E : Env} (data : value) :
  spec (marketflow.handle_place_purchase_order data) untouched.
Proof.
  unfold marketflow.handle_place_purchase_order, marketflow.missing_body.
  repeat spec_step untouched_side.
Qed.

(** The same for a whole request. *)
Definition untouched_response (r : result response) (new : list event) : Prop :=
  forall body code, r = Ok (body, code) -> rejected code = true -> new = [].

Lemma untouched_respond (h : M (Z * value)) :
  spec h untouched -> spec (respond h) untouched_response.
Proof.
  intros H w. destruct (H w) as [new [Ha Hq]]. exists new.
  unfold respond, bind, ret in *.
  destruct (h w) as [[[status_code response_body]|e] w1]; cbn [fst snd] in *.
  - split; [exact Ha|]. intros body code [= <- <-] Hrej. exact (Hq _ _ eq_refl Hrej).
  - split; [exact Ha|]. discriminate.
Qed.

Lemma untouched_entry_point {E : Env} (b : backend) (request : request) :
  spec (entry_point b request) untouched_response.
Proof.
  assert (Hleaf : forall r : response, spec (ret r) untouched_response).
  { intros r. apply spec_ret. intros body code _ _. reflexivity. }
  assert (Hhealth : forall up down : string,
             spec (out <- run_query "SELECT 1" [] ;;
                   match out with
                   | Rows _ => ret (Text up, 200)
                   | QueryRaises _ e => ret (Text (down ++ e), 500)
                   end) untouched_response).
  { intros up down. apply spec_bind_query.
    destruct (client_query "SELECT 1" []); apply spec_ret;
      intros body code [= <- <-] Hrej; discriminate Hrej. }
  destruct b; cbn [entry_point];
    [unfold agrioptimize.agrioptimize_backend_function
    |unfold logifresh.logifresh_backend_function, logifresh.get_request_data
    |unfold marketflow.marketflow_backend_function, marketflow.get_request_data];
    (destruct (String.eqb (method request) "GET" && String.eqb (path request) "/");
     [apply Hhealth|]);
    (destruct (String.eqb (method request) "POST"); [|apply Hleaf]);
    [apply spec_bind_lift; [intros e _ body code _ _; reflexivity|intros data _]
    |destruct (get_json request) as [data|e]; cbv zeta; [|apply Hleaf]
    |destruct (get_json request) as [data|e]; cbv zeta; [|apply Hleaf]];
    repeat match goal with
           | |- spec (if ?c then _ else _) _ => destruct c
           end;
    first [apply Hleaf|apply untouched_respond].
  - apply untouched_log_harvest.
  - apply untouched_get_harvest_advice.
  - apply untouched_report_farm_qc_issue.
  - apply untouched_schedule_farm_pickup.
  - apply untouched_track_shipment_location.
  - apply untouched_report_cold_chain_issue.
  - apply untouched_check_warehouse_stock.
  - apply untouched_optimize_delivery_route.
  - apply untouched_schedule_farm_pickup_logistics.
  - apply untouched_get_demand_forecast.
  - apply untouched_get_market_prices.
  - apply untouched_check_product_availability.
  - apply untouched_place_purchase_order.
Qed.

(** X1.  A request that a backend answers with a 4xx status code has
    reached no external service: the trace of the run is the trace it
    started from.  Validation comes before every query and every
    insert. *)
Theorem rejected_request_untouched {E : Env} (b : backend) (request : request)
  (w w' : world) (body : body) (code : Z) :
  entry_point b request w = (Ok (body, code), w') ->
  400 <= code < 500 ->
  trace w' = trace w.
Proof.
  intros Hrun Hcode.
  destruct (untouched_entry_point b request w) as [new [Ha Hq]].
  rewrite Hrun in Ha, Hq. cbn [fst snd] in Ha, Hq.
  assert (Hrej : rejected code = true).
  { unfold rejected. apply andb_true_intro. split; [apply Z.leb_le|apply Z.ltb_lt]; lia. }
  rewrite (Hq body code eq_refl Hrej) in Ha.
  unfold added in Ha. rewrite app_nil_r in Ha. exact Ha.
Qed.

(** An order with an item of quantity zero. *)
Definition empty_line_order : value :=
  VDict [("customer_id", VStr "C-1");
         ("items", VList [VDict [("product_id", VStr "P-1"); ("quantity_kg", VInt 10)];
                          VDict [("product_id", VStr "P-2"); ("quantity_kg", VInt 0)]])].

Lemma rejected_request_untouched_witness :
  let E := example_env no_rows insert_ok no_http in
  let run := entry_point Marketflow
               (post "/order" (Some "application/json") empty_line_order) w0 in
  status_of run = Some 400 /\ trace (snd run) = [].
Proof.
  intros E run. split; [vm_compute; reflexivity|].
  destruct run as [[[b code]|e] w'] eqn:Hrun; [|vm_compute in Hrun; discriminate Hrun].
  assert (Hcode : code = 400).
  { vm_compute in Hrun. injection Hrun as _ <- _. reflexivity. }
  exact (@rejected_request_untouched E Marketflow _ w0 w' b code Hrun
           ltac:(rewrite Hcode; lia)).
Defined.

(** ** Exceptions that escape a handler *)

(** X2.  Once the body is read, a backend answers whenever the body is
    a JSON object or [None]: no exception leaves the entry point,
    whatever the fields hold and whatever the warehouse does.  Reading
    the body is the one step that can fail before: an exception of
    [get_json] (on a body nested too deep, say) leaves the agrioptimize
    entry point, which calls it unguarded, while the logifresh and
    marketflow entry points, which call it in a [try], answer 415 or 400
    as they do without a body. *)
Theorem object_body_never_raises {E : Env} :
  (forall (b : backend) (request : request) (w : world),
     (get_json request = Ok VNone \/ exists kvs, get_json request = Ok (VDict kvs)) ->
     exists (response : response) (w' : world),
       entry_point b request w = (Ok response, w'))
  /\ (forall (request : request) (e : exc) (w : world),
        method request = "POST" ->
        get_json request = Raise e ->
        entry_point Agrioptimize request w = (Raise e, w))
  /\ (forall (b : backend) (request : request) (e : exc) (w : world),
        b <> Agrioptimize ->
        method request = "POST" ->
        get_json request = Raise e ->
        entry_point b request w = (Ok (no_json_response request), w)).
Proof.
  split; [|split].
  - intros b request w Hbody. revert w. change (returns (entry_point b request)).
    assert (Hhealth : forall up down : string,
               returns (out <- run_query "SELECT 1" [] ;;
                        match out with
                        | Rows _ => ret (Text up, 200)
                        | QueryRaises _ e => ret (Text (down ++ e), 500)
                        end)).
    { intros up down w. unfold bind, run_query, ret.
      destruct (client_query "SELECT 1" []); eexists; eexists; reflexivity. }
    destruct Hbody as [Hjson|[kvs Hjson]].
    + destruct b; cbn [entry_point];
        [unfold agrioptimize.agrioptimize_backend_function
        |unfold logifresh.logifresh_backend_function, logifresh.get_request_data
        |unfold marketflow.marketflow_backend_function, marketflow.get_request_data];
        (destruct (String.eqb (method request) "GET" && String.eqb (path request) "/");
         [apply Hhealth|]);
        (destruct (String.eqb (method request) "POST"); [|apply returns_ret]);
        rewrite Hjson;
        [eapply returns_bind_ok; [reflexivity|]|cbv zeta|cbv zeta];
        apply returns_ret.
    + destruct b; cbn [entry_point];
        [unfold agrioptimize.agrioptimize_backend_function
        |unfold logifresh.logifresh_backend_function, logifresh.get_request_data
        |unfold marketflow.marketflow_backend_function, marketflow.get_request_data];
        (destruct (String.eqb (method request) "GET" && String.eqb (path request) "/");
         [apply Hhealth|]);
        (destruct (String.eqb (method request) "POST"); [|apply returns_ret]);
        rewrite Hjson;
        [eapply returns_bind_ok; [reflexivity|]|cbv zeta|cbv zeta];
        cbv beta; cbn [is_none];
        repeat match goal with
               | |- returns (if ?c then _ else _) => destruct c
               end;
        lazymatch goal with
        | |- returns (ret _) => apply returns_ret
        | |- returns (respond _) => apply returns_respond
        end.
      * apply returns_log_harvest.
      * apply returns_get_harvest_advice.
      * apply returns_report_farm_qc_issue.
      * apply returns_schedule_farm_pickup.
      * apply returns_track_shipment_location.
      * apply returns_report_cold_chain_issue.
      * apply returns_check_warehouse_stock.
      * apply returns_optimize_delivery_route.
      * apply returns_schedule_farm_pickup_logistics.
      * apply returns_get_demand_forecast.
      * apply returns_get_market_prices.
      * apply returns_check_product_availability.
      * apply returns_place_purchase_order.
  - intros request e w Hmethod Hjson. cbn [entry_point].
    unfold agrioptimize.agrioptimize_backend_function, bind, lift.
    rewrite Hmethod, Hjson. reflexivity.
  - intros b request e w Hb Hmethod Hjson.
    destruct b; [contradiction|..]; cbn [entry_point];
      [unfold logifresh.logifresh_backend_function, logifresh.get_request_data
      |unfold marketflow.marketflow_backend_function, marketflow.get_request_data];
      rewrite Hmethod, Hjson; reflexivity.
Qed.

Lemma object_body_never_raises_witness :
  let E := example_env no_rows insert_ok no_http in
  (exists (response : response) (w' : world),
     entry_point Agrioptimize
       (post "/advice/harvest" (Some "application/json") (VDict [("farm_id", VInt 7)])) w0
     = (Ok response, w'))
  /\ entry_point Agrioptimize
       (mkrequest "POST" "/harvest" (Some "application/json") (Raise RecursionError)) w0
     = (Raise RecursionError, w0)
  /\ entry_point Logifresh
       (mkrequest "POST" "/shipment/status" (Some "application/json")
                  (Raise RecursionError)) w0
     = (Ok (Json (dict_error "Invalid JSON body received."), 400), w0).
Proof.
  intros E. split; [|split].
  - apply (proj1 (@object_body_never_raises E) Agrioptimize
             (post "/advice/harvest" (Some "application/json") (VDict [("farm_id", VInt 7)]))
             w0).
    right. eexists. reflexivity.
  - exact (proj1 (proj2 (@object_body_never_raises E))
             (mkrequest "POST" "/harvest" (Some "application/json") (Raise RecursionError))
             RecursionError w0 eq_refl eq_refl).
  - exact (proj2 (proj2 (@object_body_never_raises E)) Logifresh
             (mkrequest "POST" "/shipment/status" (Some "application/json")
                        (Raise RecursionError))
             RecursionError w0 ltac:(discriminate) eq_refl eq_refl).
Defined.

(** The body is a number or a boolean. *)
Definition is_scalar (data : value) : bool :=
  match data with
  | VInt _ | VBool _ | VFloat _ => true
  | _ => false
  end.

(** X3.  The validation of a handler is outside its [try]: when the body
    is a non-zero number or [true], the membership test [field in data]
    raises [TypeError], and the exception leaves the entry point of
    every route that has required fields, before any call is made. *)
Theorem scalar_body_raises {E : Env} (b : backend) (path : string) (ct : option string)
  (data : value) (fields : list string) (w : world) :
  required_fields b path = Some fields ->
  is_scalar data = true ->
  truthy data = true ->
  entry_point b (post path ct data) w = (Raise TypeError, w).
Proof.
  intros Hfields Hscalar Htruthy.
  assert (Hnone : is_none data = false)
    by (destruct data; [discriminate Hscalar|reflexivity..]).
  destruct b; cbn [required_fields] in Hfields; path_cases Hfields;
    try discriminate Hfields;
    rewrite ?(route_agrioptimize _ _ _ Hnone), ?(route_logifresh _ _ _ Hnone),
            ?(route_marketflow _ _ _ Hnone);
    cbn [String.eqb Ascii.eqb Bool.eqb];
    unfold respond, agrioptimize.handle_log_harvest,
      agrioptimize.handle_report_farm_qc_issue, agrioptimize.handle_schedule_farm_pickup,
      logifresh.handle_track_shipment_location, logifresh.handle_report_cold_chain_issue,
      logifresh.handle_check_warehouse_stock, logifresh.handle_optimize_delivery_route,
      logifresh.handle_schedule_farm_pickup_logistics,
      marketflow.handle_get_demand_forecast, marketflow.handle_get_market_prices,
      marketflow.handle_check_product_availability, marketflow.handle_place_purchase_order,
      if_missing, bind, ret, lift;
    rewrite Htruthy; cbn [negb all_in];
    destruct data; try discriminate Hscalar; reflexivity.
Qed.

Lemma scalar_body_raises_witness :
  let E := example_env no_rows insert_ok no_http in
  entry_point Agrioptimize (post "/harvest" (Some "application/json") (VInt 5)) w0
  = (Raise TypeError, w0).
Proof.
  intros E.
  exact (@scalar_body_raises E Agrioptimize "/harvest" (Some "application/json") (VInt 5)
           _ w0 eq_refl eq_refl eq_refl).
Defined.

(** ** What a 200 of a writing route means *)

Lemma insert_result_accepted (table_id : string) (out : insert_outcome) (v : value) :
  insert_result table_id out = (true, v) -> out = InsertReturns [].
Proof.
  unfold insert_result.
  destruct out as [[|first rest]|[| |] msg]; try discriminate; [reflexivity|].
  destruct (errors first) as [[|[message|] others]|]; discriminate.
Qed.

(** The run inserted one row, the warehouse accepted it, and the answer
    carries the identifier of that row. *)
Definition logged_as {E : Env} (table id_field : string)
  (r : result (Z * value)) (new : list event) : Prop :=
  forall body, r = Ok (200, body) ->
    exists (id : string) (row : value),
      new = [InsertRowsJson table [row]]
      /\ client_insert_rows_json table [row] = InsertReturns []
      /\ field id_field body = Some (VStr id)
      /\ field id_field row = Some (VStr id).

Ltac logged_side :=
  intros; cbv beta;
  let body := fresh "body" in let Heq := fresh "Heq" in
  intros body Heq;
  first
    [ discriminate Heq
    | injection Heq as <-;
      eexists; eexists;
      split; [reflexivity|];
      split; [eapply insert_result_accepted; eassumption|];
      split; reflexivity ].

Lemma logged_log_harvest {E : Env} (data : value) :
  spec (agrioptimize.handle_log_harvest data)
       (logged_as agrioptimize.HARVEST_RECORDS_TABLE "harvest_id").
Proof.
  unfold agrioptimize.handle_log_harvest, agrioptimize.missing_body.
  repeat spec_step logged_side.
Qed.

Lemma logged_report_farm_qc_issue {E : Env} (data : value) :
  spec (agrioptimize.handle_report_farm_qc_issue data)
       (logged_as agrioptimize.FARM_QC_ISSUES_TABLE "issue_id").
Proof.
  unfold agrioptimize.handle_report_farm_qc_issue, agrioptimize.missing_body.
  repeat spec_step logged_side.
Qed.

Lemma logged_report_cold_chain_issue {E : Env} (data : value) :
  spec (logifresh.handle_report_cold_chain_issue data)
       (logged_as logifresh.COLD_CHAIN_READINGS_TABLE "reading_id").
Proof.
  unfold logifresh.handle_report_cold_chain_issue, logifresh.missing_body.
  repeat spec_step logged_side.
Qed.

(** The identifier a route returns for the row it writes. *)
Definition id_field (b : backend) (path : string) : option string :=
  match b with
  | Agrioptimize =>
      if String.eqb path "/harvest" then Some "harvest_id"
      else if String.eqb path "/issue/farm" then Some "issue_id"
      else None
  | Logifresh => if String.eqb path "/issue/coldchain" then Some "reading_id" else None
  | Marketflow => None
  end.

Lemma logged_respond {E : Env} (h : M (Z * value)) (table id_field : string)
  (w w' : world) (body : value) :
  spec h (logged_as table id_field) ->
  respond h w = (Ok (Json body, 200), w') ->
  exists (id : string) (row : value),
    trace w' = (trace w ++ [InsertRowsJson table [row]])%list
    /\ client_insert_rows_json table [row] = InsertReturns []
    /\ field id_field body = Some (VStr id)
    /\ field id_field row = Some (VStr id).
Proof.
  intros H Hrun. destruct (H w) as [new [Ha Hq]].
  unfold respond, bind, ret in Hrun.
  destruct (h w) as [[[status_code response_body]|e] w1]; [|discriminate Hrun].
  injection Hrun as -> -> ->. cbn [fst snd] in Ha, Hq.
  destruct (Hq body eq_refl) as (id & row & -> & Haccepted & Hbody & Hrow).
  exists id, row. auto.
Qed.

(** X4.  When POST /harvest, /issue/farm or /issue/coldchain is
    answered with 200, the run made exactly one call, the insert of one
    row into the table of the route; the warehouse accepted it without
    errors; and the identifier in the answer is the identifier stored in
    that row. *)
Theorem answered_id_is_stored {E : Env} (b : backend) (path : string) (ct : option string)
  (data : value) (table id : string) (w w' : world) (body : value) :
  insert_table b path = Some table ->
  id_field b path = Some id ->
  entry_point b (post path ct data) w = (Ok (Json body, 200), w') ->
  exists (uuid : string) (row : value),
    trace w' = (trace w ++ [InsertRowsJson table [row]])%list
    /\ client_insert_rows_json table [row] = InsertReturns []
    /\ field id body = Some (VStr uuid)
    /\ field id row = Some (VStr uuid).
Proof.
  intros Htable Hid Hrun.
  destruct (is_none data) eqn:Hnone.
  { apply is_none_eq in Hnone. subst data. exfalso.
    destruct (post_none_run b path ct w) as (body' & code & Hnull & Hcode).
    rewrite Hnull in Hrun. injection Hrun as _ -> _. destruct Hcode; discriminate. }
  destruct b; cbn [insert_table id_field] in Htable, Hid; path_cases Hid;
    try discriminate Hid;
    cbn [String.eqb Ascii.eqb Bool.eqb] in Htable;
    injection Htable as <-; injection Hid as <-;
    rewrite ?(route_agrioptimize _ _ _ Hnone), ?(route_logifresh _ _ _ Hnone) in Hrun;
    cbn [String.eqb Ascii.eqb Bool.eqb] in Hrun.
  - exact (logged_respond _ _ _ _ _ _ (logged_log_harvest data) Hrun).
  - exact (logged_respond _ _ _ _ _ _ (logged_report_farm_qc_issue data) Hrun).
  - exact (logged_respond _ _ _ _ _ _ (logged_report_cold_chain_issue data) Hrun).
Qed.

Lemma answered_id_is_stored_witness :
  let E := example_env no_rows insert_ok no_http in
  let run := entry_point Agrioptimize
               (post "/harvest" (Some "application/json") harvest_request) w0 in
  exists (body row : value),
    fst run = Ok (Json body, 200)
    /\ trace (snd run) = [InsertRowsJson agrioptimize.HARVEST_RECORDS_TABLE [row]]
    /\ field "harvest_id" body = field "harvest_id" row.
Proof.
  intros E run.
  destruct run as [[[[s|body|v] code]|e] w'] eqn:Hrun;
    try (vm_compute in Hrun; discriminate Hrun).
  assert (Hcode : code = 200) by (vm_compute in Hrun; injection Hrun as _ <- _; reflexivity).
  subst code.
  destruct (@answered_id_is_stored E Agrioptimize "/harvest" (Some "application/json")
              harvest_request _ _ w0 w' body eq_refl eq_refl Hrun)
    as (uuid & row & Htrace & _ & Hbody & Hrow).
  exists body, row. split; [reflexivity|]. split; [exact Htrace|].
  rewrite Hbody, Hrow. reflexivity.
Defined.

(** ** The lines of a purchase order *)

(** [line['line_item_total']] of a row to insert. *)
Definition line_total (row : value) : float :=
  match field "line_item_total" row with
  | Some (VFloat x) => x
  | _ => 0%float
  end.

(** The rows [lines] belong to the order [order_id], and [total] is the
    sum of their totals on top of [start], in the order of the loop. *)
Definition lines_of (order_id : string) (start : float) (lines : list value)
  (total : float) : Prop :=
  Forall (fun line => field "order_id" line = Some (VStr order_id)) lines
  /\ total = fold_left (fun acc line => (acc + line_total line)%float) lines start.

(** What the loop body leaves for one item: an early return is a 400;
    a line belongs to the order and carries its own total. *)
Definition item_checked (order_id : string) (out : marketflow.item_outcome) : Prop :=
  match out with
  | marketflow.Return status_code _ => status_code = 400
  | marketflow.Line row line_item_total =>
      field "order_id" row = Some (VStr order_id) /\ line_total row = line_item_total
  end.

Lemma order_item_line {E : Env} (order_id : string) (item : value) :
  spec (marketflow.order_item order_id item)
       (fun r new => new = [] /\ forall out, r = Ok out -> item_checked order_id out).
Proof.
  unfold marketflow.order_item.
  repeat spec_step ltac:(intros; cbv beta; split;
                         [reflexivity
                         |let out := fresh "out" in let Hout := fresh "Hout" in
                          intros out Hout;
                          first [discriminate Hout
                                |injection Hout as <-;
                                 first [reflexivity|split; reflexivity]]]).
Qed.

(** What the loop leaves: an early return is a 400; otherwise one line
    was added per item. *)
Definition items_checked (order_id : string) (items rows : list value) (start : float)
  (collected : Z * value + list value * float) : Prop :=
  match collected with
  | inl (status_code, _) => status_code = 400
  | inr (rows', total') =>
      exists lines,
        rows' = (rows ++ lines)%list
        /\ List.length lines = List.length items
        /\ lines_of order_id start lines total'
  end.

Lemma order_items_lines {E : Env} (order_id : string) (items : list value) :
  forall (rows : list value) (total_amount : float),
    spec (marketflow.order_items order_id items rows total_amount)
         (fun r new =>
            new = [] /\
            forall collected, r = Ok collected ->
                              items_checked order_id items rows total_amount collected).
Proof.
  induction items as [|item rest IH]; intros rows total_amount;
    cbn [marketflow.order_items].
  - apply spec_ret. split; [reflexivity|].
    intros collected [= <-]. exists []. rewrite app_nil_r.
    split; [reflexivity|]. split; [reflexivity|]. split; [constructor|reflexivity].
  - eapply spec_bind_post;
      [apply (order_item_line order_id item)|intros e; split; [reflexivity|discriminate]|].
    cbv beta. intros [status_code response_body|row line_item_total] Hline.
    + apply spec_ret. split; [reflexivity|]. intros collected [= <-]. exact Hline.
    + destruct Hline as [Hid Htotal].
      eapply spec_weaken; [apply IH|].
      cbv beta. intros r new [-> H]. split; [reflexivity|].
      intros [[status_code response_body]|[rows' total']] Hr;
        specialize (H _ Hr); cbn [items_checked] in *; [exact H|].
      destruct H as (lines & -> & Hlen & Hall & ->).
      exists (row :: lines). rewrite <- app_assoc.
      split; [reflexivity|]. split; [cbn [List.length]; rewrite Hlen; reflexivity|].
      split; [constructor; assumption|].
      cbn [fold_left]. rewrite Htotal. reflexivity.
Qed.

(** The outcome of the two inserts of an order. *)
Definition accepted {E : Env} (table_id : string) (rows : list value) : bool :=
  fst (insert_result table_id (client_insert_rows_json table_id rows)).

(** What a run of [/order] that reached the warehouse did. *)
Definition order_placed {E : Env} (data : value) (r : result (Z * value))
  (new : list event) : Prop :=
  (inserts new = [] /\ forall body, r <> Ok (200, body)) \/
  exists (customer_sql : string) (customer_params : list query_param)
         (order_id : string) (order : value) (lines items : list value) (total : float),
    new = [Query customer_sql customer_params;
           InsertRowsJson marketflow.ORDERS_TABLE [order];
           InsertRowsJson marketflow.ORDER_ITEMS_TABLE lines]
    /\ getitem data "items" = Ok (VList items)
    /\ items <> []
    /\ List.length lines = List.length items
    /\ field "order_id" order = Some (VStr order_id)
    /\ lines_of order_id 0%float lines total
    /\ field "total_amount" order = Some (VFloat (round2 total))
    /\ ((accepted marketflow.ORDERS_TABLE [order]
         && accepted marketflow.ORDER_ITEMS_TABLE lines = true
         /\ r = Ok (200, VDict [("status", VStr "success"); ("order_id", VStr order_id);
                                ("message", VStr "Purchase order placed successfully.");
                                ("total_amount", VFloat total)]))
        \/ (accepted marketflow.ORDERS_TABLE [order]
            && accepted marketflow.ORDER_ITEMS_TABLE lines = false
            /\ exists body, r = Ok (500, body)
                            /\ field "message" body
                               = Some (VStr "Failed to place purchase order."))).

Ltac no_order :=
  intros; cbv beta; left;
  split; [reflexivity|let b := fresh "b" in let H := fresh "H" in
                      intros b H; discriminate H].

Lemma order_placed_spec {E : Env} (data : value) :
  spec (marketflow.handle_place_purchase_order data) (order_placed data).
Proof.
  unfold marketflow.handle_place_purchase_order, marketflow.missing_body.
  apply spec_if_missing; [intro; apply spec_ret; no_order|no_order|].
  apply spec_bind_lift; [no_order|]. intros items Hitems.
  destruct (negb (is_list items) || negb (truthy items)) eqn:Hlist;
    [apply spec_ret; no_order|].
  destruct items as [| | | | |l|]; try discriminate Hlist.
  assert (Hne : l <> []) by (intros ->; discriminate Hlist).
  apply spec_bind_silent; [apply silent_new_uuid|no_order|].
  intros order_id.
  apply spec_bind_lift; [no_order|]. intros customer_id Hcustomer.
  cbv zeta.
  apply spec_try_ret.
  2: { intros e new [[Hnone _]|H].
       - left. split; [exact Hnone|]. intros b Hb. discriminate Hb.
       - destruct H as (? & ? & ? & ? & ? & ? & ? & _ & _ & _ & _ & _ & _ & _
                        & [[_ H]|[_ H]]);
           [discriminate H|destruct H as (? & H & _); discriminate H]. }
  eapply spec_bind_post;
    [apply (order_items_lines order_id l [] 0%float)|no_order|].
  cbv beta. intros [[status_code response_body]|[order_items_to_insert total_amount]] Hlines.
  - cbn [items_checked] in Hlines. subst status_code.
    apply spec_ret. no_order.
  - destruct Hlines as (lines & Hrows & Hlen & Hof).
    cbn [app] in Hrows. subst order_items_to_insert.
    apply spec_bind_fetch. cbv beta.
    destruct (fetch_result (client_query _ _)) as [success_cust customer_info].
    apply spec_bind_silent;
      [destruct (success_cust && truthy customer_info); silence|no_order|].
    intros delivery_address.
    apply spec_bind_lift; [no_order|]. intros requested Hrequested.
    apply spec_bind_lift; [no_order|]. intros address Haddress.
    apply spec_bind_lift; [no_order|]. intros status Hstatus.
    apply spec_bind_insert. cbv beta.
    destruct (insert_result marketflow.ORDERS_TABLE _) as [success_order errors_order]
      eqn:Horder.
    apply spec_bind_insert. cbv beta.
    destruct (insert_result marketflow.ORDER_ITEMS_TABLE _) as [success_items errors_items]
      eqn:Hitems_inserted.
    assert (Ho : accepted marketflow.ORDERS_TABLE
                   [VDict [("order_id", VStr order_id); ("customer_id", customer_id);
                           ("order_date", VStr (date_isoformat today));
                           ("delivery_date_requested", requested);
                           ("delivery_address", address); ("status", status);
                           ("total_amount", VFloat (round2 total_amount))]]
                 = success_order).
    { unfold accepted. rewrite Horder. reflexivity. }
    assert (Hi : accepted marketflow.ORDER_ITEMS_TABLE lines = success_items).
    { unfold accepted. rewrite Hitems_inserted. reflexivity. }
    destruct (success_order && success_items) eqn:Hboth; apply spec_ret; right;
      (eexists; eexists; exists order_id; eexists; exists lines, l, total_amount;
       split; [reflexivity|]; split; [exact Hitems|]; split; [exact Hne|];
       split; [exact Hlen|];
       split; [reflexivity|]; split; [exact Hof|]; split; [reflexivity|];
       rewrite Ho, Hi, Hboth).
    + left. split; reflexivity.
    + right. split; [reflexivity|]. eexists. split; reflexivity.
Qed.

(** X5.  An order answered with 200 has been written in full: after
    the customer lookup the run inserted one order row and one line per
    item of the request, in that order, and the warehouse accepted both
    inserts; every line carries the order's identifier, which is the one
    answered; the total answered is the sum of the line totals, taken in
    the order of the items, and the order row stores that total rounded
    to two decimals. *)
Theorem order_written_in_full {E : Env} (ct : option string) (data body : value)
  (w w' : world) (new : list event) :
  entry_point Marketflow (post "/order" ct data) w = (Ok (Json body, 200), w') ->
  added w w' new ->
  exists (customer_sql : string) (customer_params : list query_param)
         (order_id : string) (order : value) (lines items : list value) (total : float),
    new = [Query customer_sql customer_params;
           InsertRowsJson marketflow.ORDERS_TABLE [order];
           InsertRowsJson marketflow.ORDER_ITEMS_TABLE lines]
    /\ client_insert_rows_json marketflow.ORDERS_TABLE [order] = InsertReturns []
    /\ client_insert_rows_json marketflow.ORDER_ITEMS_TABLE lines = InsertReturns []
    /\ getitem data "items" = Ok (VList items)
    /\ List.length lines = List.length items
    /\ field "order_id" body = Some (VStr order_id)
    /\ field "order_id" order = Some (VStr order_id)
    /\ Forall (fun line => field "order_id" line = Some (VStr order_id)) lines
    /\ field "total_amount" body = Some (VFloat total)
    /\ total = fold_left (fun acc line => (acc + line_total line)%float) lines 0%float
    /\ field "total_amount" order = Some (VFloat (round2 total)).
Proof.
  intros Hrun Hadded.
  destruct (is_none data) eqn:Hbody.
  { apply is_none_eq in Hbody. subst data. exfalso.
    destruct (post_none_run Marketflow "/order" ct w) as (body' & code & Hnull & Hcode).
    rewrite Hnull in Hrun. injection Hrun as _ -> _. destruct Hcode; discriminate. }
  rewrite (route_marketflow _ _ _ Hbody) in Hrun.
  cbn [String.eqb Ascii.eqb Bool.eqb] in Hrun.
  destruct (order_placed_spec data w) as [new' [Ha Hq]].
  unfold respond, bind, ret in Hrun.
  destruct (marketflow.handle_place_purchase_order data w)
    as [[[status_code response_body]|e] w1]; [|discriminate Hrun].
  injection Hrun as -> -> ->. cbn [fst snd] in Ha, Hq.
  rewrite (added_unique _ _ _ _ Hadded Ha).
  destruct Hq as [Hnone|Hq].
  - destruct Hnone as [_ Hnot]. exfalso. exact (Hnot body eq_refl).
  - destruct Hq as (sql & params & order_id & order & lines & items & total
                    & -> & Hitems & _ & Hlen & Horder & [Hall Htotal] & Hstored & Hout).
    destruct Hout as [[Hacc Hr]|[_ (b & Hr & _)]]; [|discriminate Hr].
    injection Hr as ->.
    apply andb_prop in Hacc. destruct Hacc as [Ho Hi].
    unfold accepted in Ho, Hi.
    exists sql, params, order_id, order, lines, items, total.
    split; [reflexivity|].
    split; [destruct (insert_result marketflow.ORDERS_TABLE _) eqn:H1;
            cbn [fst] in Ho; subst; exact (insert_result_accepted _ _ _ H1)|].
    split; [destruct (insert_result marketflow.ORDER_ITEMS_TABLE _) eqn:H2;
            cbn [fst] in Hi; subst; exact (insert_result_accepted _ _ _ H2)|].
    repeat (split; [first [assumption|reflexivity]|]).
    exact Hstored.
Qed.

Lemma order_written_in_full_witness :
  let E := example_env no_rows insert_ok no_http in
  let run := entry_point Marketflow
               (post "/order" (Some "application/json") two_items_order) w0 in
  exists (body : value) (order_id : string) (order : value) (lines : list value),
    fst run = Ok (Json body, 200)
    /\ inserts (trace (snd run))
       = [(marketflow.ORDERS_TABLE, [order]); (marketflow.ORDER_ITEMS_TABLE, lines)]
    /\ List.length lines = 2%nat
    /\ field "order_id" body = Some (VStr order_id)
    /\ Forall (fun line => field "order_id" line = Some (VStr order_id)) lines.
Proof.
  intros E run.
  destruct run as [[[[s|body|v] code]|e] w'] eqn:Hrun;
    try (vm_compute in Hrun; discriminate Hrun).
  assert (Hcode : code = 200) by (vm_compute in Hrun; injection Hrun as _ <- _; reflexivity).
  subst code.
  destruct (@order_written_in_full E (Some "application/json") two_items_order body
              w0 w' (trace w') Hrun eq_refl)
    as (sql & params & order_id & order & lines & items & total
        & Hnew & _ & _ & Hitems & Hlen & Hbody & _ & Hall & _).
  exists body, order_id, order, lines. cbn [fst snd].
  split; [reflexivity|]. split; [rewrite Hnew; reflexivity|].
  split; [rewrite Hlen; injection Hitems as <-; reflexivity|].
  split; [exact Hbody|exact Hall].
Defined.

(** X6.  The two inserts of an order are not tied together: a run of
    POST /order either inserts nothing (and then does not answer 200),
    or hands to the warehouse the order row and then the lines, whatever
    the outcome of the first insert; the answer is 200 when both were
    accepted and 500 "Failed to place purchase order." otherwise, and
    nothing is taken back. *)
Theorem order_inserts_not_tied {E : Env} (ct : option string) (data : value) (w : world) :
  let run := entry_point Marketflow (post "/order" ct data) w in
  exists new,
    added w (snd run) new
    /\ ((inserts new = [] /\ status_of run <> Some 200)
        \/ exists (order : value) (lines : list value),
             inserts new = [(marketflow.ORDERS_TABLE, [order]);
                            (marketflow.ORDER_ITEMS_TABLE, lines)]
             /\ lines <> []
             /\ if accepted marketflow.ORDERS_TABLE [order]
                   && accepted marketflow.ORDER_ITEMS_TABLE lines
                then status_of run = Some 200
                else exists body,
                       fst run = Ok (Json body, 500)
                       /\ field "message" body
                          = Some (VStr "Failed to place purchase order.")).
Proof.
  cbv zeta.
  destruct (is_none data) eqn:Hbody.
  { apply is_none_eq in Hbody. subst data.
    destruct (post_none_run Marketflow "/order" ct w) as (body' & code & -> & Hcode).
    exists []. split; [apply added_nil|]. left. split; [reflexivity|].
    unfold status_of. cbn [fst]. intros [= ->]. destruct Hcode; discriminate. }
  rewrite (route_marketflow _ _ _ Hbody). cbn [String.eqb Ascii.eqb Bool.eqb].
  destruct (order_placed_spec data w) as [new [Ha Hq]]. exists new.
  unfold respond, bind, ret, status_of.
  destruct (marketflow.handle_place_purchase_order data w)
    as [[[status_code response_body]|e] w1]; cbn [fst snd] in *; (split; [exact Ha|]).
  - destruct Hq as [[Hnone Hnot]|Hq].
    + left. split; [exact Hnone|]. intros [= ->]. exact (Hnot _ eq_refl).
    + destruct Hq as (sql & params & order_id & order & lines & items & total
                      & -> & Hitems & Hne & Hlen & _ & _ & _ & Hout).
      right. exists order, lines. split; [reflexivity|].
      split.
      { intros ->. destruct items; [exact (Hne eq_refl)|discriminate Hlen]. }
      destruct Hout as [[-> Hr]|[-> (body & Hr & Hmessage)]]; injection Hr as -> ->.
      * reflexivity.
      * exists body. split; [reflexivity|exact Hmessage].
  - destruct Hq as [[Hnone _]|Hq].
    + left. split; [exact Hnone|discriminate].
    + destruct Hq as (? & ? & ? & ? & ? & ? & ? & _ & _ & _ & _ & _ & _ & _
                      & [[_ H]|[_ H]]);
        [discriminate H|destruct H as (? & H & _); discriminate H].
Qed.

(** ** The simulated route visits every customer found *)

From Stdlib Require Import Permutation.

Lemma set_nth_length {A} (l : list A) :
  forall (i : nat) (a : A), List.length (set_nth i a l) = List.length l.
Proof.
  induction l as [|x l IH]; intros [|i] a; cbn [set_nth List.length]; auto.
Qed.

Lemma set_nth_middle {A} (l1 l2 : list A) (y v : A) :
  set_nth (List.length l1) v (l1 ++ y :: l2) = (l1 ++ v :: l2)%list.
Proof.
  induction l1 as [|x l1 IH]; cbn [set_nth List.length app]; [reflexivity|].
  rewrite IH. reflexivity.
Qed.

(** Two positions of a list, the first before the second. *)
Lemma split_two {A} (x : list A) (d : A) (i j : nat) :
  (i < j < List.length x)%nat ->
  exists l1 l2 l3,
    x = (l1 ++ nth i x d :: l2 ++ nth j x d :: l3)%list
    /\ List.length l1 = i
    /\ List.length (l1 ++ nth i x d :: l2) = j.
Proof.
  intros [Hij Hj].
  destruct (nth_split x d (Nat.lt_trans _ _ _ Hij Hj)) as (l1 & r & Hx & Hl1).
  assert (Hr : (j - i - 1 < List.length r)%nat).
  { rewrite Hx in Hj. rewrite length_app in Hj. cbn [List.length] in Hj. lia. }
  destruct (nth_split r d Hr) as (l2 & l3 & Hr' & Hl2).
  assert (Hnth : nth j x d = nth (j - i - 1) r d).
  { remember (j - i - 1)%nat as k eqn:Hk.
    assert (Hji : (j - List.length l1 = S k)%nat) by lia.
    rewrite Hx at 1. rewrite app_nth2 by lia. rewrite Hji. reflexivity. }
  exists l1, l2, l3. rewrite Hnth. split; [|split; [exact Hl1|]].
  - rewrite <- Hr'. exact Hx.
  - rewrite length_app. cbn [List.length]. lia.
Qed.

Lemma exchange_permutation {A} (l1 l2 l3 : list A) (a b : A) :
  Permutation (l1 ++ a :: l2 ++ b :: l3) (l1 ++ b :: l2 ++ a :: l3).
Proof.
  apply Permutation_app_head.
  transitivity (a :: b :: l2 ++ l3)%list.
  - apply perm_skip. symmetry. apply Permutation_middle.
  - transitivity (b :: a :: l2 ++ l3)%list; [apply perm_swap|].
    apply perm_skip. apply Permutation_middle.
Qed.

Lemma set_nth_at {A} (l1 l2 : list A) (y v : A) (n : nat) :
  List.length l1 = n -> set_nth n v (l1 ++ y :: l2) = (l1 ++ v :: l2)%list.
Proof. intros <-. apply set_nth_middle. Qed.

(** [x[i], x[j] = x[j], x[i]] keeps the elements. *)
Lemma swap_permutation (x : list value) (i j : nat) :
  (i < List.length x)%nat -> (j < List.length x)%nat -> Permutation x (swap i j x).
Proof.
  intros Hi Hj. unfold swap.
  destruct (Nat.lt_trichotomy i j) as [Hlt|[<-|Hgt]].
  - destruct (split_two x VNone i j (conj Hlt Hj)) as (l1 & l2 & l3 & Hx & Hl1 & Hl2).
    remember (nth i x VNone) as xi eqn:Hxi. remember (nth j x VNone) as xj eqn:Hxj.
    clear Hxi Hxj Hi Hj. subst x.
    rewrite (set_nth_at l1 _ xi xj i Hl1).
    replace (l1 ++ xj :: l2 ++ xj :: l3)%list with ((l1 ++ xj :: l2) ++ xj :: l3)%list
      by (rewrite <- app_assoc; reflexivity).
    rewrite (set_nth_at (l1 ++ xj :: l2) l3 xj xi j)
      by (rewrite <- Hl2, !length_app; reflexivity).
    rewrite <- app_assoc. cbn [app]. apply exchange_permutation.
  - destruct (nth_split x VNone Hi) as (l1 & l2 & Hx & Hl1).
    remember (nth i x VNone) as xi eqn:Hxi. clear Hxi Hi Hj. subst x.
    rewrite !(set_nth_at l1 l2 xi xi i Hl1). reflexivity.
  - destruct (split_two x VNone j i (conj Hgt Hi)) as (l1 & l2 & l3 & Hx & Hl1 & Hl2).
    remember (nth i x VNone) as xi eqn:Hxi. remember (nth j x VNone) as xj eqn:Hxj.
    clear Hxi Hxj Hi Hj. subst x.
    replace (l1 ++ xj :: l2 ++ xi :: l3)%list with ((l1 ++ xj :: l2) ++ xi :: l3)%list
      by (rewrite <- app_assoc; reflexivity).
    rewrite (set_nth_at (l1 ++ xj :: l2) l3 xi xj i Hl2).
    rewrite <- !app_assoc. cbn [app].
    rewrite (set_nth_at l1 _ xj xi j Hl1).
    apply exchange_permutation.
Qed.

Lemma swap_length (x : list value) (i j : nat) :
  List.length (swap i j x) = List.length x.
Proof. unfold swap. rewrite !set_nth_length. reflexivity. Qed.

Lemma shuffle_from_permutation {E : Env} (i : nat) :
  forall (x : list value) (w : world),
    (i < List.length x)%nat \/ i = O ->
    exists y,
      logifresh.shuffle_from i x w
      = (Ok y, mkworld (trace w) (draws w + i) (uuids w))
      /\ Permutation x y.
Proof.
  induction i as [|k IH]; intros x w Hi.
  - exists x. split; [|reflexivity].
    destruct w as [t d u]. cbn. rewrite Nat.add_0_r. reflexivity.
  - destruct Hi as [Hi|Hi]; [|discriminate Hi].
    cbn [logifresh.shuffle_from]. unfold bind, randbelow.
    set (j := Z.to_nat (random_bits (draws w) mod (Z.of_nat (S k) + 1))).
    assert (Hj : (j < List.length x)%nat).
    { subst j.
      pose proof (Z.mod_pos_bound (random_bits (draws w)) (Z.of_nat (S k) + 1)
                    ltac:(lia)).
      lia. }
    destruct (IH (swap (S k) j x)
                 (mkworld (trace w) (S (draws w)) (uuids w)))
      as (y & Hrun & Hperm).
    { left. rewrite swap_length. lia. }
    exists y. rewrite Hrun. cbn [trace draws uuids].
    split; [rewrite Nat.add_succ_r; reflexivity|].
    transitivity (swap (S k) j x); [apply swap_permutation; assumption|exact Hperm].
Qed.

Lemma shuffle_permutation {E : Env} (x : list value) :
  spec (logifresh.shuffle x)
       (fun r new => new = [] /\ forall y, r = Ok y -> Permutation x y).
Proof.
  intros w. exists []. unfold logifresh.shuffle.
  destruct (shuffle_from_permutation (List.length x - 1) x w) as (y & Hrun & Hperm).
  { destruct x; [right; reflexivity|left; cbn [List.length]; lia]. }
  rewrite Hrun. cbn [fst snd]. split.
  - unfold added. cbn [trace]. rewrite app_nil_r. reflexivity.
  - split; [reflexivity|]. intros y' [= <-]. exact Hperm.
Qed.

(** The stops of the loop: one per customer, in the order given,
    numbered from [i + 1]. *)
Definition stops_for (i : Z) (customers stops : list value) : Prop :=
  map (field "destination_id") stops = map (field "customer_id") customers
  /\ map (field "stop_number") stops
     = map (fun k => Some (VInt (i + 1 + Z.of_nat k))) (seq 0 (List.length customers)).

Lemma simulated_route_stops {E : Env} (customers : list value) :
  forall (i : Z) (current_time : datetime) (per_stop : Z),
    spec (logifresh.simulated_route i current_time per_stop customers)
         (fun r new => new = [] /\ forall stops, r = Ok stops -> stops_for i customers stops).
Proof.
  induction customers as [|customer rest IH]; intros i current_time per_stop;
    cbn [logifresh.simulated_route].
  - apply spec_ret. split; [reflexivity|]. intros stops [= <-]. split; reflexivity.
  - apply spec_bind_lift; [intros; split; [reflexivity|discriminate]|].
    intros estimated_arrival Harrival.
    apply spec_bind_lift; [intros; split; [reflexivity|discriminate]|].
    intros destination_id Hid.
    apply spec_bind_lift; [intros; split; [reflexivity|discriminate]|].
    intros destination_address Haddress.
    apply spec_bind_silent;
      [apply silent_randint|intros; split; [reflexivity|discriminate]|].
    intros estimated_service_duration_minutes.
    eapply spec_bind_post; [apply IH|intros; split; [reflexivity|discriminate]|].
    cbv beta. intros stops [Hdest Hnum].
    apply spec_ret. split; [reflexivity|]. intros stops' [= <-].
    split; cbn [map List.length seq].
    + f_equal; [|exact Hdest]. symmetry. apply getitem_field. exact Hid.
    + f_equal; [cbn [field assoc String.eqb Ascii.eqb Bool.eqb]; do 2 f_equal; lia|].
      rewrite Hnum, <- seq_shift, map_map.
      apply map_ext. intros k. do 2 f_equal. lia.
Qed.

Lemma fetch_result_rows (out : query_outcome) (v : value) :
  fetch_result out = (true, v) -> exists rows, out = Rows rows /\ v = VList rows.
Proof.
  destruct out as [rows|[| |] msg]; cbn [fetch_result]; try discriminate.
  intros [= <-]. exists rows. split; reflexivity.
Qed.

(** The answer is a route over the customers the warehouse returned. *)
Definition visits_all {E : Env} (r : result (Z * value)) (new : list event) : Prop :=
  forall body, r = Ok (200, body) -> field "status" body = Some (VStr "success") ->
    exists (vehicle_sql customer_sql : string) (vehicle_params customer_params : list query_param)
           (customers stops : list value),
      new = [Query vehicle_sql vehicle_params; Query customer_sql customer_params]
      /\ client_query customer_sql customer_params = Rows customers
      /\ field "route_stops" body = Some (VList stops)
      /\ Permutation (map (field "customer_id") customers)
                     (map (field "destination_id") stops)
      /\ map (field "stop_number") stops
         = map (fun k => Some (VInt (1 + Z.of_nat k))) (seq 0 (List.length customers))
      /\ field "num_stops" body = Some (VInt (Z.of_nat (List.length customers))).

Ltac no_visit :=
  intros; cbv beta;
  let body := fresh "body" in let Heq := fresh "Heq" in let Hst := fresh "Hst" in
  intros body Heq Hst; exfalso;
  first [discriminate Heq
        |injection Heq as <-; vm_compute in Hst; discriminate Hst].

Lemma visits_all_spec {E : Env} (data : value) :
  spec (logifresh.handle_optimize_delivery_route data) visits_all.
Proof.
  unfold logifresh.handle_optimize_delivery_route, logifresh.missing_body.
  apply spec_if_missing; [intro; apply spec_ret; no_visit|no_visit|].
  apply spec_bind_lift; [no_visit|]. intros destination_locations Hlocations.
  destruct (negb (is_list destination_locations) || negb (truthy destination_locations));
    [apply spec_ret; no_visit|].
  apply spec_try_ret; [|no_visit].
  apply spec_bind_lift; [no_visit|]. intros vehicle_id Hvehicle.
  apply spec_bind_lift; [no_visit|]. intros destinations Hdestinations.
  cbv zeta.
  apply spec_bind_fetch. cbv beta.
  destruct (fetch_result (client_query logifresh.vehicle_query _))
    as [[|] vehicle_details]; cbn [negb]; [|apply spec_ret; no_visit].
  destruct (negb (truthy vehicle_details)); [apply spec_ret; no_visit|].
  apply spec_bind_lift; [no_visit|]. intros vehicle_info Hinfo.
  apply spec_bind_fetch. cbv beta.
  destruct (fetch_result (client_query logifresh.customer_query _))
    as [success_c customer_locations] eqn:Hcustomers.
  destruct success_c; [|apply spec_ret; no_visit].
  destruct (fetch_result_rows _ _ Hcustomers) as (customers & Hrows & ->).
  destruct customers as [|customer others]; [apply spec_ret; no_visit|].
  apply spec_bind_silent; [apply silent_randint|no_visit|]. intros per_stop.
  eapply spec_bind_post; [apply shuffle_permutation|no_visit|].
  cbv beta. intros shuffled Hperm.
  eapply spec_bind_post; [apply simulated_route_stops|no_visit|].
  cbv beta. intros route_stops [Hdest Hnum].
  apply spec_ret. intros body [= <-] _.
  assert (Hlen : List.length shuffled = List.length (customer :: others)).
  { symmetry. apply Permutation_length. exact Hperm. }
  eexists. eexists. eexists. eexists. exists (customer :: others), route_stops.
  split; [reflexivity|]. split; [exact Hrows|]. split; [reflexivity|].
  split; [rewrite Hdest; apply Permutation_map; exact Hperm|].
  split; [rewrite Hnum, Hlen; reflexivity|].
  cbn [field assoc String.eqb Ascii.eqb Bool.eqb]. do 3 f_equal.
  rewrite <- Hlen, <- (length_map (field "customer_id") shuffled), <- Hdest, length_map.
  reflexivity.
Qed.

(** X7.  A route answered by POST /route/optimize of the LogiFresh
    backend visits the customers the warehouse returned for the request,
    each of them once and no one else: the destinations of the stops are
    a permutation of the customer rows; the stops are numbered 1, 2, ...
    and [num_stops] is the number of customers found.  The run has made
    two calls, the vehicle query and the customer query. *)
Theorem route_visits_every_customer {E : Env} (ct : option string) (data body : value)
  (w w' : world) (new : list event) :
  entry_point Logifresh (post "/route/optimize" ct data) w = (Ok (Json body, 200), w') ->
  field "status" body = Some (VStr "success") ->
  added w w' new ->
  exists (vehicle_sql customer_sql : string) (vehicle_params customer_params : list query_param)
         (customers stops : list value),
    new = [Query vehicle_sql vehicle_params; Query customer_sql customer_params]
    /\ client_query customer_sql customer_params = Rows customers
    /\ field "route_stops" body = Some (VList stops)
    /\ Permutation (map (field "customer_id") customers)
                   (map (field "destination_id") stops)
    /\ map (field "stop_number") stops
       = map (fun k => Some (VInt (1 + Z.of_nat k))) (seq 0 (List.length customers))
    /\ field "num_stops" body = Some (VInt (Z.of_nat (List.length customers))).
Proof.
  intros Hrun Hst Hadded.
  destruct (is_none data) eqn:Hbody.
  { apply is_none_eq in Hbody. subst data. exfalso.
    destruct (post_none_run Logifresh "/route/optimize" ct w)
      as (body' & code & Hnull & Hcode).
    rewrite Hnull in Hrun. injection Hrun as _ -> _. destruct Hcode; discriminate. }
  rewrite (route_logifresh _ _ _ Hbody) in Hrun.
  cbn [String.eqb Ascii.eqb Bool.eqb] in Hrun.
  destruct (visits_all_spec data w) as [new' [Ha Hq]].
  unfold respond, bind, ret in Hrun.
  destruct (logifresh.handle_optimize_delivery_route data w)
    as [[[status_code response_body]|e] w1]; [|discriminate Hrun].
  injection Hrun as -> -> ->. cbn [fst snd] in Ha, Hq.
  rewrite (added_unique _ _ _ _ Hadded Ha).
  exact (Hq body eq_refl Hst).
Qed.

Lemma route_visits_every_customer_witness :
  let E := example_env fleet_rows insert_ok no_http in
  let run := entry_point Logifresh
               (post "/route/optimize" (Some "application/json") delivery_request) w0 in
  exists (body : value) (stops : list value),
    fst run = Ok (Json body, 200)
    /\ field "route_stops" body = Some (VList stops)
    /\ Permutation [Some (VStr "C-1"); Some (VStr "C-2")]
                   (map (field "destination_id") stops).
Proof.
  intros E run.
  destruct run as [[[[s|body|v] code]|e] w'] eqn:Hrun;
    try (vm_compute in Hrun; discriminate Hrun).
  assert (Hcode : code = 200) by (vm_compute in Hrun; injection Hrun as _ <- _; reflexivity).
  subst code.
  assert (Hst : field "status" body = Some (VStr "success")).
  { vm_compute in Hrun. injection Hrun as <- _. reflexivity. }
  destruct (@route_visits_every_customer E (Some "application/json") delivery_request body
              w0 w' (trace w') Hrun Hst eq_refl)
    as (vs & cs & vp & cp & customers & stops & Hnew & Hrows & Hstops & Hperm & _).
  exists body, stops. split; [reflexivity|]. split; [exact Hstops|].
  assert (Hcustomers : map (field "customer_id") customers
                       = [Some (VStr "C-1"); Some (VStr "C-2")]).
  { assert (Hq : Query cs cp = nth 1 (trace w') (Query EmptyString [])).
    { rewrite Hnew. reflexivity. }
    vm_compute in Hrun. injection Hrun as _ <-. cbn [trace nth] in Hq.
    injection Hq as -> ->. vm_compute in Hrows. injection Hrows as <-. reflexivity. }
  rewrite <- Hcustomers. exact Hperm.
Defined.

(** ** Durations in seconds *)

(** A character that is neither white space nor one of [h], [m], [s]:
    a digit, a point, ... *)
Definition plain (c : ascii) : bool :=
  negb (is_space c) && negb (Ascii.eqb c "h") && negb (Ascii.eqb c "m")
  && negb (Ascii.eqb c "s").

Fixpoint all_plain (s : string) : bool :=
  match s with
  | EmptyString => true
  | String c rest => plain c && all_plain rest
  end.

Lemma plain_inv (c : ascii) :
  plain c = true ->
  is_space c = false /\ c <> "h"%char /\ c <> "m"%char /\ c <> "s"%char.
Proof.
  unfold plain. intros H.
  apply andb_prop in H. destruct H as [H Hs].
  apply andb_prop in H. destruct H as [H Hm].
  apply andb_prop in H. destruct H as [Hsp Hh].
  apply negb_true_iff in Hsp, Hh, Hm, Hs.
  apply Ascii.eqb_neq in Hh, Hm, Hs. auto.
Qed.

Lemma prefix_other (a c : ascii) (rest : string) :
  c <> a -> String.prefix (String a EmptyString) (String c rest) = false.
Proof.
  intros H. cbn [String.prefix].
  destruct (ascii_dec a c) as [->|_]; [contradiction|reflexivity].
Qed.

Lemma append_empty (s : string) : s ++ EmptyString = s.
Proof. induction s as [|c s IH]; cbn [append]; [reflexivity|rewrite IH; reflexivity]. Qed.

Lemma append_associative (s1 s2 s3 : string) : (s1 ++ s2) ++ s3 = s1 ++ (s2 ++ s3).
Proof.
  induction s1 as [|c s1 IH]; cbn [append]; [reflexivity|rewrite IH; reflexivity].
Qed.

Section Seconds.
Variable d : string.
Hypothesis Hplain : all_plain d = true.

Lemma seconds_contains_s : str_contains "s" (d ++ "s") = true.
Proof.
  clear Hplain. induction d as [|c rest IH]; [reflexivity|].
  cbn [append str_contains].
  destruct (String.prefix "s" (String c (rest ++ "s"))); [reflexivity|exact IH].
Qed.

Lemma seconds_without_s : str_replace "s" EmptyString (d ++ "s") = d.
Proof.
  unfold str_replace. revert Hplain. induction d as [|c rest IH]; intros H;
    [reflexivity|].
  cbn [all_plain] in H. apply andb_prop in H. destruct H as [Hc Hrest].
  destruct (plain_inv c Hc) as (_ & _ & _ & Hs).
  cbn [append replace_from]. rewrite (prefix_other "s" c _ Hs).
  rewrite (IH Hrest). reflexivity.
Qed.

Lemma plain_not_split (cur : string) :
  split_from "h" O cur d = [cur ++ d].
Proof.
  revert cur Hplain. induction d as [|c rest IH]; intros cur H.
  - cbn [split_from]. rewrite append_empty. reflexivity.
  - cbn [all_plain] in H. apply andb_prop in H. destruct H as [Hc Hrest].
    destruct (plain_inv c Hc) as (_ & Hh & _ & _).
    cbn [split_from]. rewrite (prefix_other "h" c _ Hh).
    rewrite (IH _ Hrest), append_associative. reflexivity.
Qed.

Lemma seconds_without_m : str_contains "m" (d ++ "s") = false.
Proof.
  revert Hplain. induction d as [|c rest IH]; intros H; [reflexivity|].
  cbn [all_plain] in H. apply andb_prop in H. destruct H as [Hc Hrest].
  destruct (plain_inv c Hc) as (_ & _ & Hm & _).
  cbn [append str_contains]. rewrite (prefix_other "m" c _ Hm). exact (IH Hrest).
Qed.

Lemma seconds_rstrip : rstrip (d ++ "s") = d ++ "s".
Proof.
  clear Hplain. induction d as [|c rest IH]; [reflexivity|].
  cbn [append rstrip]. rewrite IH.
  destruct rest; reflexivity.
Qed.

Lemma seconds_strip : str_strip (d ++ "s") = d ++ "s".
Proof.
  unfold str_strip.
  assert (Hl : lstrip (d ++ "s") = d ++ "s").
  { destruct d as [|c rest]; [reflexivity|].
    cbn [all_plain] in Hplain. apply andb_prop in Hplain. destruct Hplain as [Hc _].
    destruct (plain_inv c Hc) as (Hsp & _).
    cbn [append lstrip]. rewrite Hsp. reflexivity. }
  rewrite Hl. apply seconds_rstrip.
Qed.

Lemma seconds_truthy : truthy (VStr (d ++ "s")) = true.
Proof. clear Hplain. destruct d; reflexivity. Qed.

End Seconds.

(** X8.  [parse_duration_string] does not read a duration given in
    seconds only, such as "165s", the form the routing service uses: the
    branch for a text with neither hours nor minutes converts the whole
    text, its "s" included, with [int], which raises [ValueError].  The
    loop over the legs of a route has no [try] around the call, so step
    4 of the handler raises on a route whose first leg carries such a
    duration. *)
Theorem seconds_duration_raises {E : Env} (d : string) :
  all_plain d = true ->
  parse_int (d ++ "s") = None ->
  getoptimizedeliveryroute.parse_duration_string (VStr (d ++ "s")) = Raise ValueError
  /\ forall (origin_id leg : value) (rest destination_details : list value)
            (estimated_departure_time : datetime),
       get_default leg "duration" (VStr "0s") = Ok (VStr (d ++ "s")) ->
       getoptimizedeliveryroute.route_stops_with_times origin_id destination_details
         (VList (leg :: rest)) estimated_departure_time = Raise ValueError.
Proof.
  intros Hplain Hint.
  assert (Hparse : getoptimizedeliveryroute.parse_duration_string (VStr (d ++ "s"))
                   = Raise ValueError).
  { unfold getoptimizedeliveryroute.parse_duration_string.
    rewrite (seconds_truthy d). cbn [contains and_then].
    rewrite (seconds_contains_s d), (seconds_without_s d Hplain).
    unfold str_split. rewrite (plain_not_split d Hplain EmptyString).
    cbn [append]. rewrite (seconds_without_m d Hplain).
    unfold getoptimizedeliveryroute.int_of_stripped.
    rewrite (seconds_strip d Hplain), Hint. reflexivity. }
  split; [exact Hparse|].
  intros origin_id leg rest destination_details estimated_departure_time Hleg.
  unfold getoptimizedeliveryroute.route_stops_with_times.
  cbn [getoptimizedeliveryroute.iterate and_then getoptimizedeliveryroute.stops_of_legs].
  rewrite Hleg. cbn [and_then].
  destruct leg as [| | | | | |fields]; try discriminate Hleg.
  cbn [get_default and_then]. rewrite Hparse. reflexivity.
Qed.

Lemma seconds_duration_raises_witness :
  let E := example_env no_rows insert_ok no_http in
  getoptimizedeliveryroute.parse_duration_string (VStr "165s") = Raise ValueError
  /\ getoptimizedeliveryroute.route_stops_with_times (VStr "W-1") []
       (VList [VDict [("distanceMeters", VInt 900)]])
       (mkdatetime 739038 0 0) = Raise ValueError.
Proof.
  intros E. split.
  - exact (proj1 (@seconds_duration_raises E "165" eq_refl eq_refl)).
  - exact (proj2 (@seconds_duration_raises E "0" eq_refl eq_refl)
             (VStr "W-1") (VDict [("distanceMeters", VInt 900)]) [] []
             (mkdatetime 739038 0 0) eq_refl).
Defined.

(** ** The request to the routing service *)

(** The waypoint of a destination: its coordinates and nothing else. *)
Definition waypoint_of (dest wp : value) : Prop :=
  exists latitude longitude,
    getitem dest "latitude" = Ok latitude
    /\ getitem dest "longitude" = Ok longitude
    /\ wp = VDict [("location",
                    VDict [("latLng", VDict [("latitude", latitude);
                                             ("longitude", longitude)])])].

Lemma waypoints_each (destination_details : list value) :
  forall ws, getoptimizedeliveryroute.waypoints destination_details = Ok ws ->
             Forall2 waypoint_of destination_details ws.
Proof.
  induction destination_details as [|dest rest IH]; intros ws H;
    cbn [getoptimizedeliveryroute.waypoints] in H.
  - injection H as <-. constructor.
  - unfold and_then, getoptimizedeliveryroute.waypoint in H.
    unfold and_then in H.
    destruct (getitem dest "latitude") as [latitude|] eqn:Hlat; [|discriminate H].
    destruct (getitem dest "longitude") as [longitude|] eqn:Hlng; [|discriminate H].
    destruct (getoptimizedeliveryroute.waypoints rest) as [ws'|] eqn:Hrest;
      [|discriminate H].
    injection H as <-. constructor; [|apply IH; reflexivity].
    exists latitude, longitude. auto.
Qed.

(** X9.  The request sent to the routing service names every
    destination exactly once and in the order given: the waypoints are
    made one per destination from its coordinates, the last one is the
    [destination] of the request and the others, in order, its
    [intermediates].  Nothing reorders them. *)
Theorem payload_keeps_destinations (origin_coords : value)
  (destination_details destination_waypoints : list value) :
  destination_details <> [] ->
  getoptimizedeliveryroute.waypoints destination_details = Ok destination_waypoints ->
  let payload :=
    getoptimizedeliveryroute.routes_api_payload origin_coords destination_waypoints in
  exists (destination : value) (intermediates : list value),
    field "destination" payload = Some destination
    /\ field "intermediates" payload = Some (VList intermediates)
    /\ (intermediates ++ [destination])%list = destination_waypoints
    /\ Forall2 waypoint_of destination_details destination_waypoints
    /\ field "origin" payload
       = Some (VDict [("location", VDict [("latLng", origin_coords)])]).
Proof.
  intros Hne Hws. cbv zeta.
  pose proof (waypoints_each _ _ Hws) as Heach.
  assert (Hws_ne : destination_waypoints <> []).
  { intros ->. inversion Heach. subst. exact (Hne eq_refl). }
  exists (last destination_waypoints VNone), (removelast destination_waypoints).
  split; [reflexivity|]. split; [reflexivity|].
  split; [symmetry; apply app_removelast_last; exact Hws_ne|].
  split; [exact Heach|reflexivity].
Qed.

Lemma payload_keeps_destinations_witness :
  let a := VDict [("order_id", VStr "O-1"); ("latitude", VInt 52); ("longitude", VInt 13)] in
  let b := VDict [("order_id", VStr "O-2"); ("latitude", VInt 48); ("longitude", VInt 2)] in
  let wa := VDict [("location", VDict [("latLng", VDict [("latitude", VInt 52);
                                                         ("longitude", VInt 13)])])] in
  let wb := VDict [("location", VDict [("latLng", VDict [("latitude", VInt 48);
                                                         ("longitude", VInt 2)])])] in
  exists (destination : value) (intermediates : list value),
    field "destination" (getoptimizedeliveryroute.routes_api_payload VNone [wa; wb])
    = Some destination
    /\ field "intermediates" (getoptimizedeliveryroute.routes_api_payload VNone [wa; wb])
       = Some (VList intermediates)
    /\ (intermediates ++ [destination])%list = [wa; wb]
    /\ Forall2 waypoint_of [a; b] [wa; wb].
Proof.
  intros a b wa wb.
  destruct (payload_keeps_destinations VNone [a; b] [wa; wb] ltac:(discriminate) eq_refl)
    as (destination & intermediates & Hdest & Hint & Happ & Heach & _).
  exists destination, intermediates. auto.
Defined.

(** ** What a lookup returns *)

(** [m] is the row [row] cut down to [columns]. *)
Definition projection (columns : list string) (row m : value) : Prop :=
  exists fields,
    m = VDict fields
    /\ map fst fields = columns
    /\ Forall (fun kv => getitem row (fst kv) = Ok (snd kv)) fields.

Lemma select_columns_projection (columns : list string) (row : value) :
  forall fields, select_columns columns row = inr fields ->
                 map fst fields = columns
                 /\ Forall (fun kv => getitem row (fst kv) = Ok (snd kv)) fields.
Proof.
  induction columns as [|c rest IH]; intros fields H; cbn [select_columns] in H.
  - injection H as <-. split; [reflexivity|constructor].
  - destruct (getitem row c) as [v|] eqn:Hc; [|discriminate H].
    destruct (select_columns rest row) as [e|fields'] eqn:Hrest; [discriminate H|].
    injection H as <-. destruct (IH fields' eq_refl) as [Hmap Hall].
    split; [cbn [map fst]; rewrite Hmap; reflexivity|].
    constructor; [exact Hc|exact Hall].
Qed.

Lemma collect_matches_projection (columns : list string) (rows : list value) :
  forall matches, collect_matches columns rows = inr matches ->
                  Forall2 (projection columns) rows matches.
Proof.
  induction rows as [|row rest IH]; intros matches H; cbn [collect_matches] in H.
  - injection H as <-. constructor.
  - destruct (select_columns columns row) as [e|fields] eqn:Hrow; [discriminate H|].
    destruct (collect_matches columns rest) as [e|matches'] eqn:Hrest; [discriminate H|].
    injection H as <-. constructor; [|apply IH; reflexivity].
    exists fields. split; [reflexivity|]. exact (select_columns_projection _ _ _ Hrow).
Qed.

(** The columns a lookup answers with. *)
Definition lookup_columns (f : lookup) : list string :=
  match f with
  | Product => ["product_id"; "product_name"; "category"; "storage_requirements"]
  | Farm => ["farm_id"; "farm_name"; "farm_location"; "supplier_name"]
  | Customer => ["customer_id"; "customer_name"; "customer_type"; "shipping_address"]
  | Vehicle => getvehicledetails.columns
  end.

(** The rows a lookup answers with: all of them, or the first one for a
    lookup by license. *)
Definition answered_rows (f : lookup) (rows : list value) : list value :=
  match f with
  | Vehicle => firstn 1 rows
  | _ => rows
  end.

Lemma lookup_by_name_answer {E : Env} (field what : string) (columns : list string)
  (list_query search_query pattern_name : string) (request : request) (w w' : world)
  (body : value) :
  lookup_by_name field what columns list_query search_query pattern_name request w
  = (Ok (Dumps body, 200), w') ->
  exists sql params rows matches,
    (sql = list_query \/ sql = search_query)
    /\ trace w' = (trace w ++ [Query sql params])%list
    /\ client_query sql params = Rows rows
    /\ body = VDict [("matches", VList matches)]
    /\ Forall2 (projection columns) rows matches.
Proof.
  unfold lookup_by_name. intros H.
  unfold bind in H at 1. unfold lift in H at 1.
  destruct (get_json request) as [request_json|e]; [|discriminate H].
  cbv beta iota in H. unfold bind in H at 1.
  match type of H with
  | context [match ?m w with _ => _ end] => destruct (m w) as [[name_input|e] w1] eqn:Hname
  end; [|discriminate H].
  assert (Hw1 : w1 = w).
  { revert Hname. clear. unfold bind, ret, lift.
    destruct (truthy request_json); [|intros [= _ <-]; reflexivity].
    destruct (contains request_json field) as [[|]|]; try discriminate;
      [|intros [= _ <-]; reflexivity].
    destruct (getitem request_json field); [|discriminate].
    intros [= _ <-]. reflexivity. }
  subst w1. clear Hname.
  destruct (negb (truthy name_input)).
  - unfold bind, run_query, ret in H.
    destruct (client_query list_query []) as [rows|c msg] eqn:Hq; [|discriminate H].
    destruct (collect_matches columns rows) as [e|matches] eqn:Hm; [discriminate H|].
    injection H as <- <-.
    exists list_query, [], rows, matches. split; [left; reflexivity|].
    split; [reflexivity|]. split; [exact Hq|]. split; [reflexivity|].
    exact (collect_matches_projection _ _ _ Hm).
  - unfold bind, run_query, ret in H.
    match type of H with
    | context [client_query search_query ?p] =>
        destruct (client_query search_query p) as [rows|c msg] eqn:Hq; [|discriminate H];
        destruct (collect_matches columns rows) as [e|matches] eqn:Hm; [discriminate H|];
        injection H as <- <-;
        exists search_query, p, rows, matches
    end.
    split; [right; reflexivity|].
    split; [reflexivity|]. split; [exact Hq|]. split; [reflexivity|].
    exact (collect_matches_projection _ _ _ Hm).
Qed.

(** X10.  A lookup answered with 200 returns what the warehouse
    returned for its one query, a SELECT, cut down to the columns of the
    lookup: the three lookups by name answer one match per row, in the
    order of the rows; the lookup by license answers the first row only,
    and is not answered with 200 when there is no row.  Each match has
    exactly the columns of the lookup, with the values of its row. *)
Theorem lookup_answers_rows {E : Env} (f : lookup) (request : request) (w w' : world)
  (body : value) :
  lookup_function f request w = (Ok (Dumps body, 200), w') ->
  exists sql params rows matches,
    trace w' = (trace w ++ [Query sql params])%list
    /\ is_select sql = true
    /\ client_query sql params = Rows rows
    /\ body = VDict [("matches", VList matches)]
    /\ Forall2 (projection (lookup_columns f)) (answered_rows f rows) matches
    /\ (f = Vehicle -> rows <> []).
Proof.
  intros H.
  destruct f; cbn [lookup_function lookup_columns answered_rows] in *.
  1-3: (destruct (lookup_by_name_answer _ _ _ _ _ _ _ _ _ _ H)
         as (sql & params & rows & matches & Hsql & Htrace & Hq & Hbody & Hall);
        exists sql, params, rows, matches;
        split; [exact Htrace|]; split; [destruct Hsql as [->| ->]; reflexivity|];
        split; [exact Hq|]; split; [exact Hbody|]; split; [exact Hall|discriminate]).
  unfold getvehicledetails.lookup_vehicle_by_license in H.
  unfold bind, ret, lift, run_query in H.
  destruct (get_json request) as [request_json|e]; [|discriminate H].
  destruct (negb (truthy request_json)); [discriminate H|].
  destruct (contains request_json "vehicle_license_no") as [[|]|]; try discriminate H.
  cbn [negb] in H.
  destruct (getitem request_json "vehicle_license_no") as [license|]; [|discriminate H].
  destruct (negb (truthy license)); [discriminate H|].
  match type of H with
  | context [client_query getvehicledetails.query ?p] =>
      destruct (client_query getvehicledetails.query p) as [[|row rows]|c msg] eqn:Hq;
        try discriminate H;
      destruct (select_columns getvehicledetails.columns row) as [e|fields] eqn:Hrow;
        [discriminate H|];
      injection H as <- <-;
      exists getvehicledetails.query, p, (row :: rows), [VDict fields]
  end.
  split; [reflexivity|]. split; [reflexivity|]. split; [exact Hq|].
  split; [reflexivity|]. split; [|discriminate].
  cbn [firstn]. constructor; [|constructor].
  exists fields. split; [reflexivity|]. exact (select_columns_projection _ _ _ Hrow).
Qed.

(** A catalog of two products. *)
Definition catalog (sql : string) (params : list query_param) : query_outcome :=
  Rows [VDict [("product_id", VStr "P-1"); ("product_name", VStr "Tomato");
               ("category", VStr "Vegetable"); ("storage_requirements", VStr "Cool");
               ("unit_price", VInt 3)];
        VDict [("product_id", VStr "P-2"); ("product_name", VStr "Cherry tomato");
               ("category", VStr "Vegetable"); ("storage_requirements", VStr "Cool");
               ("unit_price", VInt 5)]].

Lemma lookup_answers_rows_witness :
  let E := example_env catalog insert_ok no_http in
  let request := mkrequest "POST" "/" (Some "application/json")
                   (Ok (VDict [("product_name", VStr "tomato")])) in
  let run := lookup_function Product request w0 in
  exists (body : value) (matches : list value),
    fst run = Ok (Dumps body, 200)
    /\ body = VDict [("matches", VList matches)]
    /\ List.length matches = 2%nat.
Proof.
  intros E request run.
  destruct run as [[[[s|v|body] code]|e] w'] eqn:Hrun;
    try (vm_compute in Hrun; discriminate Hrun).
  assert (Hcode : code = 200) by (vm_compute in Hrun; injection Hrun as _ <- _; reflexivity).
  subst code.
  destruct (@lookup_answers_rows E Product request w0 w' body Hrun)
    as (sql & params & rows & matches & Htrace & _ & Hq & Hbody & Hall & _).
  exists body, matches. split; [reflexivity|]. split; [exact Hbody|].
  cbn [answered_rows] in Hall. rewrite <- (Forall2_length Hall).
  change (catalog sql params = Rows rows) in Hq. injection Hq as <-. reflexivity.
Defined.

(** ** Without an API key *)

Section NoKey.
Context {E : Env}.
Hypothesis Hkey : getoptimizedeliveryroute.usable_key GOOGLE_MAPS_API_KEY = None.

Lemma geocode_address_no_key (address_string : value) :
  emits is_query (getoptimizedeliveryroute.geocode_address address_string GOOGLE_MAPS_API_KEY).
Proof.
  unfold getoptimizedeliveryroute.geocode_address. rewrite Hkey. apply emits_ret.
Qed.

Lemma get_location_coordinates_no_key (location_id : value) :
  emits is_query
        (getoptimizedeliveryroute.get_location_coordinates location_id GOOGLE_MAPS_API_KEY).
Proof.
  unfold getoptimizedeliveryroute.get_location_coordinates.
  repeat first [apply geocode_address_no_key|emits_step].
Qed.

Lemma destination_details_of_no_key (rows : list value) :
  emits is_query (getoptimizedeliveryroute.destination_details_of rows GOOGLE_MAPS_API_KEY).
Proof.
  induction rows as [|row rest IH]; cbn [getoptimizedeliveryroute.destination_details_of].
  - apply emits_ret.
  - repeat first [apply IH|apply geocode_address_no_key|emits_step].
Qed.

Lemma get_destination_details_for_orders_no_key (order_ids : value) :
  emits is_query
        (getoptimizedeliveryroute.get_destination_details_for_orders order_ids
           GOOGLE_MAPS_API_KEY).
Proof.
  unfold getoptimizedeliveryroute.get_destination_details_for_orders,
    getoptimizedeliveryroute.fetch_rows.
  repeat first [apply destination_details_of_no_key|emits_step].
Qed.

Lemma get_vehicle_details_only_queries (vehicle_id : value) :
  emits is_query (getoptimizedeliveryroute.get_vehicle_details vehicle_id).
Proof.
  unfold getoptimizedeliveryroute.get_vehicle_details, getoptimizedeliveryroute.fetch_rows.
  repeat emits_step.
Qed.

(** The run asked only the warehouse, and its answer is not a route. *)
Definition warehouse_only (r : result response) (new : list event) : Prop :=
  forallb is_query new = true
  /\ forall resp, r = Ok resp -> no_route resp.

Definition located_by_warehouse (r : result getoptimizedeliveryroute.located)
  (new : list event) : Prop :=
  forallb is_query new = true
  /\ forall resp, r = Ok (getoptimizedeliveryroute.Answer resp) -> no_route resp.

Ltac only_warehouse :=
  intros; cbv beta; split;
  [first [reflexivity|rewrite ?app_nil_r; assumption]
  |let resp := fresh "resp" in let Hr := fresh "Hr" in
   let body := fresh "body" in let Heq := fresh "Heq" in let Hst := fresh "Hst" in
   intros resp Hr;
   first [discriminate Hr
         |injection Hr as <-; intros body Heq Hst;
          first [discriminate Heq
                |injection Heq as <-; vm_compute in Hst; discriminate Hst]]].

Lemma no_key_warehouse_only (request : request) :
  spec (getoptimizedeliveryroute.handle_optimize_delivery_route request) warehouse_only.
Proof.
  unfold getoptimizedeliveryroute.handle_optimize_delivery_route.
  destruct (negb (String.eqb (method request) "POST")); [apply spec_ret; only_warehouse|].
  apply spec_bind_lift; [only_warehouse|intros request_json Hjson].
  apply spec_bind_lift; [only_warehouse|intros origin_id Horigin_id].
  apply spec_bind_lift; [only_warehouse|intros destination_order_ids Horder_ids].
  apply spec_bind_lift; [only_warehouse|intros vehicle_id Hvehicle_id].
  apply spec_bind_lift; [only_warehouse|intros route_date_str Hroute_date].
  destruct (negb (truthy origin_id) || negb (truthy destination_order_ids));
    [apply spec_ret; only_warehouse|].
  destruct (negb (is_list destination_order_ids) || negb (truthy destination_order_ids));
    [apply spec_ret; only_warehouse|].
  apply (spec_bind _ _ located_by_warehouse).
  - apply spec_try_ret.
    + apply (spec_bind _ _ (fun _ new => forallb is_query new = true));
        [apply get_location_coordinates_no_key
        |intros e new H; split; [exact H|discriminate]|].
      intros [origin_coords|] new1 H1.
      * apply (spec_bind _ _ (fun _ new => forallb is_query new = true));
          [apply get_destination_details_for_orders_no_key
          |intros e new H; split; [rewrite forallb_app, H1, H; reflexivity|discriminate]|].
        intros [|d destination_details] new2 H2.
        -- apply spec_ret. split; [rewrite !forallb_app, H1, H2; reflexivity|].
           intros resp [= <-] body [= <-] Hst. vm_compute in Hst. discriminate Hst.
        -- apply (spec_bind _ _ (fun _ new => forallb is_query new = true)).
           ++ destruct (truthy vehicle_id);
                [apply emits_try_except;
                 [apply get_vehicle_details_only_queries|apply emits_ret]
                |apply emits_ret].
           ++ intros e new H. split; [rewrite !forallb_app, H1, H2, H; reflexivity|discriminate].
           ++ intros vehicle_info new3 H3. apply spec_ret.
              split; [rewrite !forallb_app, H1, H2, H3; reflexivity|discriminate].
      * apply spec_ret. split; [rewrite forallb_app, H1; reflexivity|].
        intros resp [= <-] body Heq. discriminate Heq.
    + intros e new [H _]. split; [exact H|].
      intros resp [= <-] body Heq. discriminate Heq.
  - intros e new [H _]. split; [exact H|discriminate].
  - intros [resp|origin_coords destination_details] new1 [H1 Hanswer].
    + apply spec_ret. split; [rewrite app_nil_r; exact H1|].
      intros resp' [= <-]. exact (Hanswer _ eq_refl).
    + unfold getoptimizedeliveryroute.call_routes_api_compute_routes. rewrite Hkey.
      apply spec_bind_ret. apply spec_ret. only_warehouse.
Qed.

End NoKey.

(** X11.  When GOOGLE_MAPS_API_KEY is unset or empty, the standalone
    route function calls neither the geocoder nor the routing service:
    every call of a run is a query to the warehouse, and no run answers
    with a route. *)
Theorem no_key_no_call {E : Env} (request : request) (w : world) :
  GOOGLE_MAPS_API_KEY = None \/ GOOGLE_MAPS_API_KEY = Some EmptyString ->
  let run := getoptimizedeliveryroute.handle_optimize_delivery_route request w in
  exists new,
    added w (snd run) new
    /\ forallb is_query new = true
    /\ forall body, fst run = Ok (Dumps body, 200) ->
                    field "status" body <> Some (VStr "success").
Proof.
  intros Hkey. cbv zeta.
  assert (Hunusable : getoptimizedeliveryroute.usable_key GOOGLE_MAPS_API_KEY = None).
  { destruct Hkey as [-> | ->]; reflexivity. }
  destruct (no_key_warehouse_only Hunusable request w) as [new [Ha [Hq Hno]]].
  exists new. split; [exact Ha|]. split; [exact Hq|].
  intros body Hrun. exact (Hno _ Hrun body eq_refl).
Qed.

(** The environment of the examples, without the key. *)
Definition keyless_env : Env :=
  let base := example_env routing_rows insert_ok (fun _ _ _ => HttpJson routes_answer) in
  {| GCP_PROJECT := @GCP_PROJECT base;
     BQ_DATASET := @BQ_DATASET base;
     GOOGLE_MAPS_API_KEY := None;
     client_query := @client_query base;
     client_insert_rows_json := @client_insert_rows_json base;
     requests_get := fun _ _ => HttpJson geocoder_answer;
     requests_post := @requests_post base;
     random_bits := @random_bits base;
     uuid4 := @uuid4 base;
     today := @today base;
     now := @now base;
     parse_int := @parse_int base;
     parse_float := @parse_float base;
     repr := @repr base;
     round2 := @round2 base;
     fromisoformat := @fromisoformat base |}.

Lemma no_key_no_call_witness :
  let E := keyless_env in
  let run := getoptimizedeliveryroute.handle_optimize_delivery_route route_request w0 in
  forallb is_query (trace (snd run)) = true /\ status_of run = Some 404.
Proof.
  intros E run.
  destruct (@no_key_no_call E route_request w0 (or_introl eq_refl)) as [new [Ha [Hq _]]].
  unfold added in Ha. cbn [trace w0 app] in Ha. fold run in Ha.
  split; [rewrite Ha; exact Hq|vm_compute; reflexivity].
Defined.

(** ** Retrievals that do not depend on each other *)

(** [data.get('farm_id')] of an object. *)
Definition farm_id_of (kvs : list (string * value)) : value :=
  match assoc "farm_id" kvs with Some v => v | None => VNone end.

(** The calls of a run of [/advice/harvest]. *)
Definition advice_calls {E : Env} (kvs : list (string * value)) (new : list event) : Prop :=
  exists (harvest_sql qc_sql schedule_sql : string)
         (harvest_params qc_params schedule_params : list query_param),
    new = (Query harvest_sql harvest_params :: Query qc_sql qc_params
           :: Query schedule_sql schedule_params
           :: (if truthy (farm_id_of kvs)
               then [Query agrioptimize.farm_query
                       [ScalarQueryParameter "farm_id_f" "STRING" (farm_id_of kvs)]]
               else []))%list
    /\ is_select harvest_sql = true /\ is_select qc_sql = true
    /\ is_select schedule_sql = true.

Lemma advice_calls_spec {E : Env} (kvs : list (string * value)) :
  spec (agrioptimize.handle_get_harvest_advice (VDict kvs))
       (fun _ new => advice_calls kvs new).
Proof.
  unfold agrioptimize.handle_get_harvest_advice.
  apply spec_bind_lift; [discriminate|]. intros farm_id Hfarm.
  assert (farm_id = farm_id_of kvs) by (injection Hfarm as <-; reflexivity). subst farm_id.
  apply spec_bind_lift; [discriminate|]. intros product_id _.
  apply spec_bind_lift; [discriminate|]. intros start_date_str _.
  apply spec_bind_lift; [discriminate|]. intros end_date_str _.
  apply spec_try_ret; [|auto].
  pose proof (advice_queries_select (farm_id_of kvs) product_id start_date_str end_date_str)
    as Hsel.
  destruct (agrioptimize.advice_queries (farm_id_of kvs) product_id start_date_str
              end_date_str)
    as [[[harvest_query harvest_params] [qc_query qc_params]]
        [schedule_query schedule_params]].
  destruct Hsel as (Hh & Hq & Hs).
  assert (Hdone : forall farm_part,
             farm_part = (if truthy (farm_id_of kvs)
                          then [Query agrioptimize.farm_query
                                  [ScalarQueryParameter "farm_id_f" "STRING"
                                     (farm_id_of kvs)]]
                          else []) ->
             advice_calls kvs (Query harvest_query harvest_params
                               :: Query qc_query qc_params
                               :: Query schedule_query schedule_params :: farm_part)).
  { intros farm_part ->.
    exists harvest_query, qc_query, schedule_query, harvest_params, qc_params,
      schedule_params. auto. }
  apply spec_bind_fetch. cbv beta.
  destruct (fetch_result (client_query harvest_query harvest_params))
    as [success_h harvests].
  apply spec_bind_fetch. cbv beta.
  destruct (fetch_result (client_query qc_query qc_params)) as [success_q qc_issues].
  apply spec_bind_fetch. cbv beta.
  destruct (fetch_result (client_query schedule_query schedule_params))
    as [success_s schedules].
  destruct (truthy (farm_id_of kvs)) eqn:Hfarm_id.
  - cbv zeta. apply spec_bind_assoc. apply spec_bind_fetch. cbv beta.
    destruct (fetch_result (client_query agrioptimize.farm_query _))
      as [success_f farm_info].
    apply spec_bind_assoc.
    apply spec_bind_silent;
      [destruct (success_f && truthy farm_info); silence
      |intros; apply Hdone; reflexivity|].
    intros farm_details. apply spec_bind_ret. cbv beta iota zeta.
    destruct (success_h && success_q && success_s && success_f);
      apply spec_ret; apply Hdone; reflexivity.
  - apply spec_bind_ret. cbv beta iota zeta.
    destruct (success_h && success_q && success_s && true);
      apply spec_ret; apply Hdone; reflexivity.
Qed.

(** X12.  POST /advice/harvest with an object always runs its three
    retrievals (harvests, quality issues, schedules), and the farm lookup
    as a fourth exactly when [farm_id] is given and not empty: no
    retrieval is skipped because an earlier one failed.  All of them are
    SELECTs. *)
Theorem advice_runs_every_retrieval {E : Env} (ct : option string)
  (kvs : list (string * value)) (w : world) :
  exists (harvest_sql qc_sql schedule_sql : string)
         (harvest_params qc_params schedule_params : list query_param),
    trace (snd (entry_point Agrioptimize (post "/advice/harvest" ct (VDict kvs)) w))
    = (trace w
       ++ Query harvest_sql harvest_params :: Query qc_sql qc_params
          :: Query schedule_sql schedule_params
          :: (if truthy (farm_id_of kvs)
              then [Query agrioptimize.farm_query
                      [ScalarQueryParameter "farm_id_f" "STRING" (farm_id_of kvs)]]
              else []))%list
    /\ is_select harvest_sql = true /\ is_select qc_sql = true
    /\ is_select schedule_sql = true.
Proof.
  change (entry_point Agrioptimize (post "/advice/harvest" ct (VDict kvs)))
    with (respond (agrioptimize.handle_get_harvest_advice (VDict kvs))).
  destruct (advice_calls_spec kvs w) as [new [Ha Hq]].
  destruct Hq as (hs & qs & ss & hp & qp & sp & -> & Hh & Hq & Hs).
  exists hs, qs, ss, hp, qp, sp.
  split; [|auto].
  unfold respond, bind, ret.
  destruct (agrioptimize.handle_get_harvest_advice (VDict kvs) w)
    as [[[status_code response_body]|e] w1]; exact Ha.
Qed.

(** The three sums of [/inventory/available]: any failed retrieval makes
    the answer a 500; a 200 comes from three retrievals that succeeded. *)
Definition all_or_nothing {E : Env} (r : result (Z * value)) (new : list event) : Prop :=
  (existsb failed new = true ->
   (exists body, r = Ok (500, body)) \/ (exists e, r = Raise e))
  /\ (forall body, r = Ok (200, body) ->
      exists q1 p1 q2 p2 q3 p3, new = [Query q1 p1; Query q2 p2; Query q3 p3]).

Ltac all_or_nothing_side :=
  intros; cbv beta;
  first
    [ match goal with
      | H : all_or_nothing (Raise _) ?new |- all_or_nothing _ ?new =>
          split;
          [intros _; left; eexists; reflexivity
          |let body := fresh "body" in let Heq := fresh "Heq" in
           intros body Heq; discriminate Heq]
      end
    | split;
      [ let Hfail := fresh "Hfail" in
        intros Hfail;
        repeat match goal with
               | H : fetch_result (client_query ?q ?p) = (?b, ?v) |- _ =>
                   let Hf := fresh "Hf" in
                   destruct (fetch_event q p b v H) as [Hf _];
                   clear H
               end;
        cbn [existsb] in Hfail;
        repeat match goal with
               | H : failed _ = _ |- _ => rewrite H in Hfail; clear H
               end;
        cbn [negb orb] in Hfail;
        first [ discriminate Hfail
              | left; eexists; reflexivity
              | right; eexists; reflexivity ]
      | let body := fresh "body" in let Heq := fresh "Heq" in
        intros body Heq;
        first [ discriminate Heq
              | do 6 eexists; reflexivity ] ] ].

Lemma all_or_nothing_spec {E : Env} (data : value) :
  spec (marketflow.handle_check_product_availability data) all_or_nothing.
Proof.
  unfold marketflow.handle_check_product_availability, marketflow.missing_body.
  repeat spec_step all_or_nothing_side.
Qed.

(** X13.  POST /inventory/available never answers with partial data:
    whenever one of its retrievals failed, the answer is a 500; and a 200
    comes from exactly three queries (stock, incoming shipments, planned
    harvests), none of which failed. *)
Theorem availability_all_or_nothing {E : Env} (ct : option string) (data body : value)
  (code : Z) (w w' : world) (new : list event) :
  entry_point Marketflow (post "/inventory/available" ct data) w
  = (Ok (Json body, code), w') ->
  added w w' new ->
  (existsb failed new = true -> code = 500)
  /\ (code = 200 ->
      existsb failed new = false
      /\ exists q1 p1 q2 p2 q3 p3, new = [Query q1 p1; Query q2 p2; Query q3 p3]).
Proof.
  intros Hrun Hadded.
  destruct (is_none data) eqn:Hbody.
  { apply is_none_eq in Hbody. subst data.
    destruct (post_none_run Marketflow "/inventory/available" ct w)
      as (body' & code' & Hnull & Hcode).
    rewrite Hnull in Hrun. injection Hrun as _ -> <-.
    rewrite (added_unique _ _ _ _ Hadded (added_nil w)).
    split; [discriminate|]. intros ->. destruct Hcode; discriminate. }
  rewrite (route_marketflow _ _ _ Hbody) in Hrun.
  cbn [String.eqb Ascii.eqb Bool.eqb] in Hrun.
  destruct (all_or_nothing_spec data w) as [new' [Ha [Hfail Hok]]].
  unfold respond, bind, ret in Hrun.
  destruct (marketflow.handle_check_product_availability data w)
    as [[[status_code response_body]|e] w1]; [|discriminate Hrun].
  injection Hrun as -> -> ->. cbn [fst snd] in Ha, Hfail, Hok.
  rewrite (added_unique _ _ _ _ Hadded Ha).
  assert (H500 : existsb failed new' = true -> code = 500).
  { intros Hf. destruct (Hfail Hf) as [[b Hb]|[e He]]; [|discriminate He].
    injection Hb as -> _. reflexivity. }
  split; [exact H500|].
  intros ->. split; [|exact (Hok body eq_refl)].
  destruct (existsb failed new') eqn:Hf; [|reflexivity].
  discriminate (H500 eq_refl).
Qed.

(** A warehouse where the shipments cannot be read. *)
Definition shipments_down (sql : string) (params : list query_param) : query_outcome :=
  if str_contains "shipments" sql then QueryRaises GoogleAPIError "backend error"
  else Rows [VDict [("total_on_hand", VInt 40); ("num_locations", VInt 2);
                    ("total_upcoming_harvest", VNone)]].

Lemma availability_all_or_nothing_witness :
  let E := example_env shipments_down insert_ok no_http in
  let run := entry_point Marketflow
               (post "/inventory/available" (Some "application/json")
                     (VDict [("product_id", VStr "P-1")])) w0 in
  existsb failed (trace (snd run)) = true /\ status_of run = Some 500.
Proof.
  intros E run.
  assert (Hfailed : existsb failed (trace (snd run)) = true) by (vm_compute; reflexivity).
  split; [exact Hfailed|].
  destruct run as [[[[s|body|v] code]|e] w'] eqn:Hrun;
    try (vm_compute in Hrun; discriminate Hrun).
  cbn [snd] in Hfailed. unfold status_of. cbn [fst]. f_equal.
  exact (proj1 (@availability_all_or_nothing E (Some "application/json")
                  (VDict [("product_id", VStr "P-1")]) body code w0 w' (trace w')
                  Hrun eq_refl) Hfailed).
Defined.

(** ** Dates are stored as they are read *)

Lemma list_ascii_of_append (s1 s2 : string) :
  list_ascii_of_string (s1 ++ s2)
  = (list_ascii_of_string s1 ++ list_ascii_of_string s2)%list.
Proof.
  induction s1 as [|c s1 IH]; cbn [append list_ascii_of_string app];
    [reflexivity|rewrite IH; reflexivity].
Qed.

(** An ASCII digit is a decimal digit, with the same value. *)
Lemma parse_digit_ascii (a : ascii) (x : Z) (rest : list ascii) :
  digit a = Some x -> parse_digit (a :: rest) = Some (x, rest).
Proof.
  destruct a as [[] [] [] [] [] [] [] []]; intros H; vm_compute in H;
    try discriminate H; injection H as <-; reflexivity.
Qed.

(** The four digits of a year are read back as the year. *)
Definition year_read_back (y : Z) : bool :=
  match list_ascii_of_string (pad0 4 y) with
  | [a; b; c; d] =>
      match digit a, digit b, digit c, digit d with
      | Some a, Some b, Some c, Some d => (a * 1000 + b * 100 + c * 10 + d) =? y
      | _, _, _, _ => false
      end
  | _ => false
  end.

(** [start, start + 1, ...], [n] numbers. *)
Fixpoint range (n : nat) (start : Z) : list Z :=
  match n with
  | O => []
  | S k => start :: range k (start + 1)
  end.

Lemma in_range (n : nat) :
  forall start y, start <= y < start + Z.of_nat n -> In y (range n start).
Proof.
  induction n as [|k IH]; intros start y H; [lia|].
  cbn [range]. destruct (Z.eq_dec y start) as [->|Hne]; [left; reflexivity|].
  right. apply IH. lia.
Qed.

Lemma years_read_back :
  forallb year_read_back (range (Z.to_nat 9999) 1) = true.
Proof. vm_compute. reflexivity. Qed.

Lemma parse_year_pad (y : Z) (tail : list ascii) :
  1 <= y <= 9999 ->
  parse_year (list_ascii_of_string (pad0 4 y) ++ tail) = Some (y, tail).
Proof.
  intros Hy.
  assert (Hin : In y (range (Z.to_nat 9999) 1)) by (apply in_range; lia).
  pose proof (proj1 (forallb_forall _ _) years_read_back y Hin) as Hread.
  unfold year_read_back in Hread.
  destruct (list_ascii_of_string (pad0 4 y)) as [|a [|b [|c [|d [|]]]]];
    try discriminate Hread.
  destruct (digit a) as [da|] eqn:Ha; [|discriminate Hread].
  destruct (digit b) as [db|] eqn:Hb; [|discriminate Hread].
  destruct (digit c) as [dc|] eqn:Hc; [|discriminate Hread].
  destruct (digit d) as [dd|] eqn:Hd; [|discriminate Hread].
  cbn [app]. unfold parse_year.
  rewrite (parse_digit_ascii _ _ _ Ha), (parse_digit_ascii _ _ _ Hb),
    (parse_digit_ascii _ _ _ Hc), (parse_digit_ascii _ _ _ Hd).
  apply Z.eqb_eq in Hread. rewrite Hread. reflexivity.
Qed.

Lemma parse_month_pad (m : Z) (tail : list ascii) :
  1 <= m <= 12 ->
  parse_month (list_ascii_of_string (pad0 2 m) ++ tail) = Some (m, tail).
Proof.
  intros Hm.
  assert (H : m = 1 \/ m = 2 \/ m = 3 \/ m = 4 \/ m = 5 \/ m = 6 \/ m = 7 \/ m = 8
              \/ m = 9 \/ m = 10 \/ m = 11 \/ m = 12) by lia.
  repeat destruct H as [->|H]; try subst m; reflexivity.
Qed.

Lemma parse_day_pad (d : Z) :
  1 <= d <= 31 ->
  parse_day (list_ascii_of_string (pad0 2 d)) = Some (d, []).
Proof.
  intros Hd.
  assert (H : In d (range 31 1)) by (apply in_range; lia).
  cbn [range Z.add Pos.add Pos.succ] in H.
  repeat destruct H as [<-|H]; try reflexivity. destruct H.
Qed.

Lemma valid_date_bounds (y m d : Z) :
  valid_date y m d = true -> 1 <= y <= 9999 /\ 1 <= m <= 12 /\ 1 <= d <= 31.
Proof.
  unfold valid_date, MINYEAR, MAXYEAR. intros H.
  repeat (apply andb_prop in H; destruct H as [H ?]).
  repeat match goal with
         | H : (_ <=? _) = true |- _ => apply Z.leb_le in H
         end.
  assert (days_in_month y m <= 31).
  { unfold days_in_month.
    destruct (m =? 2); [destruct (is_leap y); lia|].
    destruct ((m =? 4) || (m =? 6) || (m =? 9) || (m =? 11)); lia. }
  lia.
Qed.

Lemma strptime_isoformat (y m d : Z) :
  valid_date y m d = true ->
  strptime_date (VStr (date_isoformat (mkdate y m d))) = Ok (mkdate y m d).
Proof.
  intros Hvalid. destruct (valid_date_bounds y m d Hvalid) as (Hy & Hm & Hd).
  unfold strptime_date, parse_ymd, date_isoformat. cbn [year month day].
  rewrite list_ascii_of_append, (parse_year_pad y _ Hy).
  rewrite list_ascii_of_append. cbn [list_ascii_of_string app expect_dash].
  rewrite list_ascii_of_append, (parse_month_pad m _ Hm).
  rewrite list_ascii_of_append. cbn [list_ascii_of_string app expect_dash].
  rewrite (parse_day_pad d Hd), Hvalid. reflexivity.
Qed.

(** The row a run of [/harvest] inserts holds the date read from the
    request, in ISO form. *)
Definition harvest_date_stored (data : value) (r : result (Z * value))
  (new : list event) : Prop :=
  forall table row rest, new = InsertRowsJson table [row] :: rest ->
    exists d, and_then (getitem data "harvest_date") strptime_date = Ok d
              /\ field "harvest_date" row = Some (VStr (date_isoformat d)).

Lemma harvest_date_stored_spec {E : Env} (data : value) :
  spec (agrioptimize.handle_log_harvest data) (harvest_date_stored data).
Proof.
  unfold agrioptimize.handle_log_harvest, agrioptimize.missing_body.
  apply spec_if_missing;
    [intro; apply spec_ret; intros ? ? ? H; discriminate H
    |intros e ? ? ? H; discriminate H|].
  apply spec_try_ret; [|intros e new H; exact H].
  unfold catching at 1.
  destruct (and_then (getitem data "harvest_date") strptime_date)
    as [harvest_date_obj|e] eqn:Hdate.
  2: { destruct (existsb (exc_eqb e) [ValueError; TypeError]);
         [apply spec_ret|apply spec_raise]; intros ? ? ? H; discriminate H. }
  repeat spec_step ltac:(intros; cbv beta;
                         let t := fresh "t" in let row := fresh "row" in
                         let rest := fresh "rest" in let H := fresh "H" in
                         intros t row rest H;
                         first [discriminate H
                               |injection H as <- <- <-;
                                exists harvest_date_obj;
                                split; [exact Hdate|reflexivity]]).
Qed.

(** X14.  Dates make the round trip: the ISO text of a valid date is
    read back by [strptime(..., '%Y-%m-%d')] as that date.  POST /harvest
    stores in the row the ISO text of the date it read from
    [harvest_date]; so a [harvest_date] that is the ISO text of a valid
    date is stored as it was sent. *)
Theorem harvest_date_round_trip {E : Env} :
  (forall y m d : Z,
      valid_date y m d = true ->
      strptime_date (VStr (date_isoformat (mkdate y m d))) = Ok (mkdate y m d))
  /\ (forall (kvs : list (string * value)) (y m d : Z) (w : world)
             (table : string) (row : value) (rest : list event),
         valid_date y m d = true ->
         assoc "harvest_date" kvs = Some (VStr (date_isoformat (mkdate y m d))) ->
         added w (snd (agrioptimize.handle_log_harvest (VDict kvs) w))
               (InsertRowsJson table [row] :: rest) ->
         field "harvest_date" row = assoc "harvest_date" kvs).
Proof.
  split; [exact strptime_isoformat|].
  intros kvs y m d w table row rest Hvalid Hdate Hadded.
  destruct (harvest_date_stored_spec (VDict kvs) w) as [new [Ha Hq]].
  rewrite (added_unique _ _ _ _ Ha Hadded) in Hq.
  destruct (Hq table row rest eq_refl) as (d' & Hread & Hstored).
  cbn [getitem] in Hread. rewrite Hdate in Hread. cbn [and_then] in Hread.
  rewrite (strptime_isoformat y m d Hvalid) in Hread. injection Hread as <-.
  rewrite Hstored, Hdate. reflexivity.
Qed.

Lemma harvest_date_round_trip_witness :
  let E := example_env no_rows insert_ok no_http in
  strptime_date (VStr "2024-02-29") = Ok (mkdate 2024 2 29)
  /\ exists row rest,
       trace (snd (agrioptimize.handle_log_harvest harvest_request w0))
       = InsertRowsJson agrioptimize.HARVEST_RECORDS_TABLE [row] :: rest
       /\ field "harvest_date" row = Some (VStr "2025-06-01").
Proof.
  intros E. split.
  - exact (proj1 (@harvest_date_round_trip E) 2024 2 29 eq_refl).
  - destruct (trace (snd (agrioptimize.handle_log_harvest harvest_request w0)))
      as [|[sql params|table [|row [|]]|url params|url payload headers] rest] eqn:Htrace;
      try (vm_compute in Htrace; discriminate Htrace).
    exists row, rest.
    assert (Htable : table = agrioptimize.HARVEST_RECORDS_TABLE).
    { vm_compute in Htrace. injection Htrace as <- _ _. reflexivity. }
    subst table. split; [reflexivity|].
    exact (proj2 (@harvest_date_round_trip E)
             [("farm_id", VStr "F1"); ("product_id", VStr "P1");
              ("harvested_quantity_kg", VInt 120); ("harvest_date", VStr "2025-06-01")]
             2025 6 1 w0 _ row rest eq_refl eq_refl Htrace).
Defined.

(** ** A shipment that is found *)

(** [shipment_info.get('requires_cold_chain', False)] of a row. *)
Definition requires_cold_chain (fields : list (string * value)) : value :=
  match assoc "requires_cold_chain" fields with Some v => v | None => VBool false end.

(** When the warehouse returned the shipment, the answer is a 200 that
    carries it, whatever becomes of the cold chain readings. *)
Definition shipment_answered {E : Env} (r : result (Z * value)) (new : list event) : Prop :=
  forall sql params fields rows rest,
    new = Query sql params :: rest ->
    client_query sql params = Rows (VDict fields :: rows) ->
    (exists body,
        r = Ok (200, body)
        /\ field "shipment_details" body = Some (VDict fields)
        /\ field "status" body
           = Some (VStr (if existsb failed rest then "warning" else "success")))
    /\ (if truthy (requires_cold_chain fields)
        then exists cold_chain_params,
               rest = [Query logifresh.cold_chain_query cold_chain_params]
        else rest = []).

Ltac no_shipment :=
  intros; cbv beta;
  let H := fresh "H" in
  intros ? ? ? ? ? H; first [discriminate H|intros; congruence].

Lemma shipment_answered_spec {E : Env} (data : value) :
  spec (logifresh.handle_track_shipment_location data) shipment_answered.
Proof.
  unfold logifresh.handle_track_shipment_location, logifresh.missing_body.
  apply spec_if_missing; [intro; apply spec_ret; no_shipment|no_shipment|].
  apply spec_try_ret.
  2: { intros e new H sql params fields rows rest Hnew Hq.
       destruct (H sql params fields rows rest Hnew Hq) as [(body & Hr & _) _].
       discriminate Hr. }
  apply spec_bind_lift; [no_shipment|]. intros shipment_id Hid. cbv zeta.
  apply spec_bind_fetch. cbv beta.
  destruct (client_query logifresh.shipment_query
              [ScalarQueryParameter "shipment_id" "STRING" shipment_id])
    as [[|row others]|c msg] eqn:Hshipment.
  - cbn [fetch_result negb truthy]. apply spec_ret.
    intros sql params fields rows rest [= <- <- <-] Hq. congruence.
  - cbn [fetch_result negb truthy].
    apply spec_bind_lift;
      [intros e He; discriminate He|]. intros shipment_info [= <-].
    apply spec_bind_lift.
    { intros e He sql params fields rows rest [= <- <- <-] Hq.
      rewrite Hshipment in Hq. injection Hq as -> _. discriminate He. }
    intros requires Hrequires.
    destruct (truthy requires) eqn:Htruthy.
    + apply spec_bind_assoc. apply spec_bind_fetch. cbv beta.
      destruct (fetch_result (client_query logifresh.cold_chain_query _))
        as [success_cc cold_chain_readings] eqn:Hcc.
      apply spec_bind_ret. cbv beta iota zeta.
      destruct (fetch_event _ _ _ _ Hcc) as [Hfailed _].
      destruct success_cc; cbn [andb negb]; apply spec_ret;
        intros sql params fields rows rest [= <- <- <-] Hq;
        rewrite Hshipment in Hq; injection Hq as -> ->;
        (assert (Hreq : requires = requires_cold_chain fields)
          by (injection Hrequires as <-; reflexivity));
        rewrite <- Hreq, Htruthy;
        (split; [|eexists; reflexivity]);
        eexists; (split; [reflexivity|]); (split; [reflexivity|]);
        cbn [existsb]; rewrite Hfailed; reflexivity.
    + apply spec_bind_ret. cbv beta iota zeta. cbn [andb].
      apply spec_ret.
      intros sql params fields rows rest [= <- <- <-] Hq.
      rewrite Hshipment in Hq. injection Hq as -> ->.
      assert (Hreq : requires = requires_cold_chain fields)
        by (injection Hrequires as <-; reflexivity).
      rewrite <- Hreq, Htruthy.
      split; [|reflexivity].
      eexists. split; [reflexivity|]. split; reflexivity.
  - destruct c; cbn [fetch_result negb]; apply spec_ret;
      intros sql params fields rows rest [= <- <- <-] Hq; congruence.
Qed.

(** X15.  When the warehouse returns the shipment asked for, POST
    /shipment/status answers 200 with that row as [shipment_details]: the
    cold chain readings are asked for exactly when the row requires a
    cold chain, and a failure to read them only turns the status from
    "success" into "warning". *)
Theorem found_shipment_is_answered {E : Env} (ct : option string) (data : value)
  (w : world) (sql : string) (params : list query_param)
  (fields : list (string * value)) (rows : list value) (rest : list event) :
  let run := entry_point Logifresh (post "/shipment/status" ct data) w in
  added w (snd run) (Query sql params :: rest) ->
  client_query sql params = Rows (VDict fields :: rows) ->
  (exists body,
      fst run = Ok (Json body, 200)
      /\ field "shipment_details" body = Some (VDict fields)
      /\ field "status" body
         = Some (VStr (if existsb failed rest then "warning" else "success")))
  /\ (if truthy (requires_cold_chain fields)
      then exists cold_chain_params,
             rest = [Query logifresh.cold_chain_query cold_chain_params]
      else rest = []).
Proof.
  cbv zeta.
  destruct (is_none data) eqn:Hbody.
  { apply is_none_eq in Hbody. subst data.
    destruct (post_none_run Logifresh "/shipment/status" ct w)
      as (body' & code & -> & Hcode).
    cbn [snd]. intros Hadded.
    pose proof (added_unique _ _ _ _ (added_nil w) Hadded) as Hnew. discriminate Hnew. }
  rewrite (route_logifresh _ _ _ Hbody). cbn [String.eqb Ascii.eqb Bool.eqb].
  intros Hadded Hq.
  destruct (shipment_answered_spec data w) as [new [Ha Hspec]].
  unfold respond, bind, ret in *.
  destruct (logifresh.handle_track_shipment_location data w)
    as [[[status_code response_body]|e] w1]; cbn [fst snd] in *;
    rewrite (added_unique _ _ _ _ Ha Hadded) in Hspec;
    destruct (Hspec sql params fields rows rest eq_refl Hq)
      as [(body & Hr & Hdetails & Hstatus) Hrest];
    [|discriminate Hr].
  injection Hr as -> ->.
  split; [|exact Hrest]. exists body. auto.
Qed.

Lemma found_shipment_is_answered_witness :
  let E := example_env cold_chain_down insert_ok no_http in
  let run := entry_point Logifresh
               (post "/shipment/status" (Some "application/json")
                     (VDict [("shipment_id", VStr "S-1")])) w0 in
  exists body,
    fst run = Ok (Json body, 200)
    /\ field "status" body = Some (VStr "warning")
    /\ field "shipment_details" body
       = Some (VDict [("shipment_id", VStr "S-1"); ("requires_cold_chain", VBool true)]).
Proof.
  intros E run.
  destruct (trace (snd run)) as [|[sql params|t r|u p|u p h] rest] eqn:Htrace;
    try (vm_compute in Htrace; discriminate Htrace).
  assert (Hq : client_query sql params
               = Rows [VDict [("shipment_id", VStr "S-1");
                              ("requires_cold_chain", VBool true)]]).
  { vm_compute in Htrace. injection Htrace as <- <- _. reflexivity. }
  assert (Hfailed : existsb failed rest = true).
  { vm_compute in Htrace. injection Htrace as _ _ <-. reflexivity. }
  destruct (@found_shipment_is_answered E (Some "application/json")
              (VDict [("shipment_id", VStr "S-1")]) w0 sql params _ _ rest Htrace Hq)
    as [(body & Hr & Hdetails & Hstatus) _].
  exists body. rewrite Hfailed in Hstatus. auto.
Defined.

(** ** The pickup receiver *)

(** The receiver called nothing, and what it answered is a 200. *)
Definition acknowledged (r : result (Z * value)) (new : list event) : Prop :=
  new = [] /\ forall status_code body, r = Ok (status_code, body) -> status_code = 200.

Lemma acknowledged_spec {E : Env} (data : value) :
  spec (logifresh.handle_schedule_farm_pickup_logistics data) acknowledged.
Proof.
  unfold logifresh.handle_schedule_farm_pickup_logistics.
  repeat spec_step ltac:(intros; cbv beta; split;
                         [reflexivity
                         |let c := fresh "c" in let b := fresh "b" in
                          let H := fresh "H" in
                          intros c b H;
                          first [discriminate H|injection H as <- _; reflexivity]]).
Qed.

(** X16.  The receiver of pickup requests never rejects a request
    whose body it is handed: when POST /logistics/schedule-pickup-request
    carries a JSON body other than [null], every answer is a 200,
    whether the request is complete, incomplete or cannot be
    processed.  (Without such a body the entry point answers 415 or 400
    before the receiver runs.)  In both cases the run calls no service:
    it records nothing. *)
Theorem pickup_request_always_200 {E : Env} (ct : option string) (data : value)
  (w w' : world) (response : response) :
  entry_point Logifresh (post "/logistics/schedule-pickup-request" ct data) w
  = (Ok response, w') ->
  (is_none data = false -> snd response = 200)
  /\ (is_none data = true -> snd response = 415 \/ snd response = 400)
  /\ w' = w.
Proof.
  intros Hrun.
  destruct (is_none data) eqn:Hbody.
  { apply is_none_eq in Hbody. subst data.
    destruct (post_none_run Logifresh "/logistics/schedule-pickup-request" ct w)
      as (body' & code & Hnull & Hcode).
    rewrite Hnull in Hrun. injection Hrun as <- <-. cbn [snd].
    split; [discriminate|]. split; [intros _; exact Hcode|reflexivity]. }
  rewrite (route_logifresh _ _ _ Hbody) in Hrun.
  cbn [String.eqb Ascii.eqb Bool.eqb] in Hrun.
  cut (snd response = 200 /\ w' = w).
  { intros [H200 Hw]. split; [intros _; exact H200|]. split; [discriminate|exact Hw]. }
  assert (Hsame : snd (logifresh.handle_schedule_farm_pickup_logistics data w) = w).
  { unfold logifresh.handle_schedule_farm_pickup_logistics, if_missing, bind, ret, lift.
    destruct (negb (truthy data));
      [|destruct (all_in _ data) as [[|]|]; cbn [negb]];
      try reflexivity;
      try (destruct (missing_fields _ data); reflexivity).
    destruct (get data "farm_id"); reflexivity. }
  destruct (acknowledged_spec data w) as [new [_ [_ Hcode]]].
  unfold respond, bind, ret in Hrun.
  destruct (logifresh.handle_schedule_farm_pickup_logistics data w)
    as [[[status_code response_body]|e] w1]; [|discriminate Hrun].
  injection Hrun as <- <-. cbn [fst snd] in *.
  split; [exact (Hcode _ _ eq_refl)|exact Hsame].
Qed.

Lemma pickup_request_always_200_witness :
  let E := example_env no_rows insert_ok no_http in
  entry_point Logifresh
    (post "/logistics/schedule-pickup-request" (Some "application/json")
          (VList [VStr "farm_id"; VStr "product_id"; VStr "quantity_kg";
                  VStr "requested_date"])) w0
  = (Ok (Json (VDict [("status", VStr "error");
                      ("message",
                       VStr "Error processing logistics pickup request: 'list' object has no attribute 'get'")]),
         200), w0).
Proof.
  intros E.
  destruct (entry_point Logifresh
              (post "/logistics/schedule-pickup-request" (Some "application/json")
                    (VList [VStr "farm_id"; VStr "product_id"; VStr "quantity_kg";
                            VStr "requested_date"])) w0)
    as [[response|e] w'] eqn:Hrun; [|vm_compute in Hrun; discriminate Hrun].
  destruct (@pickup_request_always_200 E _ _ w0 w' response Hrun) as (Hcode & _ & ->).
  specialize (Hcode eq_refl).
  vm_compute in Hrun. injection Hrun as <-. reflexivity.
Defined.
